(** * The batch status report (scripts/get_batch_status.py)

    A shallow embedding of the job status collector: the listing of job ids
    with its pagination loop, the per-job detail records, the CloudWatch
    resource-usage query loop, the module summaries and [main].

    Python values returned by the AWS clients are kept as a small value type
    ([pyval]); exceptions, the log, sleeps and CSV writes are explicit. *)

From Stdlib Require Import List String Ascii ZArith QArith Bool Lia Arith.
From Stdlib Require Import DecimalString Permutation.
Import ListNotations.
Local Open Scope string_scope.
Local Open Scope Z_scope.

(** ** Text *)

Module Text.

(** [needle in hay] on two [str] values. *)
Fixpoint str_in (needle hay : string) : bool :=
  if String.prefix needle hay then true
  else match hay with
       | EmptyString => false
       | String _ rest => str_in needle rest
       end.

(** [sep.join(parts)]. *)
Definition join (sep : string) (parts : list string) : string :=
  String.concat sep parts.

(** [s.split(sep)] for a one-character separator; [cur] is the piece being
    read. The result is never empty. *)
Fixpoint split_aux (sep : ascii) (s cur : string) : list string :=
  match s with
  | EmptyString => [cur]
  | String c rest =>
      if Ascii.eqb c sep then cur :: split_aux sep rest EmptyString
      else split_aux sep rest (cur ++ String c EmptyString)
  end.

Definition split (sep : ascii) (s : string) : list string :=
  split_aux sep s EmptyString.

(** [s.split(sep)[-1]]. *)
Definition split_last (sep : ascii) (s : string) : string :=
  List.last (split sep s) EmptyString.

(** [s.replace(a, b)] for one-character [a] and [b]. *)
Fixpoint replace (a b : ascii) (s : string) : string :=
  match s with
  | EmptyString => EmptyString
  | String c rest => String (if Ascii.eqb c a then b else c) (replace a b rest)
  end.

(** [str(n)] for an [int]. *)
Definition of_Z (z : Z) : string :=
  NilZero.string_of_int (Z.to_int z).

Definition hex_digit (n : N) : ascii :=
  match n with
  | 0%N => "0" | 1%N => "1" | 2%N => "2" | 3%N => "3" | 4%N => "4"
  | 5%N => "5" | 6%N => "6" | 7%N => "7" | 8%N => "8" | 9%N => "9"
  | 10%N => "a" | 11%N => "b" | 12%N => "c" | 13%N => "d" | 14%N => "e"
  | _ => "f"
  end%char.

(** One character of [repr(s)] inside the quote [q]. Characters are code
    points below 256. *)
Definition repr_char (q c : ascii) : string :=
  let n := N_of_ascii c in
  if Ascii.eqb c "\"%char then "\\"
  else if Ascii.eqb c q then String "\"%char (String q EmptyString)
  else if (n =? 9)%N then "\t"
  else if (n =? 10)%N then "\n"
  else if (n =? 13)%N then "\r"
  else if ((n <? 32)%N || ((127 <=? n)%N && (n <=? 160)%N) || (n =? 173)%N)%bool
       then String "\"%char (String "x"%char
              (String (hex_digit (n / 16)) (String (hex_digit (n mod 16)) EmptyString)))
  else String c EmptyString.

Fixpoint repr_body (q : ascii) (s : string) : string :=
  match s with
  | EmptyString => EmptyString
  | String c rest => repr_char q c ++ repr_body q rest
  end.

Fixpoint has_char (c : ascii) (s : string) : bool :=
  match s with
  | EmptyString => false
  | String d rest => Ascii.eqb c d || has_char c rest
  end.

Definition dquote : ascii := ascii_of_nat 34.

(** [repr(s)] for a [str]: single quotes, unless the text has a single quote
    and no double quote. *)
Definition repr (s : string) : string :=
  let q := if (has_char "'"%char s && negb (has_char dquote s))%bool
           then dquote else "'"%char in
  String q (repr_body q s ++ String q EmptyString).

End Text.

(** ** Exceptions and outcomes *)

(** The values the AWS clients return: JSON-like Python data. *)
#[warnings="-register-all"] Inductive pyval : Type :=
| PNone
| PBool (b : bool)
| PInt (z : Z)
| PStr (s : string)
| PList (items : list pyval)
| PDict (entries : list (string * pyval)).

Inductive exn : Type :=
| KeyError (key : pyval)
| IndexError
| TypeError
| AttributeError
| ValueError
| UnboundLocalError (var : string)
| ClientError (msg : string)
| OverflowError.

(** What an expression, or a call of a client, gives: a value or a raised
    exception. *)
Inductive result (A : Type) : Type :=
| Ok (a : A)
| Raise (e : exn).
Arguments Ok {A} a.
Arguments Raise {A} e.

(** What running a piece of the script with loops gives: it finishes with
    a result, or the loop budget of the model ran out before the code
    returned. [Diverge] is not an exception: no [except] clause sees it. *)
Inductive outcome (A : Type) : Type :=
| Finished (r : result A)
| Diverge.
Arguments Finished {A} r.
Arguments Diverge {A}.

Definition bind {A B} (m : result A) (k : A -> result B) : result B :=
  match m with
  | Ok a => k a
  | Raise e => Raise e
  end.

Declare Scope py_scope.
Delimit Scope py_scope with py.
Notation "x <- m ;; k" := (bind m (fun x => k))
  (at level 61, m at next level, right associativity) : py_scope.
Local Open Scope py_scope.

(** [for x in xs: body], stopping at the first exception. *)
Fixpoint mapM {A B} (f : A -> result B) (xs : list A) : result (list B) :=
  match xs with
  | [] => Ok []
  | x :: rest =>
      y <- f x ;;
      ys <- mapM f rest ;;
      Ok (y :: ys)
  end.

(** ** Operations on Python values *)

Module Py.

Fixpoint repr (v : pyval) : string :=
  match v with
  | PNone => "None"
  | PBool true => "True"
  | PBool false => "False"
  | PInt z => Text.of_Z z
  | PStr s => Text.repr s
  | PList items =>
      "[" ++ (fix go (l : list pyval) : string :=
                match l with
                | [] => ""
                | x :: rest =>
                    repr x ++ match rest with [] => "" | _ => ", " ++ go rest end
                end) items ++ "]"
  | PDict entries =>
      "{" ++ (fix go (l : list (string * pyval)) : string :=
                match l with
                | [] => ""
                | (k, x) :: rest =>
                    Text.repr k ++ ": " ++ repr x
                    ++ match rest with [] => "" | _ => ", " ++ go rest end
                end) entries ++ "}"
  end.

(** The text of the entries of a dict, between the braces. *)
Fixpoint entries_text (entries : list (string * pyval)) : string :=
  match entries with
  | [] => ""
  | (k, x) :: rest =>
      Text.repr k ++ ": " ++ repr x
      ++ match rest with [] => "" | _ => ", " ++ entries_text rest end
  end.

(** [str(v)]: the text of a [str] is the string itself, of anything else
    its [repr]. *)
Definition str (v : pyval) : string :=
  match v with
  | PStr s => s
  | _ => repr v
  end.

Fixpoint assoc (k : string) (entries : list (string * pyval)) : option pyval :=
  match entries with
  | [] => None
  | (k', v) :: rest => if String.eqb k k' then Some v else assoc k rest
  end.

(** [v[k]] for a [str] key. *)
Definition getitem (v : pyval) (k : string) : result pyval :=
  match v with
  | PDict entries =>
      match assoc k entries with
      | Some x => Ok x
      | None => Raise (KeyError (PStr k))
      end
  | _ => Raise TypeError
  end.

(** [v[n]] for an index [n >= 0]. *)
Definition index (v : pyval) (n : nat) : result pyval :=
  match v with
  | PList items =>
      match nth_error items n with
      | Some x => Ok x
      | None => Raise IndexError
      end
  | PStr s =>
      match String.get n s with
      | Some c => Ok (PStr (String c EmptyString))
      | None => Raise IndexError
      end
  | PDict _ => Raise (KeyError (PInt (Z.of_nat n)))
  | _ => Raise TypeError
  end.

(** [k in v] for a [str] key [k]: key of a dict, element of a list,
    substring of a [str]. *)
Definition contains (v : pyval) (k : string) : result bool :=
  match v with
  | PDict entries =>
      Ok (match assoc k entries with Some _ => true | None => false end)
  | PList items =>
      Ok (existsb (fun x => match x with PStr s => String.eqb s k | _ => false end) items)
  | PStr s => Ok (Text.str_in k s)
  | _ => Raise TypeError
  end.

Fixpoint chars (s : string) : list pyval :=
  match s with
  | EmptyString => []
  | String c rest => PStr (String c EmptyString) :: chars rest
  end.

(** The elements a [for] loop sees. *)
Definition iter (v : pyval) : result (list pyval) :=
  match v with
  | PList items => Ok items
  | PDict entries => Ok (map (fun e => PStr (fst e)) entries)
  | PStr s => Ok (chars s)
  | _ => Raise TypeError
  end.

Definition len (v : pyval) : result Z :=
  match v with
  | PList items => Ok (Z.of_nat (List.length items))
  | PDict entries => Ok (Z.of_nat (List.length entries))
  | PStr s => Ok (Z.of_nat (String.length s))
  | _ => Raise TypeError
  end.

(** [v > bound] where [bound] is a number. *)
Definition gt_num (v : pyval) (bound : Z) : result bool :=
  match v with
  | PInt z => Ok (bound <? z)
  | PBool b => Ok (bound <? (if b then 1 else 0))
  | _ => Raise TypeError
  end.

Definition is_none (v : pyval) : bool :=
  match v with PNone => true | _ => false end.

(** [v == s] for a [str] constant [s]. *)
Definition eq_str (v : pyval) (s : string) : bool :=
  match v with PStr t => String.eqb t s | _ => false end.

Definition truthy (v : pyval) : bool :=
  match v with
  | PNone => false
  | PBool b => b
  | PInt z => negb (z =? 0)
  | PStr s => negb (String.eqb s "")
  | PList items => match items with [] => false | _ => true end
  | PDict entries => match entries with [] => false | _ => true end
  end.

(** [a + b] where one side is known to be a [str]. *)
Definition add_str (a b : pyval) : result pyval :=
  match a, b with
  | PStr s, PStr t => Ok (PStr (s ++ t))
  | _, _ => Raise TypeError
  end.

(** [v.split("/")[-1]]. *)
Definition split_last (v : pyval) : result string :=
  match v with
  | PStr s => Ok (Text.split_last "/" s)
  | _ => Raise AttributeError
  end.

End Py.

Local Open Scope list_scope.

(** ** Tables *)

(** A value inside a parsed CloudWatch message: text, a number (an int or
    a finite float, by its value), [None], or anything else (a list, a
    dict). *)
Inductive logval : Type :=
| LStr (s : string)
| LNum (q : Q)
| LNone
| LOther.

(** One dict appended to [final_list] in [get_job_details]. *)
Record job_record : Type := {
  r_job_id : pyval;
  r_job_name : pyval;
  r_job_status : pyval;
  r_started_at : pyval;
  r_stopped_at : pyval;
  r_image : pyval;
  r_vcpus : pyval;
  r_memory : pyval;
  r_num_attempts : Z;
  r_num_of_instances : Z;
  r_instance_arn_endings : string;
  r_task_id : string;
  r_reasons : pyval
}.

(** A row of the job-details table: the record with both time columns
    converted by [pd.to_datetime]; [None] is NaT. *)
Record job_row : Type := {
  job_id : pyval;
  job_name : pyval;
  job_status : pyval;
  started_at : option Z;
  stopped_at : option Z;
  image : pyval;
  vcpus : pyval;
  memory : pyval;
  num_attempts : Z;
  num_of_instances : Z;
  instance_arn_endings : string;
  task_id : string;
  reasons : pyval
}.

(** One dict appended to [final_output] in [get_resource_usage]. *)
Record usage_record : Type := {
  u_task_id : logval;
  u_container_instance_id : logval;
  u_cpu_used : logval;
  u_cpu_passed : logval;
  u_memory_used : logval;
  u_memory_passed : logval
}.

(** A value that can be a group key: text or a number. *)
Inductive atom : Type :=
| AStr (s : string)
| ANum (q : Q).

(** A cell of the table of means: the float64 mean that pandas computes of
    the listed values, in this order, NaN when there is none. The rounding
    of the sum and of the division is not modelled: the cell names the
    values that are averaged. *)
Inductive mean_cell : Type :=
| Mean (values : list Q).

(** A row of the resource-usage table after [groupby(...).mean()]. *)
Record usage_row : Type := {
  g_task_id : atom;
  g_container_instance_id : atom;
  cpu_used : mean_cell;
  cpu_passed : mean_cell;
  memory_used : mean_cell;
  memory_passed : mean_cell
}.

(** A row of configs/job_names_and_modules.csv. *)
Record module_row : Type := {
  m_job_name : string;
  m_module_name : string;
  m_module_number : Z;
  m_main_module_name : string
}.

(** A module number cell: an int64, as [read_csv] reads the column of the
    mapping file, or the float64 that the column holds once a merge has
    left an empty cell in it. A float64 made from an int64 is a whole
    number: both are kept by their value. *)
Inductive number : Type :=
| NInt (z : Z)
| NFloat (z : Z).

(** The float64 cells of the summaries, by the operation that computes
    them; the rounding of the operation is not modelled. [Hours d] is a
    time difference of [d] milliseconds divided by [np.timedelta64(1, 'h')],
    [NoHours] the NaN that a NaT difference gives, and [Average cells] is
    [np.average] of the cells. *)
Inductive hours_cell : Type :=
| NoHours
| Hours (milliseconds : Z).

Inductive average_cell : Type :=
| Average (cells : list hours_cell).

(** A row of submodule_summary.csv; durations are in hours. *)
Record submodule_row : Type := {
  module_number_x : number;
  main_module_name_x : string;
  module_name : string;
  sub_started_at : option Z;
  sub_stopped_at : option Z;
  avg_duration_across_all_jobs : average_cell;
  job_counts : Z;
  duration : hours_cell
}.

(** A row of highlevel_summary.csv; the duration is the text HH:MM:SS. *)
Record highlevel_row : Type := {
  h_module_number_x : number;
  h_main_module_name_x : string;
  h_started_at : option Z;
  h_stopped_at : option Z;
  h_job_counts : Z;
  h_duration : option string
}.

(** A row of the job table that [main] writes: a job row, joined with the
    usage row of its task when there is one. *)
Definition output_row : Type := (job_row * option usage_row)%type.

Inductive table : Type :=
| JobTable (rows : list job_row)
| UsageTable (rows : list usage_row)
| OutputTable (rows : list output_row)
| SubmoduleTable (rows : list submodule_row)
| HighlevelTable (rows : list highlevel_row).

(** ** Effects *)

Inductive log_level : Type := INFO | WARNING | ERROR.

(** What the script does to the outside, in order. A [Log] keeps the format
    string of the source and the values formatted into it. *)
Inductive event : Type :=
| Log (level : log_level) (fmt : string) (args : list pyval)
| PrintTable (t : table)
| Sleep (seconds : Z)
| ListJobs (job_status : string) (next_token : option pyval)
| DescribeJobs (job : pyval)
| StartQuery (start_time end_time : Z)
| GetQueryResults (query_id : pyval)
| ToCsv (path : string) (t : table).

(** A piece of the script: it appends to the events so far. *)
Definition run (A : Type) : Type := list event -> outcome A * list event.

Definition ret {A} (a : A) : run A := fun tr => (Finished (Ok a), tr).

Definition lift {A} (r : result A) : run A := fun tr => (Finished r, tr).

Definition diverge {A} : run A := fun tr => (Diverge, tr).

Definition emit (e : event) : run unit := fun tr => (Finished (Ok tt), tr ++ [e]).

Definition bind_run {A B} (m : run A) (k : A -> run B) : run B :=
  fun tr =>
    match m tr with
    | (Finished (Ok a), tr') => k a tr'
    | (Finished (Raise e), tr') => (Finished (Raise e), tr')
    | (Diverge, tr') => (Diverge, tr')
    end.

Declare Scope run_scope.
Delimit Scope run_scope with run.
Notation "x <- m ;; k" := (bind_run m (fun x => k))
  (at level 61, m at next level, right associativity) : run_scope.
Notation "m ;;; k" := (bind_run m (fun _ => k))
  (at level 61, right associativity) : run_scope.

(** ** The script's globals and the services it calls *)

Record env : Type := {
  (** command line *)
  batch_job_queue : string;
  batch_start_time : string;
  batch_start_epoch : Z;          (* [batch_start_time] as local epoch seconds *)
  cloudwatch_log_group_name : option string;
  cloudwatch_query_interval : Z;
  (** set up in [__main__] *)
  output_path : string;
  job_modules_df : list module_row;   (* configs/job_names_and_modules.csv *)
  current_epoch_time : Z;         (* [datetime.now()] read by [get_resource_usage] *)
  (** [batch_client] and [log_client]; a poll of a query is told apart by
      its number, since the answer changes while the query runs *)
  list_jobs : string -> string -> option pyval -> result pyval;
  describe_jobs : pyval -> result pyval;
  start_query : option string -> Z -> Z -> result pyval;
  get_query_results : pyval -> nat -> result pyval;
  (** library behaviour left open: [ast.literal_eval] on a log message, and
      the order in which [list(set(...))] enumerates *)
  literal_eval : pyval -> result (list (string * logval));
  list_of_set : list string -> list string
}.

(** ** get_batch_job_id_list *)

Module JobIds.
Local Open Scope run_scope.

Definition status_needed : list string := ["SUCCEEDED"; "FAILED"; "RUNNING"].

(** The cutoff [epoch_batch_start], in milliseconds. *)
Definition epoch_batch_start (E : env) : Z := batch_start_epoch E * 1000.

(** [for x in summaries: if x['createdAt'] > epoch_batch_start:
    temp_job_ids.append(x['jobId'])]. *)
Fixpoint append_new (cutoff : Z) (summaries : list pyval) (temp_job_ids : list pyval)
  : result (list pyval) :=
  match summaries with
  | [] => Ok temp_job_ids
  | x :: rest =>
      (created <- Py.getitem x "createdAt" ;;
       newer <- Py.gt_num created cutoff ;;
       if newer
       then (id <- Py.getitem x "jobId" ;; append_new cutoff rest (temp_job_ids ++ [id]))
       else append_new cutoff rest temp_job_ids)%py
  end.

Definition scan_page (cutoff : Z) (response : pyval) (temp_job_ids : list pyval)
  : result (list pyval) :=
  (summaries <- Py.getitem response "jobSummaryList" ;;
   items <- Py.iter summaries ;;
   append_new cutoff items temp_job_ids)%py.

(** [response['nextToken'] if 'nextToken' in str(response) else None]
    (first page). *)
Definition first_token (response : pyval) : result pyval :=
  if Text.str_in "nextToken" (Py.str response)
  then Py.getitem response "nextToken"
  else Ok PNone.

(** [response['nextToken'] if 'nextToken' in response.keys() else None]
    (later pages). *)
Definition later_token (response : pyval) : result pyval :=
  match response with
  | PDict entries =>
      match Py.assoc "nextToken" entries with
      | Some t => Ok t
      | None => Ok PNone
      end
  | _ => Raise AttributeError
  end.

(** [while nextToken != None: ...]; [fuel] bounds the number of rounds. *)
Fixpoint paginate (E : env) (fuel : nat) (job_status : string)
    (nextToken : pyval) (temp_job_ids : list pyval) : run (list pyval) :=
  if Py.is_none nextToken then ret temp_job_ids
  else
    match fuel with
    | O => diverge
    | S fuel' =>
        emit (ListJobs job_status (Some nextToken)) ;;;
        response <- lift (list_jobs E (batch_job_queue E) job_status (Some nextToken)) ;;
        temp_job_ids' <- lift (scan_page (epoch_batch_start E) response temp_job_ids) ;;
        nextToken' <- lift (later_token response) ;;
        paginate E fuel' job_status nextToken' temp_job_ids'
    end.

(** The body of [for job_status in status_needed]: the ids of one status. *)
Definition ids_of_status (E : env) (fuel : nat) (job_status : string) : run (list pyval) :=
  emit (Log INFO "Getting Jobs IDs with %s status" [PStr job_status]) ;;;
  emit (ListJobs job_status None) ;;;
  response <- lift (list_jobs E (batch_job_queue E) job_status None) ;;
  temp_job_ids <- lift (scan_page (epoch_batch_start E) response []) ;;
  nextToken <- lift (first_token response) ;;
  temp_job_ids' <- paginate E fuel job_status nextToken temp_job_ids ;;
  emit (Log INFO "No. of jobs with %s status : %s"
          [PStr job_status; PInt (Z.of_nat (List.length temp_job_ids'))]) ;;;
  ret temp_job_ids'.

Fixpoint for_statuses (E : env) (fuel : nat) (statuses : list string)
    (job_id_list : list pyval) : run (list pyval) :=
  match statuses with
  | [] => ret job_id_list
  | job_status :: rest =>
      temp_job_ids <- ids_of_status E fuel job_status ;;
      for_statuses E fuel rest (job_id_list ++ temp_job_ids)
  end.

Definition get_batch_job_id_list (E : env) (fuel : nat) : run (list pyval) :=
  emit (Log INFO "Running for following statuses only : %s "
          [PList (map PStr status_needed)]) ;;;
  emit (Log INFO "Epoch Batch Start Time : %s" [PInt (epoch_batch_start E)]) ;;;
  job_id_list <- for_statuses E fuel status_needed [] ;;
  emit (Log INFO "No. of Job Ids fetched : %s " [PInt (Z.of_nat (List.length job_id_list))]) ;;;
  ret job_id_list.

End JobIds.

(** ** get_job_details *)

Module JobDetails.
Local Open Scope py_scope.

(** [[f(i) for i in attempts]] with
    [f(i) = i['container'][field].split("/")[-1]]. *)
Definition arn_endings (field : string) (attempts : list pyval) : result (list string) :=
  mapM (fun i =>
          container <- Py.getitem i "container" ;;
          arn <- Py.getitem container field ;;
          Py.split_last arn) attempts.

(** The loop over the attempts that builds [reasons]. *)
Fixpoint collect_reasons (attempts : list pyval) (reasons : pyval) : result pyval :=
  match attempts with
  | [] => Ok reasons
  | i :: rest =>
      if Text.str_in "reason" (Py.str i)
      then
        reasons' <-
          (if negb (Py.truthy reasons)
           then (container <- Py.getitem i "container" ;; Py.getitem container "reason")
           else (left <- Py.add_str reasons (PStr "|") ;;
                 container <- Py.getitem i "container" ;;
                 reason <- Py.getitem container "reason" ;;
                 Py.add_str left reason)) ;;
        collect_reasons rest reasons'
      else collect_reasons rest reasons
  end.

(** [d[key] if key in d else None]. *)
Definition get_or_none (d : pyval) (key : string) : result pyval :=
  present <- Py.contains d key ;;
  if present then Py.getitem d key else Ok PNone.

(** [container[key] if key in str(container) else
    container['resourceRequirements'][pos]['value']]. *)
Definition resource (container : pyval) (key : string) (pos : nat) : result pyval :=
  if Text.str_in key (Py.str container)
  then Py.getitem container key
  else (reqs <- Py.getitem container "resourceRequirements" ;;
        req <- Py.index reqs pos ;;
        Py.getitem req "value").

(** The statements of the [try] block after the call of [describe_jobs]:
    the record built from one response. *)
Definition parse_job (E : env) (job_id response : pyval) : result job_record :=
  jobs <- Py.getitem response "jobs" ;;
  job <- Py.index jobs 0 ;;
  job_status <- Py.getitem job "status" ;;
  arns_ids <-
    (if Py.eq_str job_status "RUNNING"
     then (container <- Py.getitem job "container" ;;
           arn <- Py.getitem container "containerInstanceArn" ;;
           instance <- Py.split_last arn ;;
           task_arn <- Py.getitem container "taskArn" ;;
           task <- Py.split_last task_arn ;;
           Ok ([instance], [task]))
     else (attempts <- Py.getitem job "attempts" ;;
           items <- Py.iter attempts ;;
           instances <- arn_endings "containerInstanceArn" items ;;
           tasks <- arn_endings "taskArn" items ;;
           Ok (list_of_set E instances, list_of_set E tasks))) ;;
  let container_instance_arns := fst arns_ids in
  let task_ids := snd arns_ids in
  attempts <- Py.getitem job "attempts" ;;
  items <- Py.iter attempts ;;
  reasons <- collect_reasons items PNone ;;
  job_name <- Py.getitem job "jobName" ;;
  started <- get_or_none job "startedAt" ;;
  stopped <- get_or_none job "stoppedAt" ;;
  container <- Py.getitem job "container" ;;
  image <- Py.getitem container "image" ;;
  vcpus <- resource container "vcpus" 0 ;;
  memory <- resource container "memory" 1 ;;
  num_attempts <- Py.len attempts ;;
  Ok {| r_job_id := job_id;
        r_job_name := job_name;
        r_job_status := job_status;
        r_started_at := started;
        r_stopped_at := stopped;
        r_image := image;
        r_vcpus := vcpus;
        r_memory := memory;
        r_num_attempts := num_attempts;
        r_num_of_instances := Z.of_nat (List.length container_instance_arns);
        r_instance_arn_endings := Text.join "|" container_instance_arns;
        r_task_id := Text.join "|" task_ids;
        r_reasons := reasons |}.

Local Open Scope run_scope.

(** The [except:] clause. It formats the local [response], which is bound
    only once a call of [describe_jobs] has returned: [None] here is the
    unbound state. *)
Definition handler (job_id : pyval) (response : option pyval) : run unit :=
  match response with
  | None => lift (Raise (UnboundLocalError "response"))
  | Some r =>
      emit (Log WARNING "The job id : %s failed parsing with response: %s" [job_id; r])
  end.

(** [for job_id in job_id_list: try: ... except: ...]. The locals that live
    across iterations are [final_list] and [response]. *)
Fixpoint for_jobs (E : env) (job_id_list : list pyval)
    (final_list : list job_record) (response : option pyval) : run (list job_record) :=
  match job_id_list with
  | [] => ret final_list
  | job_id :: rest =>
      emit (DescribeJobs job_id) ;;;
      match describe_jobs E job_id with
      | Ok r =>
          match parse_job E job_id r with
          | Ok record => for_jobs E rest (final_list ++ [record]) (Some r)
          | Raise _ => handler job_id (Some r) ;;; for_jobs E rest final_list (Some r)
          end
      | Raise _ => handler job_id response ;;; for_jobs E rest final_list response
      end
  end.

(** [pd.to_datetime(v, errors="coerce", unit='ms')] on one cell: an integer
    count of milliseconds within the range of a timestamp, else NaT. *)
Definition to_datetime_ms (v : pyval) : option Z :=
  match v with
  | PInt z =>
      if ((-9223372036854 <=? z) && (z <=? 9223372036854))%bool then Some z else None
  | _ => None
  end.

Definition to_row (r : job_record) : job_row :=
  {| job_id := r_job_id r;
     job_name := r_job_name r;
     job_status := r_job_status r;
     started_at := to_datetime_ms (r_started_at r);
     stopped_at := to_datetime_ms (r_stopped_at r);
     image := r_image r;
     vcpus := r_vcpus r;
     memory := r_memory r;
     num_attempts := r_num_attempts r;
     num_of_instances := r_num_of_instances r;
     instance_arn_endings := r_instance_arn_endings r;
     task_id := r_task_id r;
     reasons := r_reasons r |}.

(** [df = pd.DataFrame(final_list)] followed by the two column
    conversions. A frame built from no record has no column. *)
Definition data_frame (final_list : list job_record) : result (list job_row) :=
  match final_list with
  | [] => Raise (KeyError (PStr "started_at"))
  | _ => Ok (map to_row final_list)
  end.

Definition get_job_details (E : env) (job_id_list : list pyval) : run (list job_row) :=
  final_list <- for_jobs E job_id_list [] None ;;
  lift (data_frame final_list).

End JobDetails.

(** ** Grouping and sorting of rows *)

Module Frame.

Section Grouping.
Context {K V : Type} (eqb : K -> K -> bool).

(** The keys without repetition, each at its first occurrence. *)
Fixpoint distinct (keys : list K) : list K :=
  match keys with
  | [] => []
  | k :: rest => k :: filter (fun k' => negb (eqb k k')) (distinct rest)
  end.

(** The values of the rows that have the key [k], in order. *)
Definition members (k : K) (rows : list (K * V)) : list V :=
  map snd (filter (fun kv => eqb k (fst kv)) rows).

(** The groups of a keyed list, in the order in which the keys appear. *)
Definition group_by (rows : list (K * V)) : list (K * list V) :=
  map (fun k => (k, members k rows)) (distinct (map fst rows)).
End Grouping.

Section Sorting.
Context {A : Type} (leb : A -> A -> bool).

Fixpoint insert (x : A) (sorted : list A) : list A :=
  match sorted with
  | [] => [x]
  | h :: rest => if leb x h then x :: h :: rest else h :: insert x rest
  end.

(** A stable sort. *)
Definition sort (xs : list A) : list A := fold_right insert [] xs.
End Sorting.

End Frame.

(** ** get_resource_usage *)

Module Usage.

(** *** groupby(['task_id', 'container_instance_id']).mean() *)

Definition key : Type := (atom * atom)%type.

(** A cell as a group key: text or a number; a list or a dict cannot be
    one. (pandas leaves a row whose id is [None] out of every group; such
    ids are refused here as well, and what is stated about the table of
    means is stated for ids that are text or numbers.) *)
Definition atom_of (v : logval) : result atom :=
  match v with
  | LStr s => Ok (AStr s)
  | LNum q => Ok (ANum q)
  | _ => Raise TypeError
  end.

Definition key_of (r : usage_record) : result key :=
  (task <- atom_of (u_task_id r) ;;
   instance <- atom_of (u_container_instance_id r) ;;
   Ok (task, instance))%py.

(** [a == b] on two cell values. *)
Definition logval_eqb (a b : logval) : bool :=
  match a, b with
  | LStr s, LStr t => String.eqb s t
  | LNum p, LNum q => Qeq_bool p q
  | _, _ => false
  end.

Definition atom_eqb (a b : atom) : bool :=
  match a, b with
  | AStr s, AStr t => String.eqb s t
  | ANum p, ANum q => Qeq_bool p q
  | _, _ => false
  end.

Definition key_eqb (a b : key) : bool :=
  (atom_eqb (fst a) (fst b) && atom_eqb (snd a) (snd b))%bool.

(** The order of the group keys in the result: numbers before text. *)
Definition atom_leb (a b : atom) : bool :=
  match a, b with
  | ANum p, ANum q => Qle_bool p q
  | ANum _, AStr _ => true
  | AStr _, ANum _ => false
  | AStr s, AStr t => String.leb s t
  end.

Definition key_leb (a b : key) : bool :=
  if atom_eqb (fst a) (fst b) then atom_leb (snd a) (snd b)
  else atom_leb (fst a) (fst b).

Definition group : Type := (key * list usage_record)%type.

Definition sort_groups (groups : list group) : list group :=
  Frame.sort (fun g h : group => key_leb (fst g) (fst h)) groups.


(** A cell of a metric column of the frame: a number, or an empty cell for
    [None] (NaN in a float64 column); text, a list or a dict make the
    column one of objects, which has no mean. *)
Definition cell_of (v : logval) : result (option Q) :=
  match v with
  | LNum q => Ok (Some q)
  | LNone => Ok None
  | _ => Raise TypeError
  end.

(** The cells that hold a value: the mean skips the empty ones. *)
Fixpoint filled (cells : list (option Q)) : list Q :=
  match cells with
  | [] => []
  | Some q :: rest => q :: filled rest
  | None :: rest => filled rest
  end.

(** The mean of a column over the records of a group. *)
Definition mean_of (column : usage_record -> logval) (rs : list usage_record)
  : result mean_cell :=
  (cells <- mapM (fun r => cell_of (column r)) rs ;; Ok (Mean (filled cells)))%py.

Definition group_row (g : group) : result usage_row :=
  (cpu_u <- mean_of u_cpu_used (snd g) ;;
   cpu_p <- mean_of u_cpu_passed (snd g) ;;
   mem_u <- mean_of u_memory_used (snd g) ;;
   mem_p <- mean_of u_memory_passed (snd g) ;;
   Ok {| g_task_id := fst (fst g);
         g_container_instance_id := snd (fst g);
         cpu_used := cpu_u;
         cpu_passed := cpu_p;
         memory_used := mem_u;
         memory_passed := mem_p |})%py.

(** One row per key, in key order, each metric the mean over the records
    of the key that hold a value for it. A key that is neither text nor a
    number cannot be grouped, and a metric that is neither a number nor
    [None] cannot be averaged. (A column in which no record holds a number
    is a column of objects in the frame, whose mean depends on the version
    of pandas; what is stated about the means is stated for columns that
    hold a number.) *)
Definition groupby_mean (records : list usage_record) : result (list usage_row) :=
  (keyed <- mapM (fun r => k <- key_of r ;; Ok (k, r)) records ;;
   mapM group_row (sort_groups (Frame.group_by key_eqb keyed)))%py.

(** *** The query loop *)

(** A piece of the [try] block: besides the events it threads
    [final_output], which keeps what was appended when an exception ends
    the block. *)
Definition acc (A : Type) : Type :=
  list usage_record -> list event -> outcome A * list usage_record * list event.

Definition aret {A} (a : A) : acc A := fun out tr => (Finished (Ok a), out, tr).

Definition alift {A} (r : result A) : acc A := fun out tr => (Finished r, out, tr).

Definition adiverge {A} : acc A := fun out tr => (Diverge, out, tr).

Definition aemit (e : event) : acc unit := fun out tr => (Finished (Ok tt), out, tr ++ [e]).

Definition append (r : usage_record) : acc unit :=
  fun out tr => (Finished (Ok tt), out ++ [r], tr).

Definition abind {A B} (m : acc A) (k : A -> acc B) : acc B :=
  fun out tr =>
    match m out tr with
    | (Finished (Ok a), out', tr') => k a out' tr'
    | (Finished (Raise e), out', tr') => (Finished (Raise e), out', tr')
    | (Diverge, out', tr') => (Diverge, out', tr')
    end.

Declare Scope acc_scope.
Delimit Scope acc_scope with acc.
Notation "x <- m ;; k" := (abind m (fun x => k))
  (at level 61, m at next level, right associativity) : acc_scope.
Notation "m ;;; k" := (abind m (fun _ => k))
  (at level 61, right associativity) : acc_scope.

(** [d[k]] on a parsed message. *)
Fixpoint field (k : string) (temp_value : list (string * logval)) : result logval :=
  match temp_value with
  | [] => Raise (KeyError (PStr k))
  | (k', v) :: rest => if String.eqb k k' then Ok v else field k rest
  end.

(** The dict appended for a message of type Task. *)
Definition task_record (temp_value : list (string * logval)) : result usage_record :=
  (task <- field "TaskId" temp_value ;;
   instance <- field "ContainerInstanceId" temp_value ;;
   cpu_u <- field "CpuUtilized" temp_value ;;
   cpu_p <- field "CpuReserved" temp_value ;;
   mem_u <- field "MemoryUtilized" temp_value ;;
   mem_p <- field "MemoryReserved" temp_value ;;
   Ok {| u_task_id := task;
         u_container_instance_id := instance;
         u_cpu_used := cpu_u;
         u_cpu_passed := cpu_p;
         u_memory_used := mem_u;
         u_memory_passed := mem_p |})%py.

(** [ast.literal_eval(record[0]['value'])]. *)
Definition parse_record (E : env) (record : pyval) : result (list (string * logval)) :=
  (first <- Py.index record 0 ;;
   value <- Py.getitem first "value" ;;
   literal_eval E value)%py.

Local Open Scope acc_scope.

(** [for record in results: ...]. *)
Fixpoint for_records (E : env) (results : list pyval) : acc unit :=
  match results with
  | [] => aret tt
  | record :: rest =>
      temp_value <- alift (parse_record E record) ;;
      type <- alift (field "Type" temp_value) ;;
      (if logval_eqb type (LStr "Task")
       then (r <- alift (task_record temp_value) ;; append r)
       else aret tt) ;;;
      for_records E rest
  end.

(** [response == None or response['status'] == 'Running']. *)
Definition still_running (response : pyval) : result bool :=
  if Py.is_none response then Ok true
  else (status <- Py.getitem response "status" ;; Ok (Py.eq_str status "Running"))%py.

(** [while response == None or response['status'] == 'Running':
    time.sleep(1); response = log_client.get_query_results(...)].
    [polls] counts the polls of this query made so far. *)
Fixpoint poll (E : env) (fuel : nat) (query_id : pyval) (polls : nat) (response : pyval)
  : acc pyval :=
  again <- alift (still_running response) ;;
  if again
  then
    match fuel with
    | O => adiverge
    | S fuel' =>
        aemit (Sleep 1) ;;;
        aemit (GetQueryResults query_id) ;;;
        response' <- alift (get_query_results E query_id polls) ;;
        poll E fuel' query_id (S polls) response'
    end
  else aret response.

(** The body of [while epoch_end < current_epoch_time]. *)
Definition window (E : env) (fuel : nat) (epoch_start epoch_end : Z) : acc unit :=
  aemit (StartQuery epoch_start epoch_end) ;;;
  start_query_response <-
    alift (start_query E (cloudwatch_log_group_name E) epoch_start epoch_end) ;;
  query_id <- alift (Py.getitem start_query_response "queryId") ;;
  aemit (Log INFO "The query id being executed is : %s" [query_id]) ;;;
  response <- poll E fuel query_id 0 PNone ;;
  results <- alift (Py.getitem response "results") ;;
  records <- alift (Py.iter results) ;;
  for_records E records.

(** [while epoch_end < current_epoch_time: ...]; [rounds] bounds the number
    of windows and [fuel] the polls of each. *)
Fixpoint windows (E : env) (rounds fuel : nat) (epoch_start epoch_end : Z) : acc unit :=
  if epoch_end <? current_epoch_time E
  then
    match rounds with
    | O => adiverge
    | S rounds' =>
        window E fuel epoch_start epoch_end ;;;
        windows E rounds' fuel epoch_end (epoch_end + cloudwatch_query_interval E)
    end
  else aret tt.

(** [try: while ...: ... except: logger.error(...)]: what was appended
    before an exception stays in [final_output]. *)
Definition query_loop (E : env) (fuel : nat) : acc unit :=
  fun out tr =>
    let epoch_start := batch_start_epoch E in
    let epoch_end := epoch_start + cloudwatch_query_interval E in
    match windows E fuel fuel epoch_start epoch_end out tr with
    | (Finished (Raise _), out', tr') =>
        (Finished (Ok tt), out',
         tr' ++ [Log ERROR "The cloudwatch log parsing has failed. Kindly check." []])
    | r => r
    end.

Local Open Scope run_scope.

(** The statements after the [try]: the frame, its means, the CSV. *)
Definition finish (E : env) (final_output : list usage_record) : run (list usage_row) :=
  final_df <-
    (match final_output with
     | [] => ret []
     | _ =>
         grouped <- lift (groupby_mean final_output) ;;
         emit (ToCsv (output_path E ++ "/task_resource_usage.csv")%string
                 (UsageTable grouped)) ;;;
         ret grouped
     end) ;;
  emit (Log INFO "The number of tasks for which resource usage was gathered is as : %s"
          [PInt (Z.of_nat (List.length final_df))]) ;;;
  ret final_df.

Definition get_resource_usage (E : env) (fuel : nat) : run (list usage_row) :=
  emit (Log INFO
          "Starting to query Cloud Watch Logs Group with an Interval : %s from start time : %s"
          [PInt (cloudwatch_query_interval E); PStr (batch_start_time E)]) ;;;
  emit (Log INFO "Please be patient, this may take sometime..." []) ;;;
  fun tr =>
    match query_loop E fuel [] tr with
    | (Finished (Ok _), final_output, tr') => finish E final_output tr'
    | (Finished (Raise e), _, tr') => (Finished (Raise e), tr')
    | (Diverge, _, tr') => (Diverge, tr')
    end.

End Usage.

(** ** get_summaries *)

Module Summaries.

(** The value of a module number, and the float64 nearest to an int64
    (ties to even): an int64 of at most 53 bits is kept. *)
Definition number_value (n : number) : Z :=
  match n with NInt z | NFloat z => z end.

Definition float64_of_int (z : Z) : Z :=
  let a := Z.abs z in
  let excess := Z.log2 a - 52 in
  if excess <=? 0 then z
  else
    let q := Z.shiftr a excess in
    let r := a - Z.shiftl q excess in
    let half := Z.shiftl 1 (excess - 1) in
    let q' := if ((half <? r) || ((r =? half) && Z.odd q))%bool then q + 1 else q in
    Z.sgn z * Z.shiftl q' excess.

(** The cell of a column of int64 that has become a column of float64. *)
Definition as_float (n : number) : number :=
  match n with
  | NInt z => NFloat (float64_of_int z)
  | NFloat z => NFloat z
  end.

(** The key of a submodule: module_name, module_number, main_module_name. *)
Definition module_key : Type := (string * number * string)%type.

Definition float_key (k : module_key) : module_key :=
  (fst (fst k), as_float (snd (fst k)), snd k).

(** A row of [temp_df] after the left merge with the module mapping; a job
    name without a mapping has no module ([None], NaN in the frame). *)
Record temp_row : Type := {
  t_job_name : pyval;
  t_started_at : option Z;
  t_stopped_at : option Z;
  t_avg_duration : hours_cell;
  t_module : option module_key
}.

Definition int64_max : Z := 9223372036854775807.

(** [stopped - started] on two timestamp cells, in milliseconds: NaT when
    one of them is NaT. The frame holds the difference in nanoseconds in an
    int64, and the subtraction raises OverflowError when it does not
    fit. *)
Definition timedelta (started stopped : option Z) : result (option Z) :=
  match started, stopped with
  | Some a, Some b =>
      if Z.abs ((b - a) * 1000000) <=? int64_max then Ok (Some (b - a))
      else Raise OverflowError
  | _, _ => Ok None
  end.

(** [delta / np.timedelta64(1, 'h')]. *)
Definition hours_of (delta : option Z) : hours_cell :=
  match delta with
  | Some d => Hours d
  | None => NoHours
  end.

(** [job_details_df[job_details_df['job_status'].isin(["SUCCEEDED"])]]. *)
Definition succeeded (job_details_df : list job_row) : list job_row :=
  filter (fun r => Py.eq_str (job_status r) "SUCCEEDED") job_details_df.

(** The succeeded rows with the column [avg_duration_across_all_jobs] that
    the two assignments to [temp_df] give them. *)
Definition with_durations (success : list job_row) : result (list (job_row * hours_cell)) :=
  mapM (fun r => delta <- timedelta (started_at r) (stopped_at r) ;; Ok (r, hours_of delta))
    success.

(** [pd.merge(temp_df, job_modules_df, on="job_name", how="left")] for one
    row of [temp_df]. *)
Definition merge_modules (job_modules_df : list module_row) (rd : job_row * hours_cell)
  : list temp_row :=
  let r := fst rd in
  let row m := {| t_job_name := job_name r;
                  t_started_at := started_at r;
                  t_stopped_at := stopped_at r;
                  t_avg_duration := snd rd;
                  t_module := m |} in
  match filter (fun m => Py.eq_str (job_name r) (m_job_name m)) job_modules_df with
  | [] => [row None]
  | matches =>
      map (fun m => row (Some (m_module_name m, NInt (m_module_number m),
                               m_main_module_name m)))
        matches
  end.

Definition no_module (t : temp_row) : bool :=
  match t_module t with None => true | Some _ => false end.

Definition floated (t : temp_row) : temp_row :=
  {| t_job_name := t_job_name t;
     t_started_at := t_started_at t;
     t_stopped_at := t_stopped_at t;
     t_avg_duration := t_avg_duration t;
     t_module := option_map float_key (t_module t) |}.

(** The merged frame: as soon as one row has no module, the column
    module_number holds a NaN and is a column of float64. *)
Definition merge_frame (job_modules_df : list module_row) (rows : list (job_row * hours_cell))
  : list temp_row :=
  let merged := flat_map (merge_modules job_modules_df) rows in
  if existsb no_module merged then map floated merged else merged.

Definition number_eqb (a b : number) : bool := number_value a =? number_value b.

Definition module_key_eqb (a b : module_key) : bool :=
  match a, b with
  | (n1, k1, m1), (n2, k2, m2) =>
      (String.eqb n1 n2 && number_eqb k1 k2 && String.eqb m1 m2)%bool
  end.

Definition lex (c : comparison) (next : bool) : bool :=
  match c with Lt => true | Gt => false | Eq => next end.

(** Key order of [groupby(['module_name', 'module_number', 'main_module_name'])]. *)
Definition module_key_leb (a b : module_key) : bool :=
  match a, b with
  | (n1, k1, m1), (n2, k2, m2) =>
      lex (String.compare n1 n2)
        (lex (number_value k1 ?= number_value k2) (String.leb m1 m2))
  end.

(** Key order of [value_counts(['main_module_name', 'module_name', 'module_number'])]. *)
Definition count_key_leb (a b : module_key) : bool :=
  match a, b with
  | (n1, k1, m1), (n2, k2, m2) =>
      lex (String.compare m1 m2)
        (lex (String.compare n1 n2) (number_value k1 <=? number_value k2))
  end.

(** The rows that have a module, keyed by it: the rows a group-by keeps. *)
Fixpoint keyed (rows : list temp_row) : list (module_key * temp_row) :=
  match rows with
  | [] => []
  | r :: rest =>
      match t_module r with
      | Some k => (k, r) :: keyed rest
      | None => keyed rest
      end
  end.

Fixpoint somes {A} (xs : list (option A)) : list A :=
  match xs with
  | [] => []
  | Some x :: rest => x :: somes rest
  | None :: rest => somes rest
  end.

(** Minimum and maximum of a time column; NaT cells are skipped. *)
Definition min_time (xs : list (option Z)) : option Z :=
  match somes xs with
  | [] => None
  | x :: rest => Some (fold_left Z.min rest x)
  end.

Definition max_time (xs : list (option Z)) : option Z :=
  match somes xs with
  | [] => None
  | x :: rest => Some (fold_left Z.max rest x)
  end.

(** A row of the first [submodule_summary_df]: the aggregates of a group. *)
Record agg_row : Type := {
  a_key : module_key;
  a_started_at : option Z;
  a_stopped_at : option Z;
  a_avg_duration : average_cell
}.

Definition aggregate (g : module_key * list temp_row) : agg_row :=
  {| a_key := fst g;
     a_started_at := min_time (map t_started_at (snd g));
     a_stopped_at := max_time (map t_stopped_at (snd g));
     a_avg_duration := Average (map t_avg_duration (snd g)) |}.

Definition submodule_groups (temp_df : list temp_row) : list agg_row :=
  map aggregate
    (Frame.sort (fun g h => module_key_leb (fst g) (fst h))
       (Frame.group_by module_key_eqb (keyed temp_df))).

(** [temp_df.value_counts([...]).reset_index(name='job_counts')]: the number
    of rows per key, most frequent first. *)
Definition value_counts (temp_df : list temp_row) : list (module_key * Z) :=
  Frame.sort (fun a b => snd b <=? snd a)
    (map (fun g => (fst g, Z.of_nat (List.length (snd g))))
       (Frame.sort (fun g h => count_key_leb (fst g) (fst h))
          (Frame.group_by module_key_eqb (keyed temp_df)))).

(** The second merge, [on="module_name", how="left"], for one row: the row
    with each count whose module name is its own. *)
Definition merge_counts (counts : list (module_key * Z)) (a : agg_row) : list (agg_row * Z) :=
  map (fun c => (a, snd c))
    (filter (fun c => String.eqb (fst (fst (fst c))) (fst (fst (a_key a)))) counts).

(** The column [duration] of a merged row, and the columns of the CSV. *)
Definition timed (ac : agg_row * Z) : result submodule_row :=
  let a := fst ac in
  (delta <- timedelta (a_started_at a) (a_stopped_at a) ;;
   Ok {| module_number_x := snd (fst (a_key a));
         main_module_name_x := snd (a_key a);
         module_name := fst (fst (a_key a));
         sub_started_at := a_started_at a;
         sub_stopped_at := a_stopped_at a;
         avg_duration_across_all_jobs := a_avg_duration a;
         job_counts := snd ac;
         duration := hours_of delta |})%py.

(** NaT sorts last. *)
Definition time_leb (a b : option Z) : bool :=
  match a, b with
  | Some x, Some y => x <=? y
  | Some _, None => true
  | None, Some _ => false
  | None, None => true
  end.

(** [sort_values(["module_number_x", "started_at"])]. *)
Definition submodule_leb (a b : submodule_row) : bool :=
  lex (number_value (module_number_x a) ?= number_value (module_number_x b))
    (time_leb (sub_started_at a) (sub_started_at b)).

(** The submodule summary of a merged frame. *)
Definition submodule_summary (temp_df : list temp_row) : result (list submodule_row) :=
  (merged <- mapM timed
               (flat_map (merge_counts (value_counts temp_df)) (submodule_groups temp_df)) ;;
   Ok (Frame.sort submodule_leb merged))%py.

Definition two_digits (n : Z) : string :=
  if n <? 10 then String.append "0" (Text.of_Z n) else Text.of_Z n.

(** [pd.to_datetime(seconds, unit='s').dt.strftime("%H:%M:%S")] of the
    time between two instants in milliseconds: the time of day, so whole
    days are dropped. *)
Definition clock (started stopped : option Z) : option string :=
  match started, stopped with
  | Some a, Some b =>
      let seconds := ((b - a) / 1000) mod 86400 in
      Some (Text.join ":" [two_digits (seconds / 3600);
                           two_digits ((seconds mod 3600) / 60);
                           two_digits (seconds mod 60)])
  | _, _ => None
  end.

Definition highlevel_key_eqb (a b : number * string) : bool :=
  (number_eqb (fst a) (fst b) && String.eqb (snd a) (snd b))%bool.

Definition highlevel_key_leb (a b : number * string) : bool :=
  lex (number_value (fst a) ?= number_value (fst b)) (String.leb (snd a) (snd b)).

Definition highlevel_row_of (g : (number * string) * list submodule_row) : highlevel_row :=
  let started := min_time (map sub_started_at (snd g)) in
  let stopped := max_time (map sub_stopped_at (snd g)) in
  {| h_module_number_x := fst (fst g);
     h_main_module_name_x := snd (fst g);
     h_started_at := started;
     h_stopped_at := stopped;
     h_job_counts := fold_right Z.add 0 (map job_counts (snd g));
     h_duration := clock started stopped |}.

(** The rows of the high-level summary; [get_summaries] writes them once
    the subtraction of their two time columns has not overflowed. *)
Definition highlevel_summary (submodule_summary_df : list submodule_row) : list highlevel_row :=
  map highlevel_row_of
    (Frame.sort (fun g h => highlevel_key_leb (fst g) (fst h))
       (Frame.group_by highlevel_key_eqb
          (map (fun r => ((module_number_x r, main_module_name_x r), r))
             submodule_summary_df))).

(** [stopped_at - started_at] on the rows of the high-level summary. *)
Definition highlevel_spans (rows : list highlevel_row) : result (list (option Z)) :=
  mapM (fun h => timedelta (h_started_at h) (h_stopped_at h)) rows.

Local Open Scope run_scope.

(** The statements from the first group-by on, on the merged frame. *)
Definition summarise (E : env) (temp_df : list temp_row) : run unit :=
  submodule_summary_df <- lift (submodule_summary temp_df) ;;
  emit (ToCsv (output_path E ++ "/submodule_summary.csv")%string
          (SubmoduleTable submodule_summary_df)) ;;;
  emit (Log INFO "The submodule level summary was written to output directory." []) ;;;
  let highlevel_summary_df := highlevel_summary submodule_summary_df in
  lift (highlevel_spans highlevel_summary_df) ;;;
  emit (ToCsv (output_path E ++ "/highlevel_summary.csv")%string
          (HighlevelTable highlevel_summary_df)) ;;;
  emit (Log INFO "The highlevel level summary was written to output directory." []) ;;;
  ret tt.

Definition get_summaries (E : env) (job_details_df : list job_row) : run unit :=
  emit (Log INFO "Considering only Successful Jobs" []) ;;;
  temp_df <- lift (with_durations (succeeded job_details_df)) ;;
  summarise E (merge_frame (job_modules_df E) temp_df).

End Summaries.

(** ** main *)

Module Main.
Local Open Scope run_scope.

(** [pd.merge(batch_job_details_df, container_resource_consumption_df,
    on="task_id", how="left")]. *)
Definition merge_usage (usage : list usage_row) (r : job_row) : list output_row :=
  match filter (fun u => Usage.atom_eqb (g_task_id u) (AStr (task_id r))) usage with
  | [] => [(r, None)]
  | matches => map (fun u => (r, Some u)) matches
  end.

Definition job_rows (t : table) : list job_row :=
  match t with
  | JobTable rows => rows
  | OutputTable rows => map fst rows
  | _ => []
  end.

(** The truth value of [cloudwatch_log_group_name]. *)
Definition log_group_given (E : env) : bool :=
  match cloudwatch_log_group_name E with
  | Some name => negb (String.eqb name "")
  | None => false
  end.

Fixpoint repeat_char (c : ascii) (n : nat) : string :=
  match n with
  | O => EmptyString
  | S n' => String c (repeat_char c n')
  end.

Definition separator : string := repeat_char "="%char 152.

(** [output_df.groupby('job_status').count()['job_id']]: the number of
    rows per status. The payload logged is the list of the counts. *)
Definition status_counts (rows : list job_row) : pyval :=
  PList (map (fun g => PList [PStr (fst g); PInt (Z.of_nat (List.length (snd g)))])
           (Frame.sort (fun g h => String.leb (fst g) (fst h))
              (Frame.group_by String.eqb
                 (map (fun r => (Py.str (job_status r), r)) rows)))).

(** The number of distinct instance ids over all rows. *)
Definition instance_count (rows : list job_row) : Z :=
  Z.of_nat (List.length
    (nodup string_dec
       (flat_map (fun i => Text.split "|" i)
          (nodup string_dec (map instance_arn_endings rows))))).

(** The statements of [main] from the first use of [output_df]; the local
    is unbound when no branch has assigned it. *)
Definition report (E : env) (output_df : option table) : run unit :=
  match output_df with
  | None => lift (Raise (UnboundLocalError "output_df"))
  | Some t =>
      emit (ToCsv (output_path E ++ "/"
                   ++ Text.replace "-" "_" (batch_job_queue E) ++ "_job_details.csv")%string
              t) ;;;
      Summaries.get_summaries E (job_rows t) ;;;
      emit (Log INFO separator []) ;;;
      emit (Log INFO "The current status :" []) ;;;
      emit (Log INFO "Total number of jobs till now : %s"
              [PInt (Z.of_nat (List.length (job_rows t)))]) ;;;
      emit (Log INFO "%s" [status_counts (job_rows t)]) ;;;
      emit (Log INFO separator []) ;;;
      emit (Log INFO "The no. of ec2 instances used are : %s"
              [PInt (instance_count (job_rows t))]) ;;;
      emit (Log INFO separator []) ;;;
      emit (Log INFO "\n" [])
  end.

Definition main (E : env) (fuel : nat) : run unit :=
  job_id_list <- JobIds.get_batch_job_id_list E fuel ;;
  match job_id_list with
  | [] => ret tt
  | _ =>
      batch_job_details_df <- JobDetails.get_job_details E job_id_list ;;
      emit (PrintTable (JobTable batch_job_details_df)) ;;;
      output_df <-
        (if ((0 <? Z.of_nat (List.length batch_job_details_df)) && log_group_given E)%bool
         then
           container_resource_consumption_df <- Usage.get_resource_usage E fuel ;;
           emit (PrintTable (UsageTable container_resource_consumption_df)) ;;;
           if 0 <? Z.of_nat (List.length container_resource_consumption_df)
           then
             let output_df :=
               OutputTable (flat_map (merge_usage container_resource_consumption_df)
                              batch_job_details_df) in
             emit (PrintTable output_df) ;;;
             ret (Some output_df)
           else ret None
         else ret (Some (JobTable batch_job_details_df))) ;;
      report E output_df
  end.

End Main.

(** ** Sample queue snapshots and services *)

Module Samples.

Definition metadata : string * pyval :=
  ("ResponseMetadata", PDict [("RequestId", PStr "7d2c"); ("HTTPStatusCode", PInt 200)]).

(** An entry of [jobSummaryList]. *)
Definition summary (id name : string) (created : Z) (status : string) : pyval :=
  PDict [("jobArn", PStr ("arn:aws:batch:us-east-2:111122223333:job/" ++ id)%string);
         ("jobId", PStr id);
         ("jobName", PStr name);
         ("createdAt", PInt created);
         ("status", PStr status)].

(** A last page, and a page with a continuation token. *)
Definition last_page (jobs : list pyval) : pyval :=
  PDict [metadata; ("jobSummaryList", PList jobs)].

Definition page (jobs : list pyval) (token : string) : pyval :=
  PDict [metadata; ("jobSummaryList", PList jobs); ("nextToken", PStr token)].

Definition attempt (instance task : string) : pyval :=
  PDict [("container",
          PDict [("containerInstanceArn",
                  PStr ("arn:aws:ecs:us-east-2:111122223333:container-instance/" ++ instance)%string);
                 ("taskArn", PStr ("arn:aws:ecs:us-east-2:111122223333:task/" ++ task)%string);
                 ("exitCode", PInt 0)]);
         ("startedAt", PInt 1648036100000);
         ("stoppedAt", PInt 1648036400000);
         ("statusReason", PStr "Essential container in task exited")].

(** A [describe_jobs] response for one finished job; [container] is the
    job's container object. *)
Definition described (id name status : string) (container : pyval) (attempts : list pyval)
  : pyval :=
  PDict [metadata;
         ("jobs", PList [PDict [("jobName", PStr name);
                                ("jobId", PStr id);
                                ("status", PStr status);
                                ("attempts", PList attempts);
                                ("createdAt", PInt 1648036000000);
                                ("startedAt", PInt 1648036100000);
                                ("stoppedAt", PInt 1648036400000);
                                ("container", container)]])].

(** The two shapes of a container object. *)
Definition container_direct (image : string) : pyval :=
  PDict [("image", PStr image); ("vcpus", PInt 2); ("memory", PInt 4096);
         ("command", PList [PStr "run.sh"])].

Definition container_requirements (image : string) : pyval :=
  PDict [("image", PStr image);
         ("command", PList [PStr "run.sh"]);
         ("resourceRequirements",
          PList [PDict [("value", PStr "4"); ("type", PStr "VCPU")];
                 PDict [("value", PStr "8192"); ("type", PStr "MEMORY")]])].

(** The command line of the first example of the script, with every
    service refusing its calls. *)
Definition base : env :=
  {| batch_job_queue := "default-gwf-core-dev-sv-fsx-SCRATCH";
     batch_start_time := "2022-03-23 11:47:00";
     batch_start_epoch := 1648036020;
     cloudwatch_log_group_name := None;
     cloudwatch_query_interval := 600;
     output_path := "output/2022_03_24_09_00_00";
     job_modules_df := [];
     current_epoch_time := 1648037300;
     list_jobs := fun _ _ _ => Raise (ClientError "list_jobs");
     describe_jobs := fun _ => Raise (ClientError "describe_jobs");
     start_query := fun _ _ _ => Raise (ClientError "start_query");
     get_query_results := fun _ _ => Raise (ClientError "get_query_results");
     literal_eval := fun _ => Raise ValueError;
     list_of_set := nodup string_dec |}.

Definition with_batch (E : env)
    (listing : string -> option pyval -> result pyval)
    (details : pyval -> result pyval) : env :=
  {| batch_job_queue := batch_job_queue E;
     batch_start_time := batch_start_time E;
     batch_start_epoch := batch_start_epoch E;
     cloudwatch_log_group_name := cloudwatch_log_group_name E;
     cloudwatch_query_interval := cloudwatch_query_interval E;
     output_path := output_path E;
     job_modules_df := job_modules_df E;
     current_epoch_time := current_epoch_time E;
     list_jobs := fun _ => listing;
     describe_jobs := details;
     start_query := start_query E;
     get_query_results := get_query_results E;
     literal_eval := literal_eval E;
     list_of_set := list_of_set E |}.

Definition with_logs (E : env) (log_group : option string)
    (start : Z -> Z -> result pyval)
    (results : pyval -> nat -> result pyval)
    (parse : pyval -> result (list (string * logval))) : env :=
  {| batch_job_queue := batch_job_queue E;
     batch_start_time := batch_start_time E;
     batch_start_epoch := batch_start_epoch E;
     cloudwatch_log_group_name := log_group;
     cloudwatch_query_interval := cloudwatch_query_interval E;
     output_path := output_path E;
     job_modules_df := job_modules_df E;
     current_epoch_time := current_epoch_time E;
     list_jobs := list_jobs E;
     describe_jobs := describe_jobs E;
     start_query := fun _ => start;
     get_query_results := results;
     literal_eval := parse;
     list_of_set := list_of_set E |}.

(** The cutoff of [base] in milliseconds is 1648036020000. *)

(** *** A queue with one job created at the cutoff instant *)

Definition at_cutoff : pyval := summary "job-at-cutoff" "GatherSampleEvidence" 1648036020000 "SUCCEEDED".
Definition after_cutoff : pyval := summary "job-after" "GatherSampleEvidence" 1648036020001 "SUCCEEDED".
Definition before_cutoff : pyval := summary "job-before" "GatherSampleEvidence" 1648036019999 "FAILED".

Definition cutoff_listing (status : string) (token : option pyval) : result pyval :=
  match token with
  | None =>
      if String.eqb status "SUCCEEDED" then Ok (last_page [at_cutoff; after_cutoff])
      else if String.eqb status "FAILED" then Ok (last_page [before_cutoff])
      else Ok (last_page [])
  | Some _ => Raise (ClientError "unknown token")
  end.

Definition cutoff_queue : env := with_batch base cutoff_listing (describe_jobs base).

(** *** A queue listed in several pages *)

Definition paged_listing (status : string) (token : option pyval) : result pyval :=
  if String.eqb status "SUCCEEDED" then
    match token with
    | None => Ok (page [summary "s1" "ClusterBatch" 1648036030000 "SUCCEEDED"] "t1")
    | Some (PStr "t1") =>
        Ok (page [summary "s2" "ClusterBatch" 1648036000000 "SUCCEEDED";
                  summary "s3" "ClusterBatch" 1648036040000 "SUCCEEDED"] "t2")
    | Some (PStr "t2") => Ok (last_page [summary "s4" "ClusterBatch" 1648036050000 "SUCCEEDED"])
    | _ => Raise (ClientError "unknown token")
    end
  else if String.eqb status "RUNNING" then
    match token with
    | None => Ok (last_page [summary "r1" "ClusterBatch" 1648036060000 "RUNNING"])
    | _ => Raise (ClientError "unknown token")
    end
  else
    match token with
    | None => Ok (last_page [])
    | _ => Raise (ClientError "unknown token")
    end.

Definition paged_queue : env := with_batch base paged_listing (describe_jobs base).

(** *** A queue holding a job whose name contains the word nextToken *)

Definition named_listing (status : string) (token : option pyval) : result pyval :=
  match token with
  | None =>
      if String.eqb status "SUCCEEDED"
      then Ok (last_page [summary "j1" "nextToken-refresh" 1648036030000 "SUCCEEDED"])
      else Ok (last_page [])
  | Some _ => Raise (ClientError "unknown token")
  end.

Definition named_queue : env := with_batch base named_listing (describe_jobs base).

End Samples.

(** ** What a listing of the queue looks like *)

Module Listing.

(** An entry of a page that the loop can read: an integer creation time
    and an id. *)
Definition summary_typed (x : pyval) : Prop :=
  exists created id,
    Py.getitem x "createdAt" = Ok (PInt created) /\ Py.getitem x "jobId" = Ok id.

(** The pages the service returns for one status, starting from [token]:
    each page is its entries and the token it carries ([PNone] on the last
    page, which carries none). *)
Fixpoint pages_from (E : env) (job_status : string) (token : option pyval)
    (pages : list (list pyval * pyval)) : Prop :=
  match pages with
  | [] => False
  | (items, next) :: rest =>
      exists entries,
        list_jobs E (batch_job_queue E) job_status token = Ok (PDict entries) /\
        Py.assoc "jobSummaryList" entries = Some (PList items) /\
        Forall summary_typed items /\
        JobIds.later_token (PDict entries) = Ok next /\
        match rest with
        | [] => next = PNone
        | _ => Py.is_none next = false /\ pages_from E job_status (Some next) rest
        end
  end.

(** The text of a first page that carries no token does not contain the
    word nextToken. *)
Definition first_page_plain (E : env) (job_status : string) : Prop :=
  forall entries,
    list_jobs E (batch_job_queue E) job_status None = Ok (PDict entries) ->
    Py.assoc "nextToken" entries = None ->
    Text.str_in "nextToken" (Py.str (PDict entries)) = false.

(** The ids of the entries created after the cutoff. *)
Definition newer (cutoff : Z) (x : pyval) : list pyval :=
  match Py.getitem x "createdAt", Py.getitem x "jobId" with
  | Ok (PInt created), Ok id => if cutoff <? created then [id] else []
  | _, _ => []
  end.

Definition all_items (pages : list (list pyval * pyval)) : list pyval :=
  flat_map fst pages.

Definition ids_after (cutoff : Z) (pages : list (list pyval * pyval)) : list pyval :=
  flat_map (newer cutoff) (all_items pages).

(** The calls of [list_jobs] that follow the first one. *)
Fixpoint later_calls (job_status : string) (pages : list (list pyval * pyval)) : list event :=
  match pages with
  | [] => []
  | [_] => []
  | (_, next) :: rest => ListJobs job_status (Some next) :: later_calls job_status rest
  end.

(** The pages of the three statuses. *)
Record snapshot : Type := {
  succeeded_pages : list (list pyval * pyval);
  failed_pages : list (list pyval * pyval);
  running_pages : list (list pyval * pyval)
}.

Definition describes (E : env) (Q : snapshot) : Prop :=
  (pages_from E "SUCCEEDED" None (succeeded_pages Q) /\ first_page_plain E "SUCCEEDED") /\
  (pages_from E "FAILED" None (failed_pages Q) /\ first_page_plain E "FAILED") /\
  (pages_from E "RUNNING" None (running_pages Q) /\ first_page_plain E "RUNNING").

Definition is_list_jobs (e : event) : bool :=
  match e with ListJobs _ _ => true | _ => false end.

(** The events of the listing of one status, and of the whole function. *)
Definition status_events (cutoff : Z) (job_status : string)
    (pages : list (list pyval * pyval)) : list event :=
  [Log INFO "Getting Jobs IDs with %s status" [PStr job_status];
   ListJobs job_status None]
  ++ later_calls job_status pages
  ++ [Log INFO "No. of jobs with %s status : %s"
        [PStr job_status; PInt (Z.of_nat (List.length (ids_after cutoff pages)))]].

Definition listed_ids (E : env) (Q : snapshot) : list pyval :=
  ids_after (JobIds.epoch_batch_start E) (succeeded_pages Q)
  ++ ids_after (JobIds.epoch_batch_start E) (failed_pages Q)
  ++ ids_after (JobIds.epoch_batch_start E) (running_pages Q).

Definition listing_events (E : env) (Q : snapshot) : list event :=
  [Log INFO "Running for following statuses only : %s "
     [PList (map PStr JobIds.status_needed)];
   Log INFO "Epoch Batch Start Time : %s" [PInt (JobIds.epoch_batch_start E)]]
  ++ status_events (JobIds.epoch_batch_start E) "SUCCEEDED" (succeeded_pages Q)
  ++ status_events (JobIds.epoch_batch_start E) "FAILED" (failed_pages Q)
  ++ status_events (JobIds.epoch_batch_start E) "RUNNING" (running_pages Q)
  ++ [Log INFO "No. of Job Ids fetched : %s "
        [PInt (Z.of_nat (List.length (listed_ids E Q)))]].

Definition page_count (Q : snapshot) : nat :=
  (List.length (succeeded_pages Q) + List.length (failed_pages Q)
   + List.length (running_pages Q))%nat.

Definition jobs_of (Q : snapshot) : list pyval :=
  all_items (succeeded_pages Q) ++ all_items (failed_pages Q) ++ all_items (running_pages Q).

Definition longest (Q : snapshot) : nat :=
  Nat.max (List.length (succeeded_pages Q))
    (Nat.max (List.length (failed_pages Q)) (List.length (running_pages Q))).

End Listing.

Module ListingSamples.
Import Samples.

(** The pages of [cutoff_queue]: a job created at the cutoff instant and a
    job created a millisecond later, both succeeded; a failed job created
    a millisecond before it. *)
Definition cutoff_snapshot : Listing.snapshot :=
  {| Listing.succeeded_pages := [([at_cutoff; after_cutoff], PNone)];
     Listing.failed_pages := [([before_cutoff], PNone)];
     Listing.running_pages := [([], PNone)] |}.

End ListingSamples.

(** ** What failing a job means *)

Module Details.

(** The job is left out of the table: its fetch raises, or the record
    cannot be built from the response. *)
Definition job_fails (E : env) (job_id : pyval) : bool :=
  match describe_jobs E job_id with
  | Ok r =>
      match JobDetails.parse_job E job_id r with
      | Ok _ => false
      | Raise _ => true
      end
  | Raise _ => true
  end.

(** [container['resourceRequirements'][pos]['value']]. *)
Definition positional (container : pyval) (pos : nat) : result pyval :=
  (reqs <- Py.getitem container "resourceRequirements" ;;
   req <- Py.index reqs pos ;;
   Py.getitem req "value")%py.

End Details.

Module DetailSamples.
Import Samples.

Definition benchmark_image : string :=
  "111122223333.dkr.ecr.us-east-2.amazonaws.com/vcpus-benchmark:latest".

Definition pipeline_image : string :=
  "111122223333.dkr.ecr.us-east-2.amazonaws.com/gatk-sv/sv-pipeline:2022-03".

(** j1 has direct fields; j2 and j3 have a requirements list, and the
    image of j2 has the word vcpus in its name; the ids starting with
    the letter g are unknown to the service, which answers with no job; any
    other call is refused. *)
Definition details (job : pyval) : result pyval :=
  match job with
  | PStr "j1" =>
      Ok (described "j1" "GatherSampleEvidence" "SUCCEEDED"
            (container_direct pipeline_image) [attempt "spot/ci-1" "spot/task-1"])
  | PStr "j2" =>
      Ok (described "j2" "ClusterBatch" "SUCCEEDED"
            (container_requirements benchmark_image) [attempt "spot/ci-1" "spot/task-2"])
  | PStr "j3" =>
      Ok (described "j3" "ClusterBatch" "SUCCEEDED"
            (container_requirements pipeline_image)
            [attempt "spot/ci-1" "spot/task-3"; attempt "spot/ci-2" "spot/task-4"])
  | PStr (String "g" _) => Ok (PDict [metadata; ("jobs", PList [])])
  | _ => Raise (ClientError "TooManyRequestsException")
  end.

Definition detail_queue : env := with_batch base (fun _ _ => Ok (last_page [])) details.

End DetailSamples.

(** ** Sample log services *)

Module UsageSamples.
Import Samples.

(** The parsed form of a performance log message of type Task. *)
Definition task_message (task instance : string) (cpu_u cpu_p mem_u mem_p : Q)
  : list (string * logval) :=
  [("Version", LStr "0");
   ("Type", LStr "Task");
   ("TaskId", LStr task);
   ("ContainerInstanceId", LStr instance);
   ("CpuUtilized", LNum cpu_u);
   ("CpuReserved", LNum cpu_p);
   ("MemoryUtilized", LNum mem_u);
   ("MemoryReserved", LNum mem_p);
   ("CloudWatchMetrics", LOther)].

Definition text_a : string :=
  "{'Version': '0', 'Type': 'Task', 'TaskId': 't1', 'ContainerInstanceId': 'ci-1', 'CpuUtilized': 1.5, 'CpuReserved': 2, 'MemoryUtilized': 300, 'MemoryReserved': 4096, 'CloudWatchMetrics': []}".
Definition text_b : string :=
  "{'Version': '0', 'Type': 'Container', 'ContainerName': 'sv-pipeline', 'CpuUtilized': 9.0}".
Definition text_c : string :=
  "{'Version': '0', 'Type': 'Task', 'TaskId': 't1', 'ContainerInstanceId': 'ci-1', 'CpuUtilized': 2.5, 'CpuReserved': 2, 'MemoryUtilized': 500, 'MemoryReserved': 4096, 'CloudWatchMetrics': []}".
Definition text_d : string :=
  "{'Version': '0', 'Type': 'Task', 'TaskId': 't2', 'ContainerInstanceId': 'ci-1', 'CpuUtilized': 1, 'CpuReserved': 4, 'MemoryUtilized': 1000, 'MemoryReserved': 8192, 'CloudWatchMetrics': []}".

(** [ast.literal_eval] on the messages above; the last one is cut short
    and is no literal. *)
Definition parse (value : pyval) : result (list (string * logval)) :=
  match value with
  | PStr text =>
      if String.eqb text text_a then Ok (task_message "t1" "ci-1" 1.5 2 300 4096)
      else if String.eqb text text_b then
        Ok [("Version", LStr "0"); ("Type", LStr "Container");
            ("ContainerName", LStr "sv-pipeline"); ("CpuUtilized", LNum 9)]
      else if String.eqb text text_c then Ok (task_message "t1" "ci-1" 2.5 2 500 4096)
      else if String.eqb text text_d then Ok (task_message "t2" "ci-1" 1 4 1000 8192)
      else Raise ValueError
  | _ => Raise ValueError
  end.

(** A row of the result of a query: the message and the pointer to it. *)
Definition record (text : string) : pyval :=
  PList [PDict [("field", PStr "@message"); ("value", PStr text)];
         PDict [("field", PStr "@ptr"); ("value", PStr "CmEKJgoiMTExMTIyMjIz")]].

Definition answer (status : string) (texts : list string) : pyval :=
  PDict [("results", PList (map record texts));
         ("statistics", PDict [("recordsMatched", PInt (Z.of_nat (List.length texts)))]);
         ("status", PStr status);
         metadata].

(** The first window gets the query q0, any later window q1. *)
Definition start (epoch_start epoch_end : Z) : result pyval :=
  Ok (PDict [("queryId", PStr (if epoch_start =? 1648036020 then "q0" else "q1")); metadata]).

Definition log_group : option string :=
  Some "/aws/ecs/containerinsights/spot-gwf-core-dev-sv-fsx-SCRATCH/performance".

(** Both windows complete; q0 is still running at its first two polls. *)
Definition complete_results (query_id : pyval) (polls : nat) : result pyval :=
  match query_id with
  | PStr "q0" =>
      if (polls <? 2)%nat then Ok (answer "Running" [])
      else Ok (answer "Complete" [text_a; text_b; text_d])
  | _ => Ok (answer "Complete" [text_c])
  end.

Definition complete_logs : env := with_logs base log_group start complete_results parse.



(** A query that the service reports as running at every poll. *)
Definition stuck_results (query_id : pyval) (polls : nat) : result pyval :=
  Ok (answer "Running" []).

Definition stuck_logs : env := with_logs base log_group start stuck_results parse.

(** Queries that match no record, on a queue with one succeeded job. *)
Definition empty_results (query_id : pyval) (polls : nat) : result pyval :=
  Ok (answer "Complete" []).

Definition one_job_listing (status : string) (token : option pyval) : result pyval :=
  match token with
  | None =>
      if String.eqb status "SUCCEEDED"
      then Ok (last_page [summary "j1" "GatherSampleEvidence" 1648036030000 "SUCCEEDED"])
      else Ok (last_page [])
  | Some _ => Raise (ClientError "unknown token")
  end.

Definition one_job_queue : env := with_batch base one_job_listing DetailSamples.details.

Definition empty_logs : env := with_logs one_job_queue log_group start empty_results parse.

End UsageSamples.

(** ** What the windows of a run look like *)

Module Windows.

(** The [i]-th window of a run. *)
Definition window_start (E : env) (i : nat) : Z :=
  batch_start_epoch E + Z.of_nat i * cloudwatch_query_interval E.

Definition window_end (E : env) (i : nat) : Z := window_start E (S i).

(** The body of the loop run on the [i]-th window alone, from an empty
    [final_output]: its outcome, the records it appends, its events. *)
Definition window_run (E : env) (fuel : nat) (i : nat)
  : outcome unit * list usage_record * list event :=
  Usage.window E fuel (window_start E i) (window_end E i) [] [].

Definition outcome_of {A B C} (x : A * B * C) : A := fst (fst x).
Definition records_of {A B C} (x : A * B * C) : B := snd (fst x).
Definition events_of {A B C} (x : A * B * C) : C := snd x.


Definition events_upto (E : env) (fuel n : nat) : list event :=
  flat_map (fun i => events_of (window_run E fuel i)) (seq 0 n).

(** The status that the [i]-th poll of a query returns is Running. *)
Definition running_at (E : env) (query_id : pyval) (i : nat) : bool :=
  match get_query_results E query_id i with
  | Ok response =>
      match Py.getitem response "status" with
      | Ok status => Py.eq_str status "Running"
      | Raise _ => false
      end
  | Raise _ => false
  end.

(** [k] rounds of the polling loop: a sleep of one second, then a poll. *)
Fixpoint ticks (query_id : pyval) (k : nat) : list event :=
  match k with
  | O => []
  | S k' => Sleep 1 :: GetQueryResults query_id :: ticks query_id k'
  end.

Definition is_start_query (e : event) : bool :=
  match e with StartQuery _ _ => true | _ => false end.

(** The messages of type Task, and the record made of one. *)
Definition is_task (message : list (string * logval)) : bool :=
  match Usage.field "Type" message with
  | Ok type => Usage.logval_eqb type (LStr "Task")
  | Raise _ => false
  end.

Definition record_of (message : list (string * logval)) : list usage_record :=
  match Usage.task_record message with
  | Ok r => [r]
  | Raise _ => []
  end.

(** The messages that the [i]-th window receives: the parsed rows of the
    response on which the polling loop ends. *)
Definition delivered (E : env) (fuel i : nat) (messages : list (list (string * logval)))
  : Prop :=
  exists start_query_response query_id response results,
    start_query E (cloudwatch_log_group_name E) (window_start E i) (window_end E i) =
      Ok start_query_response /\
    Py.getitem start_query_response "queryId" = Ok query_id /\
    outcome_of (Usage.poll E fuel query_id 0 PNone [] []) = Finished (Ok response) /\
    (rs <- Py.getitem response "results" ;; Py.iter rs)%py = Ok results /\
    mapM (Usage.parse_record E) results = Ok messages.






(** The key of a numeric record and of a row. *)
Definition pair_of (r : usage_record) : Usage.key :=
  match Usage.key_of r with
  | Ok k => k
  | Raise _ => (AStr "", AStr "")
  end.









Definition keyed (records : list usage_record) : list (Usage.key * usage_record) :=
  map (fun r => (pair_of r, r)) records.

(** A piece of the [try] block that does not look at what was collected
    nor at the events so far: it only appends. *)
Definition framed {A} (m : Usage.acc A) : Prop :=
  forall out tr,
    m out tr =
      (outcome_of (m [] []), out ++ records_of (m [] []), tr ++ events_of (m [] [])).

(** A piece of the [try] block none of whose events is of the kind [P]. *)
Definition quiet {A} (P : event -> bool) (m : Usage.acc A) : Prop :=
  filter P (events_of (m [] [])) = [].

(** The events around the loop. *)
Definition intro_logs (E : env) : list event :=
  [Log INFO
     "Starting to query Cloud Watch Logs Group with an Interval : %s from start time : %s"
     [PInt (cloudwatch_query_interval E); PStr (batch_start_time E)];
   Log INFO "Please be patient, this may take sometime..." []].

Definition error_log : event :=
  Log ERROR "The cloudwatch log parsing has failed. Kindly check." [].

Definition count_log (rows : list usage_row) : event :=
  Log INFO "The number of tasks for which resource usage was gathered is as : %s"
    [PInt (Z.of_nat (List.length rows))].

Definition usage_csv (E : env) (rows : list usage_row) : event :=
  ToCsv (output_path E ++ "/task_resource_usage.csv")%string (UsageTable rows).

End Windows.

(** ** Job tables and module mappings *)

Module Tables.

Definition has_status (status : string) (r : job_row) : bool :=
  Py.eq_str (job_status r) status.

Definition is_csv (e : event) : bool :=
  match e with ToCsv _ _ => true | _ => false end.

(** A piece of the script that writes no CSV file. *)
Definition csv_free {A} (m : run A) : Prop :=
  forall tr, exists evs, snd (m tr) = tr ++ evs /\ filter is_csv evs = [].

Definition job (id name status : string) (started stopped : Z) : job_row :=
  {| job_id := PStr id;
     job_name := PStr name;
     job_status := PStr status;
     started_at := Some started;
     stopped_at := Some stopped;
     image := PStr DetailSamples.pipeline_image;
     vcpus := PInt 2;
     memory := PInt 4096;
     num_attempts := 1;
     num_of_instances := 1;
     instance_arn_endings := "ci-1";
     task_id := ("task-" ++ id)%string;
     reasons := PNone |}.

Definition module_of (job module : string) (number : Z) (main : string) : module_row :=
  {| m_job_name := job;
     m_module_name := module;
     m_module_number := number;
     m_main_module_name := main |}.

Definition modules : list module_row :=
  [module_of "CollectCounts" "GatherSampleEvidence" 1 "GatherSampleEvidenceBatch";
   module_of "Manta" "GatherSampleEvidence" 1 "GatherSampleEvidenceBatch";
   module_of "PESRClustering" "ClusterBatch" 3 "GATKSVPipelinePhase1"].

(** Four succeeded jobs, a failed one and a running one. *)
Definition mixed_jobs : list job_row :=
  [job "a1" "CollectCounts" "SUCCEEDED" 1648036100000 1648039700000;
   job "a2" "Manta" "FAILED" 1648036000000 1648090000000;
   job "a3" "Manta" "SUCCEEDED" 1648036200000 1648043400000;
   job "a4" "PESRClustering" "RUNNING" 1648030000000 1648099900000;
   job "a5" "PESRClustering" "SUCCEEDED" 1648050000000 1648051800000;
   job "a6" "Unlisted" "SUCCEEDED" 1648050000000 1648051800000].

Definition succeeded_jobs : list job_row :=
  [job "a1" "CollectCounts" "SUCCEEDED" 1648036100000 1648039700000;
   job "a3" "Manta" "SUCCEEDED" 1648036200000 1648043400000;
   job "a5" "PESRClustering" "SUCCEEDED" 1648050000000 1648051800000;
   job "a6" "Unlisted" "SUCCEEDED" 1648050000000 1648051800000].

Definition with_modules (E : env) (mapping : list module_row) : env :=
  {| batch_job_queue := batch_job_queue E;
     batch_start_time := batch_start_time E;
     batch_start_epoch := batch_start_epoch E;
     cloudwatch_log_group_name := cloudwatch_log_group_name E;
     cloudwatch_query_interval := cloudwatch_query_interval E;
     output_path := output_path E;
     job_modules_df := mapping;
     current_epoch_time := current_epoch_time E;
     list_jobs := list_jobs E;
     describe_jobs := describe_jobs E;
     start_query := start_query E;
     get_query_results := get_query_results E;
     literal_eval := literal_eval E;
     list_of_set := list_of_set E |}.

Definition reporting : env := with_modules Samples.base modules.

End Tables.

(** ** Listings that go wrong *)

Module BrokenListing.

(** The service returns the pages of [pages] from [token] on, each with a
    token, and raises [e] at the call that follows them. *)
Fixpoint broken_from (E : env) (job_status : string) (token : option pyval)
    (pages : list (list pyval * pyval)) (e : exn) : Prop :=
  match pages with
  | [] => list_jobs E (batch_job_queue E) job_status token = Raise e
  | (items, next) :: rest =>
      exists entries,
        list_jobs E (batch_job_queue E) job_status token = Ok (PDict entries) /\
        Py.assoc "jobSummaryList" entries = Some (PList items) /\
        Forall Listing.summary_typed items /\
        Py.assoc "nextToken" entries = Some next /\
        Py.is_none next = false /\
        broken_from E job_status (Some next) rest e
  end.

(** The pages of [paged_queue]. *)
Definition paged_snapshot : Listing.snapshot :=
  {| Listing.succeeded_pages :=
       [([Samples.summary "s1" "ClusterBatch" 1648036030000 "SUCCEEDED"], PStr "t1");
        ([Samples.summary "s2" "ClusterBatch" 1648036000000 "SUCCEEDED";
          Samples.summary "s3" "ClusterBatch" 1648036040000 "SUCCEEDED"], PStr "t2");
        ([Samples.summary "s4" "ClusterBatch" 1648036050000 "SUCCEEDED"], PNone)];
     Listing.failed_pages := [([], PNone)];
     Listing.running_pages :=
       [([Samples.summary "r1" "ClusterBatch" 1648036060000 "RUNNING"], PNone)] |}.

(** A listing whose second call is throttled. *)
Definition throttled_listing (status : string) (token : option pyval) : result pyval :=
  match token with
  | None => Ok (Samples.page [Samples.summary "s1" "ClusterBatch" 1648036030000 "SUCCEEDED"] "t1")
  | Some _ => Raise (ClientError "TooManyRequestsException")
  end.

Definition throttled_queue : env :=
  Samples.with_batch Samples.base throttled_listing (describe_jobs Samples.base).

(** A listing with an entry that has no creation time. *)
Definition untimed : pyval := PDict [("jobId", PStr "s9"); ("jobName", PStr "ClusterBatch")].

Definition untimed_listing (status : string) (token : option pyval) : result pyval :=
  Ok (Samples.last_page [Samples.summary "s1" "ClusterBatch" 1648036030000 "SUCCEEDED"; untimed]).

Definition untimed_queue : env :=
  Samples.with_batch Samples.base untimed_listing (describe_jobs Samples.base).

End BrokenListing.

(** ** Jobs that are kept and jobs that are left out *)

Module Kept.

Definition job_ok (E : env) (job_id : pyval) : bool := negb (Details.job_fails E job_id).

Definition is_describe (e : event) : bool :=
  match e with DescribeJobs _ => true | _ => false end.

Definition is_warning (e : event) : bool :=
  match e with Log WARNING _ _ => true | _ => false end.

(** The warning of the [except] clause. *)
Definition warning (job_id response : pyval) : event :=
  Log WARNING "The job id : %s failed parsing with response: %s" [job_id; response].

(** An attempt whose container gives the reason [reason]. *)
Definition attempt_with_reason (i : pyval) (reason : string) : Prop :=
  exists entries container,
    i = PDict entries /\
    Py.assoc "container" entries = Some (PDict container) /\
    Py.assoc "reason" container = Some (PStr reason) /\
    reason <> "".

(** [response['jobs'][0]['container']] and the attempts of the job. *)
Definition container_of (response : pyval) : result pyval :=
  (jobs <- Py.getitem response "jobs" ;;
   job <- Py.index jobs 0 ;;
   Py.getitem job "container")%py.

Definition attempts_of (response : pyval) : result (list pyval) :=
  (jobs <- Py.getitem response "jobs" ;;
   job <- Py.index jobs 0 ;;
   attempts <- Py.getitem job "attempts" ;;
   Py.iter attempts)%py.

(** The reasons joined as the loop over the attempts joins them. *)
Definition joined (reasons : list string) : pyval :=
  match reasons with
  | [] => PNone
  | _ => PStr (Text.join "|" reasons)
  end.

Definition failed_attempt (instance task reason : string) : pyval :=
  PDict [("container",
          PDict [("containerInstanceArn",
                  PStr ("arn:aws:ecs:us-east-2:111122223333:container-instance/" ++ instance)%string);
                 ("taskArn", PStr ("arn:aws:ecs:us-east-2:111122223333:task/" ++ task)%string);
                 ("exitCode", PInt 137);
                 ("reason", PStr reason)]);
         ("statusReason", PStr "Essential container in task exited")].

(** A running job: its container carries the instance and the task. *)
Definition running_container : pyval :=
  PDict [("image", PStr DetailSamples.pipeline_image);
         ("vcpus", PInt 8); ("memory", PInt 16384);
         ("containerInstanceArn",
          PStr "arn:aws:ecs:us-east-2:111122223333:container-instance/spot/ci-7");
         ("taskArn", PStr "arn:aws:ecs:us-east-2:111122223333:task/spot/task-70")].

Definition running_job : pyval :=
  Samples.described "j7" "GenotypeBatch" "RUNNING" running_container
    [Samples.attempt "spot/ci-5" "spot/task-50"].

Definition failed_job : pyval :=
  Samples.described "j8" "GenotypeBatch" "FAILED"
    (Samples.container_requirements DetailSamples.pipeline_image)
    [failed_attempt "spot/ci-5" "spot/task-51" "OutOfMemoryError: Container killed";
     failed_attempt "spot/ci-6" "spot/task-52" "Host EC2 (instance i-0abc) terminated."].

End Kept.

(** ** Query windows *)

Module Intervals.
Import Windows.

(** The call of [start_query] for the [i]-th window. *)
Definition query_of (E : env) (i : nat) : event :=
  StartQuery (window_start E i) (window_end E i).

(** The events of the CloudWatch Logs client and of the wait between two
    polls. *)
Definition is_logs_call (e : event) : bool :=
  match e with
  | StartQuery _ _ | GetQueryResults _ | Sleep _ => true
  | _ => false
  end.

Definition with_interval (E : env) (interval now : Z) : env :=
  {| batch_job_queue := batch_job_queue E;
     batch_start_time := batch_start_time E;
     batch_start_epoch := batch_start_epoch E;
     cloudwatch_log_group_name := cloudwatch_log_group_name E;
     cloudwatch_query_interval := interval;
     output_path := output_path E;
     job_modules_df := job_modules_df E;
     current_epoch_time := now;
     list_jobs := list_jobs E;
     describe_jobs := describe_jobs E;
     start_query := start_query E;
     get_query_results := get_query_results E;
     literal_eval := literal_eval E;
     list_of_set := list_of_set E |}.

(** The script run 1280 seconds after the start of the batch with an
    interval of one hour, and with an interval of zero seconds. *)
Definition recent_logs : env := with_interval UsageSamples.empty_logs 3600 1648037300.

Definition zero_interval_logs : env := with_interval UsageSamples.empty_logs 0 1648037300.

End Intervals.

(** ** Whole runs *)

Module Runs.

(** A piece of the script none of whose events is of the kind [P]. *)
Definition avoids {A} (P : event -> bool) (m : run A) : Prop :=
  forall tr, exists evs, snd (m tr) = tr ++ evs /\ filter P evs = [].

(** A queue whose only job was created before the start of the batch. *)
Definition old_listing (status : string) (token : option pyval) : result pyval :=
  match token with
  | None =>
      if String.eqb status "FAILED" then Ok (Samples.last_page [Samples.before_cutoff])
      else Ok (Samples.last_page [])
  | Some _ => Raise (ClientError "unknown token")
  end.

Definition old_queue : env :=
  Samples.with_batch Samples.base old_listing (describe_jobs Samples.base).

Definition old_snapshot : Listing.snapshot :=
  {| Listing.succeeded_pages := [([], PNone)];
     Listing.failed_pages := [([Samples.before_cutoff], PNone)];
     Listing.running_pages := [([], PNone)] |}.

(** A job that ran on two tasks, and the usage of three tasks. *)
Definition retried_row : job_row :=
  {| job_id := PStr "j3";
     job_name := PStr "ClusterBatch";
     job_status := PStr "SUCCEEDED";
     started_at := Some 1648036100000;
     stopped_at := Some 1648036400000;
     image := PStr DetailSamples.pipeline_image;
     vcpus := PStr "4";
     memory := PStr "8192";
     num_attempts := 2;
     num_of_instances := 2;
     instance_arn_endings := "ci-1|ci-2";
     task_id := "task-3|task-4";
     reasons := PNone |}.

Definition usage_of (task instance : string) (cpu : Q) : usage_row :=
  {| g_task_id := AStr task;
     g_container_instance_id := AStr instance;
     cpu_used := Mean [cpu];
     cpu_passed := Mean [4%Q];
     memory_used := Mean [1000%Q];
     memory_passed := Mean [8192%Q] |}.

Definition task_usage : list usage_row :=
  [usage_of "task-1" "ci-1" 1.5; usage_of "task-3" "ci-1" 2; usage_of "task-4" "ci-2" 3].

(** The number of usage rows of the task of a job. *)
Definition usage_rows_of (usage : list usage_row) (r : job_row) : nat :=
  List.length (filter (fun u => Usage.atom_eqb (g_task_id u) (AStr (task_id r))) usage).

(** The sum of a column of counts. *)
Definition total (counts : list Z) : Z := fold_right Z.add 0 counts.

(** The key of a row of the submodule summary and of the high-level one. *)
Definition submodule_key (r : submodule_row) : number * string :=
  (module_number_x r, main_module_name_x r).

Definition highlevel_key (h : highlevel_row) : number * string :=
  (h_module_number_x h, h_main_module_name_x h).

(** The instance ids that [main] reads off a row of the job table. *)
Definition pieces (r : job_row) : list string :=
  Text.split "|" (instance_arn_endings r).

End Runs.

(** ** What a record says of its message *)

Module Reading.





End Reading.

(** ** Messages that lack a value *)

Module NullSamples.
Import Samples.

(** A Task message of task t1 whose CpuUtilized is None. *)
Definition text_null : string :=
  "{'Version': '0', 'Type': 'Task', 'TaskId': 't1', 'ContainerInstanceId': 'ci-1', 'CpuUtilized': None, 'CpuReserved': 2, 'MemoryUtilized': 500, 'MemoryReserved': 4096, 'CloudWatchMetrics': []}".

Definition parse (value : pyval) : result (list (string * logval)) :=
  match value with
  | PStr text =>
      if String.eqb text text_null then
        Ok [("Version", LStr "0");
            ("Type", LStr "Task");
            ("TaskId", LStr "t1");
            ("ContainerInstanceId", LStr "ci-1");
            ("CpuUtilized", LNone);
            ("CpuReserved", LNum 2);
            ("MemoryUtilized", LNum 500);
            ("MemoryReserved", LNum 4096);
            ("CloudWatchMetrics", LOther)]
      else UsageSamples.parse value
  | _ => Raise ValueError
  end.



End NullSamples.

(** ** The jobs of a submodule *)

Module Mapped.
Import Summaries.

(** The row of the mapping is one for the name of the job. *)
Definition named (r : job_row) (m : module_row) : bool :=
  Py.eq_str (job_name r) (m_job_name m).

(** The succeeded jobs, each with a row of the mapping for its name; a job
    comes once for each such row, a job without any does not come. *)
Definition pairs (mapping : list module_row) (job_details_df : list job_row)
  : list (job_row * module_row) :=
  flat_map (fun r => map (pair r) (filter (named r) mapping))
    (filter (Tables.has_status "SUCCEEDED") job_details_df).

(** Some succeeded job has no row in the mapping: its merged row has an
    empty module number, and the column is one of float64. *)
Definition unmapped (mapping : list module_row) (r : job_row) : bool :=
  forallb (fun m => negb (named r m)) mapping.

Definition floating (mapping : list module_row) (job_details_df : list job_row) : bool :=
  existsb (unmapped mapping) (filter (Tables.has_status "SUCCEEDED") job_details_df).

(** The module number of a row of the mapping as the summaries hold it. *)
Definition shown (float : bool) (n : Z) : number :=
  if float then NFloat (float64_of_int n) else NInt n.

Definition key_of_pair (float : bool) (p : job_row * module_row) : module_key :=
  (m_module_name (snd p), shown float (m_module_number (snd p)), m_main_module_name (snd p)).

Definition row_key (s : submodule_row) : module_key :=
  (module_name s, module_number_x s, main_module_name_x s).

(** The jobs of the submodule [k]. *)
Definition jobs_of (mapping : list module_row) (job_details_df : list job_row) (k : module_key)
  : list (job_row * module_row) :=
  filter (fun p => module_key_eqb k (key_of_pair (floating mapping job_details_df) p))
    (pairs mapping job_details_df).

(** [t] is the earliest, or the latest, of the times; NaT when there is no
    time. *)
Definition earliest (times : list (option Z)) (t : option Z) : Prop :=
  match t with
  | Some t0 => In (Some t0) times /\ forall t', In (Some t') times -> t0 <= t'
  | None => forall t', ~ In (Some t') times
  end.

Definition latest (times : list (option Z)) (t : option Z) : Prop :=
  match t with
  | Some t0 => In (Some t0) times /\ forall t', In (Some t') times -> t' <= t0
  | None => forall t', ~ In (Some t') times
  end.

(** The duration in hours of a job, and of a row of the submodule
    summary. *)
Definition span (started stopped : option Z) : hours_cell :=
  match started, stopped with
  | Some a, Some b => Hours (b - a)
  | _, _ => NoHours
  end.

(** Both times of the job lie within 2^62 nanoseconds of the epoch (years
    1824 to 2116), so that no difference of two such times overflows. *)
Definition within (t : option Z) : bool :=
  match t with
  | Some z => Z.abs z <=? 4611686018427
  | None => true
  end.

Definition timely (r : job_row) : bool := (within (started_at r) && within (stopped_at r))%bool.

(** The row of [temp_df] of a succeeded job, the merged row of a job and a
    row of the mapping, and the row of the submodule summary of a group
    and a count, when no subtraction overflows. *)
Definition with_span (r : job_row) : job_row * hours_cell :=
  (r, span (started_at r) (stopped_at r)).

Definition temp_of (float : bool) (p : job_row * module_row) : temp_row :=
  {| t_job_name := job_name (fst p);
     t_started_at := started_at (fst p);
     t_stopped_at := stopped_at (fst p);
     t_avg_duration := span (started_at (fst p)) (stopped_at (fst p));
     t_module := Some (key_of_pair float p) |}.

Definition row_of (ac : agg_row * Z) : submodule_row :=
  {| module_number_x := snd (fst (a_key (fst ac)));
     main_module_name_x := snd (a_key (fst ac));
     module_name := fst (fst (a_key (fst ac)));
     sub_started_at := a_started_at (fst ac);
     sub_stopped_at := a_stopped_at (fst ac);
     avg_duration_across_all_jobs := a_avg_duration (fst ac);
     job_counts := snd ac;
     duration := span (a_started_at (fst ac)) (a_stopped_at (fst ac)) |}.

(** The events of a run of [get_summaries] that returns. *)
Definition written (E : env) (sub : list submodule_row) (high : list highlevel_row)
  : list event :=
  [Log INFO "Considering only Successful Jobs" [];
   ToCsv (output_path E ++ "/submodule_summary.csv")%string (SubmoduleTable sub);
   Log INFO "The submodule level summary was written to output directory." [];
   ToCsv (output_path E ++ "/highlevel_summary.csv")%string (HighlevelTable high);
   Log INFO "The highlevel level summary was written to output directory." []].

End Mapped.

(** * Properties *)

(** ** Text and values *)

Module TextFacts.

Lemma prefix_app (n a b : string) :
  String.prefix n a = true -> String.prefix n (a ++ b)%string = true.
Proof.
  revert a. induction n as [|c n IH]; intros a H.
  - destruct (a ++ b)%string; reflexivity.
  - destruct a as [|d a]; simpl in *; [discriminate|].
    destruct (ascii_dec c d); [apply IH; assumption | discriminate].
Qed.

Lemma str_in_app_l (n a b : string) :
  Text.str_in n a = true -> Text.str_in n (a ++ b)%string = true.
Proof.
  induction a as [|c a IH]; intros H.
  - simpl in H. destruct n; [|discriminate]. destruct b; reflexivity.
  - cbn [Text.str_in] in H. cbn [String.append Text.str_in].
    destruct (String.prefix n (String c a)) eqn:P.
    + change (String c (a ++ b)%string) with (String c a ++ b)%string.
      rewrite (prefix_app _ _ _ P). reflexivity.
    + rewrite (IH H). destruct (String.prefix n (String c (a ++ b))); reflexivity.
Qed.

Lemma str_in_app_r (n a b : string) :
  Text.str_in n b = true -> Text.str_in n (a ++ b)%string = true.
Proof.
  intros H. induction a as [|c a IH]; [exact H|].
  cbn [String.append Text.str_in]. rewrite IH.
  destruct (String.prefix n (String c (a ++ b))); reflexivity.
Qed.

Lemma repr_dict (entries : list (string * pyval)) :
  Py.repr (PDict entries) = ("{" ++ Py.entries_text entries ++ "}")%string.
Proof.
  reflexivity.
Qed.

(** A key of a dict occurs in the text of the dict. *)
Lemma key_in_text (k : string) :
  Text.str_in k (Text.repr k) = true ->
  forall entries v,
    Py.assoc k entries = Some v ->
    Text.str_in k (Py.str (PDict entries)) = true.
Proof.
  intros Hk entries v H. unfold Py.str. rewrite repr_dict.
  apply str_in_app_r with (a := "{"). apply str_in_app_l.
  induction entries as [|[k' x] rest IH]; [discriminate|].
  cbn [Py.assoc] in H. cbn [Py.entries_text].
  destruct (String.eqb_spec k k') as [->|Hne].
  - apply str_in_app_l. exact Hk.
  - apply str_in_app_r, str_in_app_r, str_in_app_r.
    destruct rest as [|e rest']; [discriminate|].
    apply str_in_app_r. apply IH. exact H.
Qed.

End TextFacts.

(** ** The listing of job ids *)

Module JobIdsFacts.
Import JobIds Listing.
Local Open Scope run_scope.

Lemma append_new_spec (cutoff : Z) (items temp : list pyval) :
  Forall summary_typed items ->
  append_new cutoff items temp = Ok (temp ++ flat_map (newer cutoff) items).
Proof.
  intros H. revert temp.
  induction H as [|x items (created & id & Hc & Hi) _ IH]; intros temp.
  - simpl. rewrite app_nil_r. reflexivity.
  - cbn [append_new flat_map]. unfold newer. rewrite Hc, Hi. cbn [bind Py.gt_num].
    destruct (cutoff <? created).
    + rewrite IH, <- app_assoc. reflexivity.
    + rewrite IH. reflexivity.
Qed.

Lemma scan_page_spec (cutoff : Z) entries items temp :
  Py.assoc "jobSummaryList" entries = Some (PList items) ->
  Forall summary_typed items ->
  scan_page cutoff (PDict entries) temp = Ok (temp ++ flat_map (newer cutoff) items).
Proof.
  intros Hl Ht. unfold scan_page. cbn [Py.getitem]. rewrite Hl. cbn [bind Py.iter].
  apply append_new_spec; assumption.
Qed.

(** On a first page the test on the text and the test on the keys agree
    as soon as the text of a page without token is plain. *)
Lemma first_token_later (entries : list (string * pyval)) :
  (Py.assoc "nextToken" entries = None ->
   Text.str_in "nextToken" (Py.str (PDict entries)) = false) ->
  first_token (PDict entries) = later_token (PDict entries).
Proof.
  intros Hplain. unfold first_token, later_token. cbn [Py.getitem].
  destruct (Py.assoc "nextToken" entries) as [t|] eqn:Ha.
  - rewrite (TextFacts.key_in_text "nextToken" eq_refl entries t Ha). reflexivity.
  - rewrite (Hplain eq_refl). reflexivity.
Qed.

Lemma ids_after_cons (cutoff : Z) items next pages :
  ids_after cutoff ((items, next) :: pages) =
    flat_map (newer cutoff) items ++ ids_after cutoff pages.
Proof.
  unfold ids_after, all_items. cbn [flat_map fst]. apply flat_map_app.
Qed.

Lemma ids_after_nil (cutoff : Z) : ids_after cutoff [] = [].
Proof. reflexivity. Qed.

Lemma paginate_spec (E : env) (job_status : string) :
  forall pages fuel next temp tr,
    pages_from E job_status (Some next) pages ->
    Py.is_none next = false ->
    (List.length pages <= fuel)%nat ->
    paginate E fuel job_status next temp tr =
      (Finished (Ok (temp ++ ids_after (epoch_batch_start E) pages)),
       tr ++ ListJobs job_status (Some next) :: later_calls job_status pages).
Proof.
  induction pages as [|[items next'] rest IH]; intros fuel next temp tr Hp Hn Hf;
    [destruct Hp|].
  destruct Hp as (entries & Hcall & Hlist & Htyped & Htok & Hrest).
  destruct fuel as [|fuel]; [simpl in Hf; lia|].
  cbn [paginate]. rewrite Hn.
  unfold bind_run at 1. unfold emit at 1.
  unfold bind_run at 1. unfold lift at 1. rewrite Hcall.
  unfold bind_run at 1. unfold lift at 1.
  rewrite (scan_page_spec _ _ _ _ Hlist Htyped).
  unfold bind_run at 1. unfold lift at 1. rewrite Htok.
  destruct rest as [|p rest].
  - subst next'. rewrite ids_after_cons, ids_after_nil, app_nil_r.
    destruct fuel; reflexivity.
  - destruct Hrest as [Hn' Hrest].
    rewrite (IH fuel next' _ _ Hrest Hn') by (simpl in Hf |- *; lia).
    rewrite ids_after_cons, <- !app_assoc. destruct p. reflexivity.
Qed.

Lemma ids_of_status_spec (E : env) (job_status : string) pages fuel tr :
  pages_from E job_status None pages ->
  first_page_plain E job_status ->
  (List.length pages <= S fuel)%nat ->
  ids_of_status E fuel job_status tr =
    (Finished (Ok (ids_after (epoch_batch_start E) pages)),
     tr ++ status_events (epoch_batch_start E) job_status pages).
Proof.
  intros Hp Hplain Hf. unfold status_events.
  destruct pages as [|[items next] rest]; [destruct Hp|].
  destruct Hp as (entries & Hcall & Hlist & Htyped & Htok & Hrest).
  unfold ids_of_status.
  unfold bind_run at 1. unfold emit at 1.
  unfold bind_run at 1. unfold emit at 1.
  unfold bind_run at 1. unfold lift at 1. rewrite Hcall.
  unfold bind_run at 1. unfold lift at 1.
  rewrite (scan_page_spec _ _ _ _ Hlist Htyped).
  unfold bind_run at 1. unfold lift at 1.
  rewrite (first_token_later entries (Hplain entries Hcall)), Htok.
  unfold bind_run at 1.
  destruct rest as [|p rest].
  - subst next. rewrite ids_after_cons, ids_after_nil, app_nil_r.
    destruct fuel; cbn [paginate Py.is_none ret later_calls app];
      unfold bind_run, emit, ret; rewrite <- !app_assoc; reflexivity.
  - destruct Hrest as [Hn Hrest].
    rewrite (paginate_spec E job_status (p :: rest) fuel next _ _ Hrest Hn)
      by (simpl in Hf |- *; lia).
    rewrite ids_after_cons. destruct p as [items' next'].
    unfold bind_run, emit, ret. cbn [later_calls app].
    rewrite <- !app_assoc. reflexivity.
Qed.

(** With pages as the service really returns them, and the text of the
    single-page listings plain, the function returns the ids of all pages
    that pass the filter, status by status, once the budget covers the
    longest listing. *)
Lemma get_batch_job_id_list_spec (E : env) (Q : snapshot) (fuel : nat) tr :
  describes E Q ->
  (longest Q <= S fuel)%nat ->
  get_batch_job_id_list E fuel tr = (Finished (Ok (listed_ids E Q)), tr ++ listing_events E Q).
Proof.
  intros [[Hs Hsp] [[Hf Hfp] [Hr Hrp]]] Hfuel. unfold longest in Hfuel.
  unfold get_batch_job_id_list, status_needed, listed_ids, listing_events.
  unfold bind_run at 1. unfold emit at 1.
  unfold bind_run at 1. unfold emit at 1.
  unfold bind_run at 1. cbn [for_statuses].
  unfold bind_run at 1. rewrite (ids_of_status_spec E _ _ fuel _ Hs Hsp) by lia.
  unfold bind_run at 1. rewrite (ids_of_status_spec E _ _ fuel _ Hf Hfp) by lia.
  unfold bind_run at 1. rewrite (ids_of_status_spec E _ _ fuel _ Hr Hrp) by lia.
  unfold ret, bind_run, emit. cbn [app]. rewrite <- !app_assoc. reflexivity.
Qed.

Lemma later_calls_count (job_status : string) (pages : list (list pyval * pyval)) :
  List.length (filter is_list_jobs (later_calls job_status pages)) = pred (List.length pages).
Proof.
  induction pages as [|[items next] [|p rest] IH]; try reflexivity.
  cbn [later_calls filter is_list_jobs List.length pred] in *. rewrite IH. reflexivity.
Qed.

(** One call of [list_jobs] per page: the loops end after as many rounds
    as the service has pages. *)
Lemma list_jobs_calls (E : env) (Q : snapshot) :
  describes E Q ->
  List.length (filter is_list_jobs (listing_events E Q)) = page_count Q.
Proof.
  intros [[Hs _] [[Hf _] [Hr _]]]. unfold listing_events, status_events, page_count.
  rewrite !filter_app, !length_app, !later_calls_count. cbn.
  destruct (succeeded_pages Q); [destruct Hs|].
  destruct (failed_pages Q); [destruct Hf|].
  destruct (running_pages Q); [destruct Hr|].
  cbn [List.length pred]. lia.
Qed.

End JobIdsFacts.

Module JobIdsClaims.
Import JobIds Listing.

Lemma in_ids_after (cutoff : Z) (pages : list (list pyval * pyval)) (id : pyval) :
  In id (ids_after cutoff pages) <->
  exists x created,
    In x (all_items pages) /\
    Py.getitem x "createdAt" = Ok (PInt created) /\
    Py.getitem x "jobId" = Ok id /\
    cutoff < created.
Proof.
  unfold ids_after. rewrite in_flat_map. split.
  - intros (x & Hx & Hin). unfold newer in Hin.
    destruct (Py.getitem x "createdAt") as [[| | created | | |]|] eqn:Hc; try destruct Hin.
    destruct (Py.getitem x "jobId") as [id'|] eqn:Hi; [|destruct Hin].
    destruct (cutoff <? created) eqn:Hlt; [|destruct Hin].
    destruct Hin as [<-|[]]. exists x, created.
    apply Z.ltb_lt in Hlt. repeat split; assumption.
  - intros (x & created & Hx & Hc & Hi & Hlt). exists x. split; [assumption|].
    unfold newer. rewrite Hc, Hi. apply Z.ltb_lt in Hlt. rewrite Hlt. left. reflexivity.
Qed.

(** C1 (as amended). For every queue snapshot and start-time cutoff,
    [get_batch_job_id_list] returns exactly the ids of the listed jobs whose
    creation time is strictly after the cutoff: a job created at the cutoff
    instant or before it is not returned. (The pages are those the service
    returns, the budget covers the longest listing, and the text of a
    single-page listing does not contain the word nextToken.) *)
Theorem job_ids_strictly_after_cutoff (E : env) (Q : snapshot) (fuel : nat) (tr : list event) :
  describes E Q ->
  (longest Q <= S fuel)%nat ->
  exists ids,
    fst (get_batch_job_id_list E fuel tr) = Finished (Ok ids) /\
    forall id,
      In id ids <->
      exists x created,
        In x (jobs_of Q) /\
        Py.getitem x "createdAt" = Ok (PInt created) /\
        Py.getitem x "jobId" = Ok id /\
        epoch_batch_start E < created.
Proof.
  intros Hd Hf.
  exists (listed_ids E Q). split.
  - rewrite (JobIdsFacts.get_batch_job_id_list_spec E Q fuel tr Hd Hf). reflexivity.
  - intros id. unfold jobs_of, listed_ids. rewrite !in_app_iff, !in_ids_after. split.
    + intros [H|[H|H]]; destruct H as (x & c & Hx & Hrest); exists x, c;
        rewrite !in_app_iff; tauto.
    + intros (x & c & Hx & Hrest). rewrite !in_app_iff in Hx.
      destruct Hx as [Hx|[Hx|Hx]]; [left|right; left|right; right]; exists x, c; tauto.
Qed.

Lemma job_ids_strictly_after_cutoff_witness :
  exists ids,
    fst (get_batch_job_id_list Samples.cutoff_queue 0 []) = Finished (Ok ids) /\
    forall id,
      In id ids <->
      exists x created,
        In x (jobs_of ListingSamples.cutoff_snapshot) /\
        Py.getitem x "createdAt" = Ok (PInt created) /\
        Py.getitem x "jobId" = Ok id /\
        epoch_batch_start Samples.cutoff_queue < created.
Proof.
  apply (job_ids_strictly_after_cutoff Samples.cutoff_queue ListingSamples.cutoff_snapshot 0 []).
  - repeat split;
      try (eexists; repeat split; try reflexivity;
           repeat constructor; eexists; eexists; split; reflexivity);
      intros entries Hcall _; injection Hcall as <-; reflexivity.
  - unfold longest. simpl. lia.
Defined.

(** C1, counterexample. In [cutoff_queue] the succeeded job job-at-cutoff
    was created exactly at the cutoff instant; the returned list holds the
    job created after it and not job-at-cutoff. *)
Lemma cutoff_job_is_dropped :
  Py.getitem Samples.at_cutoff "jobId" = Ok (PStr "job-at-cutoff") /\
  Py.getitem Samples.at_cutoff "createdAt" = Ok (PInt (epoch_batch_start Samples.cutoff_queue)) /\
  list_jobs Samples.cutoff_queue (batch_job_queue Samples.cutoff_queue) "SUCCEEDED" None =
    Ok (Samples.last_page [Samples.at_cutoff; Samples.after_cutoff]) /\
  exists ids,
    fst (get_batch_job_id_list Samples.cutoff_queue 0 []) = Finished (Ok ids) /\
    ~ In (PStr "job-at-cutoff") ids.
Proof.
  repeat split. exists [PStr "job-after"]. split; [reflexivity|].
  intros [H|[]]. discriminate H.
Qed.

(** C2, the failing input. In [named_queue] the succeeded jobs are listed
    in one page, which carries no token, and the name of the job on it
    contains the word nextToken. The first-page test looks for the word
    in the text of the response and then reads the missing key: the
    function raises a [KeyError] whatever the budget, and returns no id. *)
Theorem first_page_token_test_raises :
  pages_from Samples.named_queue "SUCCEEDED" None
    [([Samples.summary "j1" "nextToken-refresh" 1648036030000 "SUCCEEDED"], PNone)] /\
  forall fuel tr,
    fst (get_batch_job_id_list Samples.named_queue fuel tr) =
      Finished (Raise (KeyError (PStr "nextToken"))).
Proof.
  split.
  - eexists. repeat split; try reflexivity.
    repeat constructor. eexists. eexists. split; reflexivity.
  - intros fuel tr. reflexivity.
Qed.

End JobIdsClaims.

(** ** The job details *)

Module JobDetailsFacts.
Import JobDetails Details.
Local Open Scope run_scope.

(** A direct field is used when the container has it. *)
Lemma resource_direct (entries : list (string * pyval)) (key : string) (pos : nat) (v : pyval) :
  Text.str_in key (Text.repr key) = true ->
  Py.assoc key entries = Some v ->
  resource (PDict entries) key pos = Ok v.
Proof.
  intros Hk Ha. unfold resource.
  rewrite (TextFacts.key_in_text key Hk entries v Ha).
  cbn [Py.getitem]. rewrite Ha. reflexivity.
Qed.

(** The requirements list is used when the text of the container does not
    contain the name of the field. *)
Lemma resource_positional (container : pyval) (key : string) (pos : nat) :
  Text.str_in key (Py.str container) = false ->
  resource container key pos = positional container pos.
Proof.
  intros H. unfold resource. rewrite H. reflexivity.
Qed.

(** Once a response is bound, the loop over the jobs takes every failing
    job as a warning and goes on. *)
Lemma for_jobs_all_fail (E : env) (ids : list pyval) :
  forallb (job_fails E) ids = true ->
  forall final r tr,
  exists tr', for_jobs E ids final (Some r) tr = (Finished (Ok final), tr').
Proof.
  induction ids as [|id rest IH]; intros Hall final r tr.
  - eexists. reflexivity.
  - cbn [forallb] in Hall. apply andb_true_iff in Hall as [Hid Hrest].
    unfold job_fails in Hid. cbn [for_jobs].
    unfold bind_run at 1. unfold emit at 1.
    destruct (describe_jobs E id) as [r'|e].
    + destruct (parse_job E id r') as [record|e]; [discriminate|].
      unfold bind_run at 1. cbn [handler]. unfold emit at 1. apply IH. assumption.
    + unfold bind_run at 1. cbn [handler]. unfold emit at 1. apply IH. assumption.
Qed.

End JobDetailsFacts.

Module JobDetailsClaims.
Import JobDetails Details.

(** C3, the failing input. The container of job j2 has no direct vcpus
    field and its requirements list gives 4 vCPU at index 0, but the name
    of its image contains the word vcpus: the test on the text of the
    container picks the direct field, which is missing. The job is left
    out of the table with a warning, while j1 (direct fields) and j3
    (requirements list) are there. *)
Theorem requirements_container_with_vcpus_in_text :
  let container := Samples.container_requirements DetailSamples.benchmark_image in
  Py.contains container "vcpus" = Ok false /\
  positional container 0 = Ok (PStr "4") /\
  resource container "vcpus" 0 = Raise (KeyError (PStr "vcpus")) /\
  exists rows,
    fst (get_job_details DetailSamples.detail_queue [PStr "j1"; PStr "j2"; PStr "j3"] []) =
      Finished (Ok rows) /\
    map job_id rows = [PStr "j1"; PStr "j3"] /\
    map vcpus rows = [PInt 2; PStr "4"] /\
    map memory rows = [PInt 4096; PStr "8192"].
Proof.
  repeat split. eexists. repeat split.
Qed.

(** C4, the failing input. The fetch of the first job j0 is refused by the
    service. The [except] clause formats the local [response], which no
    call has bound yet: the function raises, no warning is logged and the
    next job j1 is never fetched. *)
Theorem first_fetch_failure_escapes :
  describe_jobs DetailSamples.detail_queue (PStr "j0") =
    Raise (ClientError "TooManyRequestsException") /\
  job_fails DetailSamples.detail_queue (PStr "j1") = false /\
  get_job_details DetailSamples.detail_queue [PStr "j0"; PStr "j1"] [] =
    (Finished (Raise (UnboundLocalError "response")), [DescribeJobs (PStr "j0")]).
Proof.
  repeat split.
Qed.

(** C10. When every job of a non-empty list fails, [get_job_details]
    raises instead of returning an empty table. When the failures are all
    swallowed, which is the case as soon as the fetch of the first job
    returns, the exception is the [KeyError] of the missing started_at
    column. *)
Theorem all_jobs_failing_raises (E : env) (job_id_list : list pyval) (tr : list event) :
  job_id_list <> [] ->
  forallb (job_fails E) job_id_list = true ->
  (exists e, fst (get_job_details E job_id_list tr) = Finished (Raise e)) /\
  (forall job_id rest r,
      job_id_list = job_id :: rest ->
      describe_jobs E job_id = Ok r ->
      fst (get_job_details E job_id_list tr) = Finished (Raise (KeyError (PStr "started_at")))).
Proof.
  intros Hne Hall.
  destruct job_id_list as [|id rest]; [contradiction|].
  cbn [forallb] in Hall. apply andb_true_iff in Hall as [Hid Hrest].
  assert (Hbound : forall r, describe_jobs E id = Ok r ->
            fst (get_job_details E (id :: rest) tr) =
              Finished (Raise (KeyError (PStr "started_at")))).
  { intros r Hr. unfold job_fails in Hid. rewrite Hr in Hid.
    unfold get_job_details. unfold bind_run at 1. cbn [for_jobs].
    unfold bind_run at 1. unfold emit at 1. rewrite Hr.
    destruct (parse_job E id r) as [record|e]; [discriminate|].
    unfold bind_run at 1. cbn [handler]. unfold emit at 1.
    destruct (JobDetailsFacts.for_jobs_all_fail E rest Hrest [] r
                ((tr ++ [DescribeJobs id]) ++
                 [Log WARNING "The job id : %s failed parsing with response: %s" [id; r]]))
      as [tr' ->].
    reflexivity. }
  split.
  - destruct (describe_jobs E id) as [r|e] eqn:Hd.
    + eexists. apply (Hbound r eq_refl).
    + exists (UnboundLocalError "response").
      unfold get_job_details. unfold bind_run at 1. cbn [for_jobs].
      unfold bind_run at 1. unfold emit at 1. rewrite Hd. reflexivity.
  - intros job_id rest' r Heq Hr. injection Heq as <- <-. apply (Hbound r Hr).
Qed.

Lemma all_jobs_failing_raises_witness :
  (exists e,
      fst (get_job_details DetailSamples.detail_queue [PStr "gone-1"; PStr "gone-2"] []) =
        Finished (Raise e)) /\
  (forall job_id rest r,
      [PStr "gone-1"; PStr "gone-2"] = job_id :: rest ->
      describe_jobs DetailSamples.detail_queue job_id = Ok r ->
      fst (get_job_details DetailSamples.detail_queue [PStr "gone-1"; PStr "gone-2"] []) =
        Finished (Raise (KeyError (PStr "started_at")))).
Proof.
  apply (all_jobs_failing_raises DetailSamples.detail_queue [PStr "gone-1"; PStr "gone-2"] []).
  - discriminate.
  - reflexivity.
Defined.

End JobDetailsClaims.

(** ** The resource usage *)

Module UsageFacts.
Import Usage Windows.
Local Open Scope acc_scope.

(** *** The polling loop *)

Lemma still_running_at (E : env) (query_id : pyval) (i : nat) :
  running_at E query_id i = true ->
  exists response,
    get_query_results E query_id i = Ok response /\ still_running response = Ok true.
Proof.
  unfold running_at. intros H.
  destruct (get_query_results E query_id i) as [response|]; [|discriminate].
  exists response. split; [reflexivity|]. unfold still_running.
  destruct (Py.is_none response); [reflexivity|].
  destruct (Py.getitem response "status") as [status|]; [|discriminate].
  cbn [bind]. rewrite H. reflexivity.
Qed.

Lemma poll_step (E : env) (fuel : nat) (query_id : pyval) (polls : nat)
    (response response' : pyval) out tr :
  still_running response = Ok true ->
  get_query_results E query_id polls = Ok response' ->
  poll E (S fuel) query_id polls response out tr =
    poll E fuel query_id (S polls) response' out (tr ++ ticks query_id 1).
Proof.
  intros Hrun Hget. cbn [poll]. unfold abind at 1. unfold alift at 1. rewrite Hrun.
  unfold abind at 1. unfold aemit at 1. unfold abind at 1. unfold aemit at 1.
  unfold abind at 1. unfold alift at 1. rewrite Hget.
  cbn [ticks]. rewrite <- app_assoc. reflexivity.
Qed.

Lemma poll_done (E : env) (fuel : nat) (query_id : pyval) (polls : nat) (response : pyval)
    out tr :
  still_running response = Ok false ->
  poll E fuel query_id polls response out tr = (Finished (Ok response), out, tr).
Proof.
  intros Hrun. destruct fuel; cbn [poll]; unfold abind, alift; rewrite Hrun; reflexivity.
Qed.

Lemma ticks_app (query_id : pyval) (a b : nat) :
  ticks query_id a ++ ticks query_id b = ticks query_id (a + b).
Proof.
  induction a as [|a IH]; [reflexivity|]. cbn [ticks Nat.add app]. rewrite IH. reflexivity.
Qed.

(** The loop leaves at the first poll whose status is not Running. *)
Lemma poll_exits (E : env) (query_id : pyval) :
  forall n fuel polls response final out tr,
    still_running response = Ok true ->
    (forall i, (i < n)%nat -> running_at E query_id (polls + i) = true) ->
    get_query_results E query_id (polls + n) = Ok final ->
    still_running final = Ok false ->
    (n < fuel)%nat ->
    poll E fuel query_id polls response out tr =
      (Finished (Ok final), out, tr ++ ticks query_id (S n)).
Proof.
  induction n as [|n IH]; intros fuel polls response final out tr Hrun Hbefore Hget Hfinal Hfuel.
  - destruct fuel as [|fuel]; [lia|]. rewrite Nat.add_0_r in Hget.
    rewrite (poll_step E fuel query_id polls response final out tr Hrun Hget).
    apply poll_done. assumption.
  - destruct fuel as [|fuel]; [lia|].
    destruct (still_running_at E query_id polls) as (r & Hr & Hrr).
    { rewrite <- (Nat.add_0_r polls). apply Hbefore. lia. }
    rewrite (poll_step E fuel query_id polls response r out tr Hrun Hr).
    rewrite (IH fuel (S polls) r final out _ Hrr).
    + rewrite <- app_assoc, ticks_app. reflexivity.
    + intros i Hi. replace (S polls + i)%nat with (polls + S i)%nat by lia.
      apply Hbefore. lia.
    + replace (S polls + n)%nat with (polls + S n)%nat by lia. assumption.
    + assumption.
    + lia.
Qed.

(** While every poll says Running the loop does not return, whatever the
    budget. *)
Lemma poll_never_returns (E : env) (query_id : pyval) :
  (forall i, running_at E query_id i = true) ->
  forall fuel polls response out tr,
    still_running response = Ok true ->
    exists out' tr', poll E fuel query_id polls response out tr = (Diverge, out', tr').
Proof.
  intros Hall. induction fuel as [|fuel IH]; intros polls response out tr Hrun.
  - cbn [poll]. unfold abind, alift, adiverge. rewrite Hrun. eexists. eexists. reflexivity.
  - destruct (still_running_at E query_id polls (Hall polls)) as (r & Hr & Hrr).
    rewrite (poll_step E fuel query_id polls response r out tr Hrun Hr).
    apply IH. assumption.
Qed.

(** *** Pieces of the [try] block do not look at what was collected *)

Lemma framed_ret {A} (a : A) : framed (aret a).
Proof. intros out tr. unfold aret. cbn. rewrite !app_nil_r. reflexivity. Qed.

Lemma framed_lift {A} (r : result A) : framed (alift r).
Proof. intros out tr. unfold alift. cbn. rewrite !app_nil_r. reflexivity. Qed.

Lemma framed_diverge {A} : framed (@adiverge A).
Proof. intros out tr. unfold adiverge. cbn. rewrite !app_nil_r. reflexivity. Qed.

Lemma framed_emit (e : event) : framed (aemit e).
Proof. intros out tr. unfold aemit. cbn. rewrite !app_nil_r. reflexivity. Qed.

Lemma framed_append (r : usage_record) : framed (append r).
Proof. intros out tr. unfold append. cbn. rewrite !app_nil_r. reflexivity. Qed.

Lemma framed_bind {A B} (m : acc A) (k : A -> acc B) :
  framed m -> (forall a, framed (k a)) -> framed (abind m k).
Proof.
  intros Hm Hk out tr. unfold abind. rewrite (Hm out tr).
  destruct (m [] []) as [[o recs] evs]. cbn [outcome_of records_of events_of fst snd app].
  destruct o as [[a|e]|]; try reflexivity.
  rewrite (Hk a (out ++ recs) (tr ++ evs)), (Hk a recs evs).
  cbn [outcome_of records_of events_of fst snd]. rewrite !app_assoc. reflexivity.
Qed.

Create HintDb framed.
#[global] Hint Resolve framed_ret framed_lift framed_diverge framed_emit framed_append
  : framed.

Ltac framed :=
  repeat first
    [ solve [auto with framed]
    | apply framed_bind; [|intros ?]
    | match goal with |- framed (if ?b then _ else _) => destruct b end
    | match goal with |- framed (match ?x with _ => _ end) => destruct x end ].

Lemma framed_for_records (E : env) (results : list pyval) : framed (for_records E results).
Proof.
  induction results as [|record rest IH]; cbn [for_records]; [apply framed_ret|].
  framed.
Qed.

Lemma framed_poll (E : env) (query_id : pyval) :
  forall fuel polls response, framed (poll E fuel query_id polls response).
Proof.
  induction fuel as [|fuel IH]; intros polls response; cbn [poll]; framed.
Qed.

Lemma framed_window (E : env) (fuel : nat) (epoch_start epoch_end : Z) :
  framed (window E fuel epoch_start epoch_end).
Proof.
  pose proof (framed_poll E) as Hpoll. pose proof (framed_for_records E) as Hrecords.
  unfold window. framed.
Qed.

(** *** The windows in turn *)

Lemma window_start_0 (E : env) : window_start E 0 = batch_start_epoch E.
Proof. unfold window_start. cbn. lia. Qed.

Lemma window_end_0 (E : env) :
  window_end E 0 = batch_start_epoch E + cloudwatch_query_interval E.
Proof. unfold window_end, window_start. lia. Qed.

Lemma window_end_next (E : env) (i : nat) :
  window_end E i + cloudwatch_query_interval E = window_end E (S i).
Proof. unfold window_end, window_start. lia. Qed.

Lemma window_framed (E : env) (fuel i : nat) out tr :
  window E fuel (window_start E i) (window_end E i) out tr =
    (outcome_of (window_run E fuel i), out ++ records_of (window_run E fuel i),
     tr ++ events_of (window_run E fuel i)).
Proof. apply framed_window. Qed.

(** The loop through [k] windows that are due and complete. *)
Lemma windows_run_through (E : env) (fuel : nat) :
  forall k i rounds out tr,
    (k <= rounds)%nat ->
    (forall j, (i <= j < i + k)%nat ->
       window_end E j < current_epoch_time E /\
       outcome_of (window_run E fuel j) = Finished (Ok tt)) ->
    windows E rounds fuel (window_start E i) (window_end E i) out tr =
      windows E (rounds - k) fuel (window_start E (i + k)) (window_end E (i + k))
        (out ++ flat_map (fun j => records_of (window_run E fuel j)) (seq i k))
        (tr ++ flat_map (fun j => events_of (window_run E fuel j)) (seq i k)).
Proof.
  induction k as [|k IH]; intros i rounds out tr Hr Hall.
  - cbn [seq flat_map]. rewrite Nat.sub_0_r, Nat.add_0_r, !app_nil_r. reflexivity.
  - destruct rounds as [|rounds]; [lia|].
    destruct (Hall i ltac:(lia)) as [Hdue Hok].
    cbn [windows]. apply Z.ltb_lt in Hdue. rewrite Hdue.
    unfold abind at 1. rewrite window_framed, Hok.
    change (window_end E i) with (window_start E (S i)) at 1.
    rewrite window_end_next.
    rewrite (IH (S i) rounds) by (try lia; intros j Hj; apply Hall; lia).
    cbn [seq flat_map Nat.sub]. rewrite <- !app_assoc.
    replace (S i + k)%nat with (i + S k)%nat by lia. reflexivity.
Qed.



(** *** Events of a given kind *)

Section Quiet.
Context (P : event -> bool).
Hypothesis P_sleep : forall s, P (Sleep s) = false.
Hypothesis P_poll : forall q, P (GetQueryResults q) = false.
Hypothesis P_log : forall l f a, P (Log l f a) = false.

Lemma quiet_ret {A} (a : A) : quiet P (aret a).
Proof. reflexivity. Qed.

Lemma quiet_lift {A} (r : result A) : quiet P (alift r).
Proof. reflexivity. Qed.

Lemma quiet_diverge {A} : quiet P (@adiverge A).
Proof. reflexivity. Qed.

Lemma quiet_append (r : usage_record) : quiet P (append r).
Proof. reflexivity. Qed.

Lemma quiet_emit (e : event) : P e = false -> quiet P (aemit e).
Proof. intros H. unfold quiet, aemit. cbn. rewrite H. reflexivity. Qed.

Lemma quiet_bind {A B} (m : acc A) (k : A -> acc B) :
  quiet P m -> (forall a, framed (k a)) -> (forall a, quiet P (k a)) -> quiet P (abind m k).
Proof.
  unfold quiet. intros Hm Hf Hk. unfold abind.
  destruct (m [] []) as [[o recs] evs] eqn:Hrun. cbn [events_of snd] in Hm.
  destruct o as [[a|e]|]; try exact Hm.
  rewrite (Hf a recs evs). cbn [events_of snd]. rewrite filter_app, Hm, Hk. reflexivity.
Qed.

Lemma quiet_for_records (E : env) (results : list pyval) : quiet P (for_records E results).
Proof.
  pose proof (framed_for_records E) as Hf.
  induction results as [|record rest IH]; cbn [for_records]; [apply quiet_ret|].
  apply quiet_bind; [apply quiet_lift | intros m; framed | intros m].
  apply quiet_bind; [apply quiet_lift | intros t; framed | intros t].
  apply quiet_bind; [| intros; apply Hf | intros; exact IH].
  destruct (logval_eqb t (LStr "Task")); [|apply quiet_ret].
  apply quiet_bind; [apply quiet_lift | intros; framed | intros; apply quiet_append].
Qed.

Lemma quiet_poll (E : env) (query_id : pyval) :
  forall fuel polls response, quiet P (poll E fuel query_id polls response).
Proof.
  pose proof (framed_poll E query_id) as Hf.
  induction fuel as [|fuel IH]; intros polls response; cbn [poll].
  - apply quiet_bind; [apply quiet_lift | intros b; framed | intros b].
    destruct b; [apply quiet_diverge | apply quiet_ret].
  - apply quiet_bind; [apply quiet_lift | intros b; framed | intros b].
    destruct b; [|apply quiet_ret].
    apply quiet_bind; [apply quiet_emit, P_sleep | intros; framed | intros _].
    apply quiet_bind; [apply quiet_emit, P_poll | intros; framed | intros _].
    apply quiet_bind; [apply quiet_lift | intros; apply Hf | intros; apply IH].
Qed.

(** What follows the call of [start_query] in a window. *)
Lemma quiet_after_start (E : env) (fuel : nat) (start_query_response : result pyval) :
  quiet P
    (abind (alift start_query_response) (fun start_query_response =>
     abind (alift (Py.getitem start_query_response "queryId")) (fun query_id =>
     abind (aemit (Log INFO "The query id being executed is : %s" [query_id])) (fun _ =>
     abind (poll E fuel query_id 0 PNone) (fun response =>
     abind (alift (Py.getitem response "results")) (fun results =>
     abind (alift (Py.iter results)) (fun records =>
     for_records E records))))))).
Proof.
  pose proof (framed_poll E) as Hpoll. pose proof (framed_for_records E) as Hrecords.
  apply quiet_bind; [apply quiet_lift | intros; framed | intros r].
  apply quiet_bind; [apply quiet_lift | intros; framed | intros q].
  apply quiet_bind; [apply quiet_emit, P_log | intros; framed | intros _].
  apply quiet_bind; [apply quiet_poll | intros; framed | intros p].
  apply quiet_bind; [apply quiet_lift | intros; framed | intros rs].
  apply quiet_bind; [apply quiet_lift | intros; framed | intros rs'].
  apply quiet_for_records.
Qed.

Lemma quiet_window (E : env) (fuel : nat) (epoch_start epoch_end : Z) :
  (forall s e, P (StartQuery s e) = false) ->
  quiet P (window E fuel epoch_start epoch_end).
Proof.
  intros P_start.
  pose proof (framed_poll E) as Hpoll. pose proof (framed_for_records E) as Hrecords.
  unfold window.
  apply quiet_bind; [apply quiet_emit, P_start | intros; framed | intros _].
  apply quiet_after_start.
Qed.
End Quiet.

Lemma framed_windows (E : env) (fuel : nat) :
  forall rounds epoch_start epoch_end, framed (windows E rounds fuel epoch_start epoch_end).
Proof.
  pose proof (framed_window E fuel) as Hw.
  induction rounds as [|rounds IH]; intros epoch_start epoch_end; cbn [windows]; framed.
Qed.

Lemma quiet_windows (E : env) (fuel : nat) (P : event -> bool) :
  (forall s, P (Sleep s) = false) ->
  (forall q, P (GetQueryResults q) = false) ->
  (forall l f a, P (Log l f a) = false) ->
  (forall s e, P (StartQuery s e) = false) ->
  forall rounds epoch_start epoch_end,
    quiet P (windows E rounds fuel epoch_start epoch_end).
Proof.
  intros H1 H2 H3 H4.
  induction rounds as [|rounds IH]; intros epoch_start epoch_end; cbn [windows];
    destruct (epoch_end <? current_epoch_time E);
    try apply quiet_diverge; try apply quiet_ret.
  apply quiet_bind.
  - apply quiet_window; assumption.
  - intros _. apply framed_windows.
  - intros _. apply IH.
Qed.

Lemma one_after_emit {A} (e : event) (m : acc A) :
  is_start_query e = true -> framed m -> quiet is_start_query m ->
  List.length (filter is_start_query (events_of (abind (aemit e) (fun _ => m) [] []))) = 1%nat.
Proof.
  intros He Hf Hq. unfold abind, aemit. cbn [app]. rewrite (Hf [] [e]).
  unfold quiet in Hq. cbn [events_of snd]. rewrite filter_app, Hq. cbn. rewrite He.
  reflexivity.
Qed.

(** The events of a window start with its call of [start_query], the only
    one. *)
Lemma window_one_start_query (E : env) (fuel i : nat) :
  List.length (filter is_start_query (events_of (window_run E fuel i))) = 1%nat.
Proof.
  pose proof (framed_poll E) as Hpoll. pose proof (framed_for_records E) as Hrecords.
  unfold window_run, window. apply one_after_emit; [reflexivity | framed |].
  apply quiet_after_start; reflexivity.
Qed.

Lemma start_queries_upto (E : env) (fuel n : nat) :
  List.length (filter is_start_query (events_upto E fuel n)) = n.
Proof.
  unfold events_upto. generalize 0%nat as i.
  induction n as [|n IH]; intros i; [reflexivity|].
  cbn [seq flat_map]. rewrite filter_app, length_app, window_one_start_query, IH.
  reflexivity.
Qed.

End UsageFacts.

(** ** Grouping and sorting *)

Module FrameFacts.
Import Frame.

Lemma mapM_total {A B} (f : A -> result B) (g : A -> B) (xs : list A) :
  (forall x, In x xs -> f x = Ok (g x)) -> mapM f xs = Ok (map g xs).
Proof.
  induction xs as [|x xs IH]; intros H; [reflexivity|].
  cbn [mapM map]. rewrite (H x (or_introl eq_refl)). cbn [bind].
  rewrite IH by (intros y Hy; apply H; right; exact Hy). reflexivity.
Qed.

Lemma filter_filter_absorb {A} (P Q : A -> bool) (l : list A) :
  (forall y, P y = true -> Q y = true) -> filter P (filter Q l) = filter P l.
Proof.
  intros H. induction l as [|x l IH]; [reflexivity|]. cbn [filter].
  destruct (Q x) eqn:Hq; cbn [filter]; rewrite IH; [reflexivity|].
  destruct (P x) eqn:Hp; [|reflexivity]. rewrite (H x Hp) in Hq. discriminate.
Qed.

Lemma filter_filter_none {A} (P Q : A -> bool) (l : list A) :
  (forall y, P y = true -> Q y = false) -> filter P (filter Q l) = [].
Proof.
  intros H. induction l as [|x l IH]; [reflexivity|]. cbn [filter].
  destruct (Q x) eqn:Hq; [|exact IH]. cbn [filter]. rewrite IH.
  destruct (P x) eqn:Hp; [|reflexivity]. rewrite (H x Hp) in Hq. discriminate.
Qed.

Lemma filter_map_swap {A B} (f : A -> B) (P : B -> bool) (l : list A) :
  filter P (map f l) = map f (filter (fun x => P (f x)) l).
Proof.
  induction l as [|x l IH]; [reflexivity|]. cbn [map filter].
  destruct (P (f x)); cbn [map]; rewrite IH; reflexivity.
Qed.

Lemma existsb_map_swap {A B} (f : A -> B) (P : B -> bool) (l : list A) :
  existsb P (map f l) = existsb (fun x => P (f x)) l.
Proof.
  induction l as [|x l IH]; [reflexivity|]. cbn [map existsb]. rewrite IH. reflexivity.
Qed.

Section Sorting.
Context {A : Type} (leb : A -> A -> bool).

Lemma insert_perm (x : A) (l : list A) : Permutation (insert leb x l) (x :: l).
Proof.
  induction l as [|h l IH]; [reflexivity|]. cbn [insert].
  destruct (leb x h); [reflexivity|].
  rewrite IH. apply perm_swap.
Qed.

(** Sorting moves the rows and changes none. *)
Lemma sort_perm (l : list A) : Permutation (sort leb l) l.
Proof.
  induction l as [|x l IH]; [reflexivity|]. cbn [sort fold_right].
  fold (sort leb l). rewrite insert_perm, IH. reflexivity.
Qed.

Lemma filter_perm_length (P : A -> bool) (l l' : list A) :
  Permutation l l' -> List.length (filter P l) = List.length (filter P l').
Proof.
  induction 1 as [|x l l' _ IH|x y l|l l' l'' _ IH1 _ IH2]; cbn [filter].
  - reflexivity.
  - destruct (P x); cbn [List.length]; rewrite IH; reflexivity.
  - destruct (P x), (P y); reflexivity.
  - rewrite IH1. exact IH2.
Qed.

Lemma sort_in (x : A) (l : list A) : In x (sort leb l) <-> In x l.
Proof.
  split; apply Permutation_in; [|symmetry]; apply sort_perm.
Qed.
End Sorting.

Section Grouping.
Context {K V : Type} (eqb : K -> K -> bool).
Hypothesis eqb_refl : forall k, eqb k k = true.
Hypothesis eqb_sym : forall a b, eqb a b = eqb b a.
Hypothesis eqb_trans : forall a b c, eqb a b = true -> eqb b c = true -> eqb a c = true.

(** A key is equal to exactly one of the distinct keys when it is equal
    to some key of the list, and to none otherwise. *)
Lemma count_distinct (k : K) (keys : list K) :
  List.length (filter (eqb k) (distinct eqb keys)) =
    if existsb (eqb k) keys then 1%nat else 0%nat.
Proof.
  induction keys as [|x keys IH]; [reflexivity|].
  cbn [distinct filter existsb]. destruct (eqb k x) eqn:Hkx; cbn [orb].
  - cbn [List.length]. rewrite filter_filter_none; [reflexivity|].
    intros y Hky. apply negb_false_iff.
    apply eqb_trans with k; [rewrite eqb_sym|]; assumption.
  - rewrite filter_filter_absorb; [exact IH|].
    intros y Hky. apply negb_true_iff. destruct (eqb x y) eqn:Hxy; [|reflexivity].
    rewrite <- Hkx. symmetry. apply eqb_trans with y; [|rewrite eqb_sym]; assumption.
Qed.

Lemma distinct_in (k : K) (keys : list K) : In k (distinct eqb keys) -> In k keys.
Proof.
  induction keys as [|x keys IH]; [intros []|]. cbn [distinct].
  intros [->|H]; [left; reflexivity|]. apply filter_In in H as [H _]. right. auto.
Qed.

Lemma group_by_keys (rows : list (K * V)) :
  map fst (group_by eqb rows) = distinct eqb (map fst rows).
Proof.
  unfold group_by. rewrite map_map. cbn [fst]. apply map_id.
Qed.

(** A group holds the rows of its key, in order. *)
Lemma group_by_members (rows : list (K * V)) (g : K * list V) :
  In g (group_by eqb rows) -> snd g = members eqb (fst g) rows.
Proof.
  unfold group_by. rewrite in_map_iff. intros (k & <- & _). reflexivity.
Qed.


(** The number of groups whose key is [k]. *)
Lemma count_groups (k : K) (rows : list (K * V)) :
  List.length (filter (fun g => eqb k (fst g)) (group_by eqb rows)) =
    if existsb (eqb k) (map fst rows) then 1%nat else 0%nat.
Proof.
  rewrite <- count_distinct, <- group_by_keys, filter_map_swap, length_map. reflexivity.
Qed.
End Grouping.

End FrameFacts.

Module UsageGroupFacts.
Import Usage Windows.

Lemma atom_eqb_refl (a : atom) : atom_eqb a a = true.
Proof. destruct a; cbn; [apply String.eqb_refl | apply Qeq_bool_refl]. Qed.



Lemma key_eqb_refl (k : key) : key_eqb k k = true.
Proof. unfold key_eqb. rewrite !atom_eqb_refl. reflexivity. Qed.












End UsageGroupFacts.

Module UsageRunFacts.
Import Usage Windows.

(** The function is its loop between two logs, then the closing
    statements. *)
Lemma get_resource_usage_run (E : env) (fuel : nat) (tr : list event) :
  get_resource_usage E fuel tr =
    match windows E fuel fuel (window_start E 0) (window_end E 0) [] (tr ++ intro_logs E) with
    | (Finished (Ok _), out, tr') => finish E out tr'
    | (Finished (Raise _), out, tr') => finish E out (tr' ++ [error_log])
    | (Diverge, _, tr') => (Diverge, tr')
    end.
Proof.
  unfold get_resource_usage, bind_run, emit, query_loop, intro_logs.
  rewrite UsageFacts.window_start_0, UsageFacts.window_end_0, <- app_assoc. cbn [app].
  destruct (windows E fuel fuel _ _ [] _) as [[[[[]|e]|] out] tr']; reflexivity.
Qed.



(** A loop over the records that ends well has parsed every row and has
    appended the records of the messages of type Task. *)
Lemma for_records_inv (E : env) :
  forall results out tr out' tr',
    for_records E results out tr = (Finished (Ok tt), out', tr') ->
    exists messages,
      mapM (parse_record E) results = Ok messages /\
      out' = out ++ flat_map record_of (filter is_task messages).
Proof.
  induction results as [|record rest IH]; intros out tr out' tr' H.
  - cbn in H. injection H as <- _. exists []. rewrite app_nil_r. split; reflexivity.
  - cbn [for_records] in H. unfold abind at 1 in H. unfold alift at 1 in H.
    destruct (parse_record E record) as [m|] eqn:Hp; [|discriminate].
    unfold abind at 1 in H. unfold alift at 1 in H.
    destruct (field "Type" m) as [t|] eqn:Ht; [|discriminate].
    unfold abind at 1 in H.
    destruct (logval_eqb t (LStr "Task")) eqn:Hb.
    + unfold abind at 1 in H. unfold alift at 1 in H.
      destruct (task_record m) as [r|] eqn:Hr; [|discriminate].
      unfold append in H. apply IH in H as (messages & Hm & ->).
      exists (m :: messages). cbn [mapM]. rewrite Hp. cbn [bind]. rewrite Hm.
      split; [reflexivity|].
      assert (Htask : is_task m = true) by (unfold is_task; rewrite Ht; exact Hb).
      assert (Hrec : record_of m = [r]) by (unfold record_of; rewrite Hr; reflexivity).
      cbn [filter]. rewrite Htask. cbn [flat_map]. rewrite Hrec, <- app_assoc. reflexivity.
    + unfold aret in H. apply IH in H as (messages & Hm & ->).
      exists (m :: messages). cbn [mapM]. rewrite Hp. cbn [bind]. rewrite Hm.
      split; [reflexivity|].
      assert (Htask : is_task m = false) by (unfold is_task; rewrite Ht; exact Hb).
      cbn [filter]. rewrite Htask. reflexivity.
Qed.

(** The polling loop appends no record. *)
Lemma poll_records (E : env) (query_id : pyval) :
  forall fuel polls response,
    records_of (poll E fuel query_id polls response [] []) = [].
Proof.
  induction fuel as [|fuel IH]; intros polls response; cbn [poll];
    unfold abind at 1; unfold alift at 1;
    destruct (still_running response) as [[|]|]; try reflexivity.
  unfold abind at 1. unfold aemit at 1. unfold abind at 1. unfold aemit at 1.
  unfold abind at 1. unfold alift at 1.
  destruct (get_query_results E query_id polls) as [r|]; [|reflexivity].
  rewrite (UsageFacts.framed_poll E query_id fuel (S polls) r). cbn [records_of fst snd app].
  apply IH.
Qed.

(** A window that completes has received messages, and has appended the
    records of those of type Task. *)
Lemma window_inv (E : env) (fuel i : nat) :
  outcome_of (window_run E fuel i) = Finished (Ok tt) ->
  exists messages,
    delivered E fuel i messages /\
    records_of (window_run E fuel i) = flat_map record_of (filter is_task messages).
Proof.
  destruct (window_run E fuel i) as [[o recs] evs] eqn:H.
  cbn [outcome_of records_of fst snd]. intros ->.
  unfold window_run, window in H.
  unfold abind at 1 in H. unfold aemit at 1 in H.
  unfold abind at 1 in H. unfold alift at 1 in H.
  destruct (start_query E (cloudwatch_log_group_name E) (window_start E i) (window_end E i))
    as [resp|] eqn:Hstart; [|discriminate].
  unfold abind at 1 in H. unfold alift at 1 in H.
  destruct (Py.getitem resp "queryId") as [query_id|] eqn:Hid; [|discriminate].
  unfold abind at 1 in H. unfold aemit at 1 in H.
  unfold abind at 1 in H.
  rewrite (UsageFacts.framed_poll E query_id fuel 0%nat PNone) in H.
  pose proof (poll_records E query_id fuel 0%nat PNone) as Hnone.
  destruct (poll E fuel query_id 0 PNone [] []) as [[o recs'] evs'] eqn:Hpoll.
  cbn [outcome_of records_of events_of fst snd] in H, Hnone. subst recs'.
  destruct o as [[response|]|]; try discriminate.
  unfold abind at 1 in H. unfold alift at 1 in H.
  destruct (Py.getitem response "results") as [rs|] eqn:Hrs; [|discriminate].
  unfold abind at 1 in H. unfold alift at 1 in H.
  destruct (Py.iter rs) as [results|] eqn:Hiter; [|discriminate].
  apply for_records_inv in H as (messages & Hm & ->).
  exists messages. split; [|reflexivity].
  exists resp, query_id, response, results. repeat split; try assumption.
  - rewrite Hpoll. reflexivity.
  - rewrite Hrs. cbn [bind]. exact Hiter.
Qed.

(** *** Only records of Task messages are appended *)








End UsageRunFacts.

(** ** Records and the messages they come from *)

Module ReadingFacts.
Import Usage Windows Reading.









End ReadingFacts.

Module UsageClaims.
Import Usage Windows Reading.







End UsageClaims.

(** ** The summaries *)

Module SummaryFacts.
Import Summaries Tables Mapped Runs.

Lemma succeeded_has_status (job_details_df : list job_row) :
  succeeded job_details_df = filter (has_status "SUCCEEDED") job_details_df.
Proof. reflexivity. Qed.

(** *** Times *)

Lemma timedelta_within (a b : option Z) :
  within a = true -> within b = true ->
  timedelta a b = Ok (match a, b with Some x, Some y => Some (y - x) | _, _ => None end).
Proof.
  destruct a as [x|], b as [y|]; cbn [within timedelta]; try reflexivity.
  intros Hx Hy. apply Z.leb_le in Hx, Hy.
  rewrite (proj2 (Z.leb_le _ _)); [reflexivity|]. unfold int64_max. lia.
Qed.

Lemma hours_span (a b : option Z) :
  hours_of (match a, b with Some x, Some y => Some (y - x) | _, _ => None end) = span a b.
Proof. destruct a, b; reflexivity. Qed.

Lemma with_durations_timely (success : list job_row) :
  forallb timely success = true ->
  with_durations success = Ok (map with_span success).
Proof.
  intros H. rewrite forallb_forall in H. apply FrameFacts.mapM_total.
  intros r Hr. specialize (H r Hr). unfold timely in H. apply andb_true_iff in H as [Ha Hb].
  rewrite (timedelta_within _ _ Ha Hb). cbn [bind]. rewrite hours_span. reflexivity.
Qed.

Lemma somes_in {A} (xs : list (option A)) (x : A) : In x (somes xs) <-> In (Some x) xs.
Proof.
  induction xs as [|[y|] xs IH]; cbn [somes In].
  - tauto.
  - rewrite IH. split; intros [H|H]; auto; left; congruence.
  - rewrite IH. split; [auto|]. intros [H|H]; [discriminate | exact H].
Qed.

Lemma fold_min_spec (rest : list Z) :
  forall x, (In (fold_left Z.min rest x) (x :: rest)) /\
            (forall y, In y (x :: rest) -> fold_left Z.min rest x <= y).
Proof.
  induction rest as [|z rest IH]; intros x; cbn [fold_left].
  - split; [left; reflexivity|]. intros y [<-|[]]. lia.
  - destruct (IH (Z.min x z)) as [Hin Hle]. split.
    + destruct Hin as [Heq|Hin]; [|right; right; exact Hin].
      rewrite <- Heq. destruct (Z.min_spec x z) as [[_ ->]|[_ ->]];
        [left | right; left]; reflexivity.
    + intros y [<-|[<-|Hy]].
      * specialize (Hle (Z.min x z) (or_introl eq_refl)). lia.
      * specialize (Hle (Z.min x z) (or_introl eq_refl)). lia.
      * apply Hle. right. exact Hy.
Qed.

Lemma fold_max_spec (rest : list Z) :
  forall x, (In (fold_left Z.max rest x) (x :: rest)) /\
            (forall y, In y (x :: rest) -> y <= fold_left Z.max rest x).
Proof.
  induction rest as [|z rest IH]; intros x; cbn [fold_left].
  - split; [left; reflexivity|]. intros y [<-|[]]. lia.
  - destruct (IH (Z.max x z)) as [Hin Hle]. split.
    + destruct Hin as [Heq|Hin]; [|right; right; exact Hin].
      rewrite <- Heq. destruct (Z.max_spec x z) as [[_ ->]|[_ ->]];
        [right; left | left]; reflexivity.
    + intros y [<-|[<-|Hy]].
      * specialize (Hle (Z.max x z) (or_introl eq_refl)). lia.
      * specialize (Hle (Z.max x z) (or_introl eq_refl)). lia.
      * apply Hle. right. exact Hy.
Qed.

Lemma min_time_earliest (times : list (option Z)) : earliest times (min_time times).
Proof.
  unfold min_time, earliest. destruct (somes times) as [|x rest] eqn:Hs.
  - intros t Ht. apply somes_in in Ht. rewrite Hs in Ht. destruct Ht.
  - destruct (fold_min_spec rest x) as [Hin Hle]. split.
    + apply somes_in. rewrite Hs. exact Hin.
    + intros t Ht. apply Hle. rewrite <- Hs. apply somes_in. exact Ht.
Qed.

Lemma max_time_latest (times : list (option Z)) : latest times (max_time times).
Proof.
  unfold max_time, latest. destruct (somes times) as [|x rest] eqn:Hs.
  - intros t Ht. apply somes_in in Ht. rewrite Hs in Ht. destruct Ht.
  - destruct (fold_max_spec rest x) as [Hin Hle]. split.
    + apply somes_in. rewrite Hs. exact Hin.
    + intros t Ht. apply Hle. rewrite <- Hs. apply somes_in. exact Ht.
Qed.

(** A time that is the earliest or the latest of times within the range
    is within the range. *)
Lemma earliest_within (times : list (option Z)) (t : option Z) :
  (forall x, In x times -> within x = true) -> earliest times t -> within t = true.
Proof.
  intros H He. destruct t as [t0|]; [|reflexivity]. apply H, He.
Qed.

Lemma latest_within (times : list (option Z)) (t : option Z) :
  (forall x, In x times -> within x = true) -> latest times t -> within t = true.
Proof.
  intros H He. destruct t as [t0|]; [|reflexivity]. apply H, He.
Qed.

(** *** The merged frame *)

Lemma filter_nil_forallb {A} (P : A -> bool) (l : list A) :
  (filter P l = []) <-> forallb (fun x => negb (P x)) l = true.
Proof.
  induction l as [|x l IH]; cbn [filter forallb]; [tauto|].
  destruct (P x); cbn [negb andb]; [split; discriminate | exact IH].
Qed.

Lemma merge_modules_keyed (mapping : list module_row) (r : job_row) :
  keyed (merge_modules mapping (with_span r)) =
    map (fun m => (key_of_pair false (r, m), temp_of false (r, m))) (filter (named r) mapping).
Proof.
  unfold merge_modules, with_span. cbn [fst snd]. fold (named r).
  destruct (filter (named r) mapping) as [|m matches]; [reflexivity|].
  generalize (m :: matches) as l. induction l as [|x l IH]; [reflexivity|].
  cbn [map keyed t_module]. rewrite IH. reflexivity.
Qed.

Lemma merge_modules_no_module (mapping : list module_row) (rd : job_row * hours_cell) :
  existsb no_module (merge_modules mapping rd) = unmapped mapping (fst rd).
Proof.
  unfold merge_modules, unmapped. fold (named (fst rd)).
  destruct (filter (named (fst rd)) mapping) as [|m matches] eqn:Hf.
  - symmetry. apply filter_nil_forallb. exact Hf.
  - transitivity false.
    + generalize (m :: matches) as l. induction l as [|x l IH]; [reflexivity|].
      cbn [map existsb]. exact IH.
    + symmetry. apply not_true_is_false. intros H. apply filter_nil_forallb in H.
      rewrite H in Hf. discriminate.
Qed.

Lemma keyed_app (a b : list temp_row) : keyed (a ++ b) = keyed a ++ keyed b.
Proof.
  induction a as [|r a IH]; [reflexivity|].
  cbn [app keyed]. destruct (t_module r); rewrite IH; reflexivity.
Qed.

Lemma keyed_floated (l : list temp_row) :
  keyed (map floated l) = map (fun kt => (float_key (fst kt), floated (snd kt))) (keyed l).
Proof.
  induction l as [|t l IH]; [reflexivity|].
  cbn [map keyed]. unfold floated at 1. cbn [t_module].
  destruct (t_module t) as [k|] eqn:Hk; cbn [option_map map fst snd]; rewrite IH; reflexivity.
Qed.

Lemma merged_keyed (mapping : list module_row) (success : list job_row) :
  keyed (flat_map (merge_modules mapping) (map with_span success)) =
    map (fun p => (key_of_pair false p, temp_of false p))
      (flat_map (fun r => map (pair r) (filter (named r) mapping)) success).
Proof.
  induction success as [|r success IH]; [reflexivity|].
  cbn [map flat_map]. rewrite keyed_app, map_app, IH, merge_modules_keyed, map_map.
  reflexivity.
Qed.

Lemma merged_no_module (mapping : list module_row) (rows : list (job_row * hours_cell)) :
  existsb no_module (flat_map (merge_modules mapping) rows) =
    existsb (unmapped mapping) (map fst rows).
Proof.
  induction rows as [|rd rows IH]; [reflexivity|].
  cbn [map flat_map existsb]. rewrite existsb_app, IH, merge_modules_no_module. reflexivity.
Qed.

(** The rows of the merged frame that have a module are those of the
    pairs, in their order. *)
Lemma frame_keyed (mapping : list module_row) (job_details_df : list job_row) :
  keyed (merge_frame mapping (map with_span (succeeded job_details_df))) =
    map (fun p => (key_of_pair (floating mapping job_details_df) p,
                   temp_of (floating mapping job_details_df) p))
      (pairs mapping job_details_df).
Proof.
  unfold merge_frame, floating, pairs.
  rewrite succeeded_has_status, merged_no_module, map_map. cbn [with_span fst].
  rewrite map_id.
  destruct (existsb (unmapped mapping) (filter (has_status "SUCCEEDED") job_details_df)).
  - rewrite keyed_floated, merged_keyed, map_map. reflexivity.
  - apply merged_keyed.
Qed.

(** *** Keys *)

Lemma module_key_eqb_refl (k : module_key) : module_key_eqb k k = true.
Proof.
  destruct k as [[n k] m]. unfold module_key_eqb, number_eqb.
  rewrite !String.eqb_refl, Z.eqb_refl. reflexivity.
Qed.

Lemma module_key_eqb_sym (a b : module_key) : module_key_eqb a b = module_key_eqb b a.
Proof.
  destruct a as [[n1 k1] m1], b as [[n2 k2] m2]. unfold module_key_eqb, number_eqb.
  rewrite (String.eqb_sym n1), (String.eqb_sym m1), (Z.eqb_sym (number_value k1)).
  reflexivity.
Qed.

Lemma module_key_eqb_trans (a b c : module_key) :
  module_key_eqb a b = true -> module_key_eqb b c = true -> module_key_eqb a c = true.
Proof.
  destruct a as [[n1 k1] m1], b as [[n2 k2] m2], c as [[n3 k3] m3].
  unfold module_key_eqb, number_eqb. rewrite !andb_true_iff.
  intros [[H1 H2] H3] [[H4 H5] H6].
  apply String.eqb_eq in H1, H3, H4, H6. apply Z.eqb_eq in H2, H5. subst.
  rewrite !String.eqb_refl, H2, H5, Z.eqb_refl. repeat split.
Qed.

Lemma module_key_name (a b : module_key) :
  module_key_eqb a b = true -> fst (fst a) = fst (fst b).
Proof.
  destruct a as [[n1 k1] m1], b as [[n2 k2] m2]. unfold module_key_eqb.
  rewrite !andb_true_iff. intros [[H _] _]. apply String.eqb_eq in H. exact H.
Qed.

(** *** Groups, counts and rows *)

Section Frame.
Variable mapping : list module_row.
Variable job_details_df : list job_row.

Let float := floating mapping job_details_df.
Let frame := merge_frame mapping (map with_span (succeeded job_details_df)).
Let groups := Frame.group_by module_key_eqb (keyed frame).

Lemma pair_succeeded (p : job_row * module_row) :
  In p (pairs mapping job_details_df) ->
  In (fst p) job_details_df /\ has_status "SUCCEEDED" (fst p) = true /\
  In (snd p) mapping /\ named (fst p) (snd p) = true.
Proof.
  unfold pairs. intros H. apply in_flat_map in H as (r & Hr & Hp).
  apply filter_In in Hr as [Hin Hs]. apply in_map_iff in Hp as (m & <- & Hm).
  apply filter_In in Hm as [Hm Hn]. cbn [fst snd]. repeat split; assumption.
Qed.

Lemma job_of_pair (k : module_key) (p : job_row * module_row) :
  In p (jobs_of mapping job_details_df k) -> In p (pairs mapping job_details_df).
Proof. unfold jobs_of. intros H. apply filter_In in H. apply H. Qed.

(** A group holds the rows of the jobs of its key, and there is one. *)
Lemma group_jobs (g : module_key * list temp_row) :
  In g groups ->
  snd g = map (temp_of float) (jobs_of mapping job_details_df (fst g)) /\
  jobs_of mapping job_details_df (fst g) <> [].
Proof.
  intros Hg. unfold groups, frame in Hg. rewrite frame_keyed in Hg. split.
  - rewrite (FrameFacts.group_by_members module_key_eqb _ g Hg).
    unfold Frame.members, jobs_of. rewrite FrameFacts.filter_map_swap, map_map.
    reflexivity.
  - apply (in_map fst) in Hg. rewrite FrameFacts.group_by_keys in Hg.
    apply FrameFacts.distinct_in in Hg. rewrite map_map in Hg. cbn [fst] in Hg.
    apply in_map_iff in Hg as (p & Hk & Hp).
    intros Hnil. assert (Hin : In p (jobs_of mapping job_details_df (fst g))).
    { unfold jobs_of. apply filter_In. split; [exact Hp|].
      rewrite Hk. apply module_key_eqb_refl. }
    rewrite Hnil in Hin. destruct Hin.
Qed.

(** Every pair is in the group of its key. *)
Lemma pair_group (p : job_row * module_row) :
  In p (pairs mapping job_details_df) ->
  exists g, In g groups /\ module_key_eqb (key_of_pair float p) (fst g) = true.
Proof.
  intros Hp.
  pose proof (FrameFacts.count_groups module_key_eqb module_key_eqb_sym module_key_eqb_trans
                (key_of_pair float p) (keyed frame)) as Hcount.
  fold groups in Hcount.
  replace (existsb (module_key_eqb (key_of_pair float p)) (map fst (keyed frame))) with true
    in Hcount.
  - destruct (filter (fun g => module_key_eqb (key_of_pair float p) (fst g)) groups)
      as [|g rest] eqn:Hf; [discriminate|].
    assert (Hin : In g (filter (fun g => module_key_eqb (key_of_pair float p) (fst g)) groups))
      by (rewrite Hf; left; reflexivity).
    apply filter_In in Hin. exists g. exact Hin.
  - symmetry. apply existsb_exists. exists (key_of_pair float p). split.
    + unfold frame. rewrite frame_keyed, map_map. cbn [fst].
      apply in_map_iff. exists p. split; [reflexivity | exact Hp].
    + apply module_key_eqb_refl.
Qed.

Lemma in_aggregates (a : agg_row) :
  In a (submodule_groups frame) <-> exists g, In g groups /\ a = aggregate g.
Proof.
  unfold submodule_groups. rewrite in_map_iff. fold groups. split.
  - intros (g & <- & Hg). apply FrameFacts.sort_in in Hg. exists g. split; [assumption|reflexivity].
  - intros (g & Hg & ->). exists g. split; [reflexivity|]. apply FrameFacts.sort_in. exact Hg.
Qed.

Lemma in_counts (c : module_key * Z) :
  In c (value_counts frame) <->
  exists g, In g groups /\ c = (fst g, Z.of_nat (List.length (snd g))).
Proof.
  unfold value_counts. rewrite FrameFacts.sort_in, in_map_iff. fold groups. split.
  - intros (g & <- & Hg). apply FrameFacts.sort_in in Hg. exists g. split; [assumption|reflexivity].
  - intros (g & Hg & ->). exists g. split; [reflexivity|]. apply FrameFacts.sort_in. exact Hg.
Qed.

Lemma in_merged (ac : agg_row * Z) :
  In ac (flat_map (merge_counts (value_counts frame)) (submodule_groups frame)) <->
  exists g g',
    In g groups /\ In g' groups /\ fst (fst (fst g')) = fst (fst (fst g)) /\
    ac = (aggregate g, Z.of_nat (List.length (snd g'))).
Proof.
  rewrite in_flat_map. split.
  - intros (a & Ha & Hac). apply in_aggregates in Ha as (g & Hg & ->).
    unfold merge_counts in Hac. apply in_map_iff in Hac as (c & <- & Hc).
    apply filter_In in Hc as [Hc Hname]. apply in_counts in Hc as (g' & Hg' & ->).
    cbn [fst snd aggregate a_key] in Hname |- *. apply String.eqb_eq in Hname.
    exists g, g'. repeat split; assumption.
  - intros (g & g' & Hg & Hg' & Hname & ->). exists (aggregate g). split.
    + apply in_aggregates. exists g. split; [assumption|reflexivity].
    + unfold merge_counts. apply in_map_iff.
      exists (fst g', Z.of_nat (List.length (snd g'))). split; [reflexivity|].
      apply filter_In. split.
      * apply in_counts. exists g'. split; [assumption|reflexivity].
      * cbn [fst snd aggregate a_key]. apply String.eqb_eq. exact Hname.
Qed.

End Frame.

Lemma jobs_of_eqb (mapping : list module_row) (job_details_df : list job_row)
    (a b : module_key) :
  module_key_eqb a b = true ->
  jobs_of mapping job_details_df a = jobs_of mapping job_details_df b.
Proof.
  intros H. unfold jobs_of. apply filter_ext. intros p.
  destruct (module_key_eqb b (key_of_pair _ p)) eqn:Hb.
  - apply (module_key_eqb_trans a b _ H Hb).
  - apply not_true_is_false. intros Ha. rewrite module_key_eqb_sym in H.
    rewrite (module_key_eqb_trans b a _ H Ha) in Hb. discriminate.
Qed.

(** *** The rows of the high-level summary *)

Lemma highlevel_key_eqb_refl (a : number * string) : highlevel_key_eqb a a = true.
Proof.
  unfold highlevel_key_eqb, number_eqb. rewrite Z.eqb_refl, String.eqb_refl. reflexivity.
Qed.

Lemma highlevel_key_eqb_sym (a b : number * string) :
  highlevel_key_eqb a b = highlevel_key_eqb b a.
Proof.
  unfold highlevel_key_eqb, number_eqb.
  rewrite (Z.eqb_sym (number_value (fst a))), (String.eqb_sym (snd a)). reflexivity.
Qed.

Lemma highlevel_key_eqb_trans (a b c : number * string) :
  highlevel_key_eqb a b = true -> highlevel_key_eqb b c = true ->
  highlevel_key_eqb a c = true.
Proof.
  unfold highlevel_key_eqb, number_eqb. intros H1 H2.
  apply andb_true_iff in H1 as [H1 H1']. apply andb_true_iff in H2 as [H2 H2'].
  apply Z.eqb_eq in H1, H2. apply String.eqb_eq in H1', H2'.
  rewrite H1, H2, H1', H2', Z.eqb_refl, String.eqb_refl. reflexivity.
Qed.

Lemma highlevel_row_key (g : (number * string) * list submodule_row) :
  highlevel_key (highlevel_row_of g) = fst g.
Proof. destruct g as [[n m] rows]. reflexivity. Qed.

Lemma in_highlevel (sub : list submodule_row) (h : highlevel_row) :
  In h (highlevel_summary sub) ->
  let part := filter (fun s => highlevel_key_eqb (highlevel_key h) (submodule_key s)) sub in
  part <> [] /\
  h_job_counts h = Runs.total (map job_counts part) /\
  h_started_at h = min_time (map sub_started_at part) /\
  h_stopped_at h = max_time (map sub_stopped_at part).
Proof.
  unfold highlevel_summary. intros H. apply in_map_iff in H as (g & <- & Hg).
  apply FrameFacts.sort_in in Hg. rewrite highlevel_row_key.
  pose proof (FrameFacts.group_by_members highlevel_key_eqb _ g Hg) as Hm.
  unfold Frame.members in Hm. rewrite FrameFacts.filter_map_swap, map_map in Hm.
  cbn [fst snd] in Hm. rewrite map_id in Hm.
  change (fun x : submodule_row =>
            highlevel_key_eqb (fst g) (module_number_x x, main_module_name_x x))
    with (fun s => highlevel_key_eqb (fst g) (submodule_key s)) in Hm.
  cbn zeta. rewrite <- Hm. split; [|repeat split].
  apply (in_map fst) in Hg. rewrite FrameFacts.group_by_keys in Hg.
  apply FrameFacts.distinct_in in Hg. rewrite map_map in Hg. cbn [fst] in Hg.
  apply in_map_iff in Hg as (s & Hk & Hs).
  intros Hnil.
  assert (Hin : In s (filter (fun s => highlevel_key_eqb (fst g) (submodule_key s)) sub)).
  { apply filter_In. split; [exact Hs|]. unfold submodule_key. rewrite Hk.
    apply highlevel_key_eqb_refl. }
  rewrite <- Hm, Hnil in Hin. destruct Hin.
Qed.

Lemma highlevel_covers (sub : list submodule_row) (s : submodule_row) :
  In s sub ->
  exists h, In h (highlevel_summary sub) /\
            highlevel_key_eqb (highlevel_key h) (submodule_key s) = true.
Proof.
  intros Hs. unfold highlevel_summary.
  set (keyed := map (fun r => ((module_number_x r, main_module_name_x r), r)) sub).
  pose proof (FrameFacts.count_groups highlevel_key_eqb highlevel_key_eqb_sym
                highlevel_key_eqb_trans (submodule_key s) keyed) as Hcount.
  replace (existsb (highlevel_key_eqb (submodule_key s)) (map fst keyed)) with true in Hcount.
  - destruct (filter (fun g => highlevel_key_eqb (submodule_key s) (fst g))
                (Frame.group_by highlevel_key_eqb keyed)) as [|g rest] eqn:Hf; [discriminate|].
    assert (Hin : In g (filter (fun g => highlevel_key_eqb (submodule_key s) (fst g))
                          (Frame.group_by highlevel_key_eqb keyed)))
      by (rewrite Hf; left; reflexivity).
    apply filter_In in Hin as [Hg Hk]. exists (highlevel_row_of g). split.
    + apply in_map. apply FrameFacts.sort_in. exact Hg.
    + rewrite highlevel_row_key, highlevel_key_eqb_sym. exact Hk.
  - symmetry. apply existsb_exists. exists (submodule_key s). split.
    + unfold keyed. rewrite map_map. cbn [fst]. apply in_map_iff. exists s.
      split; [reflexivity | exact Hs].
    + apply highlevel_key_eqb_refl.
Qed.

(** *** Runs in which no subtraction overflows *)

Section Timely.
Variable mapping : list module_row.
Variable job_details_df : list job_row.
Hypothesis Htimely :
  forallb timely (filter (has_status "SUCCEEDED") job_details_df) = true.

Let float := floating mapping job_details_df.
Let frame := merge_frame mapping (map with_span (succeeded job_details_df)).
Let groups := Frame.group_by module_key_eqb (keyed frame).
Let merged := flat_map (merge_counts (value_counts frame)) (submodule_groups frame).

Lemma pair_within (p : job_row * module_row) :
  In p (pairs mapping job_details_df) ->
  within (started_at (fst p)) = true /\ within (stopped_at (fst p)) = true.
Proof.
  intros Hp. apply pair_succeeded in Hp as (Hin & Hs & _).
  rewrite forallb_forall in Htimely.
  assert (H : timely (fst p) = true)
    by (apply Htimely, filter_In; split; assumption).
  unfold timely in H. apply andb_true_iff in H. exact H.
Qed.

Lemma group_within (g : module_key * list temp_row) :
  In g groups ->
  within (a_started_at (aggregate g)) = true /\ within (a_stopped_at (aggregate g)) = true.
Proof.
  intros Hg. destruct (group_jobs mapping job_details_df g Hg) as [Hrows _].
  unfold aggregate. cbn [a_started_at a_stopped_at]. rewrite Hrows, !map_map.
  cbn [temp_of t_started_at t_stopped_at]. split.
  - eapply earliest_within; [|apply min_time_earliest].
    intros x Hx. apply in_map_iff in Hx as (p & <- & Hp).
    apply pair_within, (job_of_pair _ _ _ _ Hp).
  - eapply latest_within; [|apply max_time_latest].
    intros x Hx. apply in_map_iff in Hx as (p & <- & Hp).
    apply pair_within, (job_of_pair _ _ _ _ Hp).
Qed.

Lemma timed_row (ac : agg_row * Z) : In ac merged -> timed ac = Ok (row_of ac).
Proof.
  intros H. apply in_merged in H as (g & g' & Hg & _ & _ & ->).
  destruct (group_within g Hg) as [Ha Hb]. unfold timed. cbn [fst snd].
  rewrite (timedelta_within _ _ Ha Hb). cbn [bind]. rewrite hours_span. reflexivity.
Qed.

Lemma submodule_summary_rows :
  submodule_summary frame = Ok (Frame.sort submodule_leb (map row_of merged)).
Proof.
  unfold submodule_summary. fold merged.
  rewrite (FrameFacts.mapM_total timed row_of merged timed_row). reflexivity.
Qed.

Lemma submodule_row_within (s : submodule_row) :
  In s (Frame.sort submodule_leb (map row_of merged)) ->
  within (sub_started_at s) = true /\ within (sub_stopped_at s) = true.
Proof.
  intros H. apply FrameFacts.sort_in in H. apply in_map_iff in H as (ac & <- & Hac).
  apply in_merged in Hac as (g & g' & Hg & _ & _ & ->).
  cbn [row_of sub_started_at sub_stopped_at fst]. apply group_within. exact Hg.
Qed.

Lemma highlevel_spans_fit :
  exists spans,
    highlevel_spans (highlevel_summary (Frame.sort submodule_leb (map row_of merged))) =
      Ok spans.
Proof.
  eexists. unfold highlevel_spans.
  apply (FrameFacts.mapM_total _
           (fun h => match h_started_at h, h_stopped_at h with
                     | Some x, Some y => Some (y - x)
                     | _, _ => None
                     end)).
  intros h Hh. apply in_highlevel in Hh as (_ & _ & Hstart & Hstop).
  apply timedelta_within.
  - rewrite Hstart. eapply earliest_within; [|apply min_time_earliest].
    intros x Hx. apply in_map_iff in Hx as (s & <- & Hs). apply filter_In in Hs as [Hs _].
    apply submodule_row_within. exact Hs.
  - rewrite Hstop. eapply latest_within; [|apply max_time_latest].
    intros x Hx. apply in_map_iff in Hx as (s & <- & Hs). apply filter_In in Hs as [Hs _].
    apply submodule_row_within. exact Hs.
Qed.

(** The run when no subtraction overflows. *)
Lemma get_summaries_written (E : env) (tr : list event) :
  mapping = job_modules_df E ->
  get_summaries E job_details_df tr =
    (Finished (Ok tt),
     tr ++ written E (Frame.sort submodule_leb (map row_of merged))
             (highlevel_summary (Frame.sort submodule_leb (map row_of merged)))).
Proof.
  intros Hmap. destruct highlevel_spans_fit as [spans Hspans].
  unfold get_summaries, summarise. unfold bind_run at 1. unfold emit at 1.
  unfold bind_run at 1. unfold lift at 1.
  rewrite succeeded_has_status, (with_durations_timely _ Htimely), <- Hmap.
  rewrite <- succeeded_has_status. fold frame.
  unfold bind_run at 1. unfold lift at 1. rewrite submodule_summary_rows.
  unfold bind_run at 1. unfold emit at 1. unfold bind_run at 1. unfold emit at 1.
  unfold bind_run at 1. unfold lift at 1. rewrite Hspans.
  unfold bind_run, emit, ret, written. rewrite <- !app_assoc. reflexivity.
Qed.

End Timely.

(** *** Rows without a module *)



(** A difference of two times is refused in one way only. *)
Lemma timedelta_raises (a b : option Z) (e : exn) :
  timedelta a b = Raise e -> e = OverflowError.
Proof.
  unfold timedelta. destruct a as [a|], b as [b|]; try discriminate.
  destruct (Z.abs ((b - a) * 1000000) <=? int64_max); [discriminate|].
  intros H. injection H as <-. reflexivity.
Qed.

Lemma with_durations_overflow (success : list job_row) (r : job_row) :
  In r success ->
  timedelta (started_at r) (stopped_at r) = Raise OverflowError ->
  with_durations success = Raise OverflowError.
Proof.
  unfold with_durations. intros Hin Hr. induction success as [|x success IH];
    [destruct Hin|].
  cbn [mapM]. destruct (timedelta (started_at x) (stopped_at x)) as [d|e] eqn:Hx.
  - cbn [bind]. destruct Hin as [->|Hin]; [rewrite Hr in Hx; discriminate|].
    rewrite (IH Hin). reflexivity.
  - cbn [bind]. rewrite (timedelta_raises _ _ _ Hx). reflexivity.
Qed.



End SummaryFacts.

Module SummaryClaims.
Import Summaries Tables Mapped Runs.

Lemma succeeded_filter (job_details_df : list job_row) :
  succeeded job_details_df = filter (has_status "SUCCEEDED") job_details_df.
Proof. reflexivity. Qed.

Lemma other_status_not_succeeded (r : job_row) :
  has_status "FAILED" r = true \/ has_status "RUNNING" r = true ->
  has_status "SUCCEEDED" r = false.
Proof.
  unfold has_status, Py.eq_str. destruct (job_status r) as [| | |s| |];
    try (intros [H|H]; discriminate H).
  intros [H|H]; apply String.eqb_eq in H; subst s; reflexivity.
Qed.

(** C8. [get_summaries] computes both summaries from the rows of the job
    table whose status is SUCCEEDED and from nothing else of the table:
    with the same module mapping and output directory, two job tables
    with the same succeeded rows give the same run, and a job whose status
    is FAILED or RUNNING can be taken out of the table without any change.
    When no difference of two times overflows, the run writes two tables.
    Each row of the submodule summary is the row of a key that has
    succeeded jobs with a row of the mapping for their name: its times are
    the earliest start and the latest stop of these jobs, its average is
    taken over their durations, and its count is the number of the
    succeeded jobs of a key with the same module name (of its own key, for
    the row that the key gets with its own count); every such job is
    counted in a row of its key. Each row of the high-level summary
    gathers the rows of the submodule summary with its module number and
    main module name: the sum of their counts, their earliest start and
    their latest stop; every row of the submodule summary is gathered. *)
Theorem summaries_use_succeeded_jobs_only (E E' : env)
    (job_details_df job_details_df' : list job_row) (tr : list event) :
  job_modules_df E' = job_modules_df E ->
  output_path E' = output_path E ->
  filter (has_status "SUCCEEDED") job_details_df' =
    filter (has_status "SUCCEEDED") job_details_df ->
  forallb timely (filter (has_status "SUCCEEDED") job_details_df) = true ->
  let jobs := jobs_of (job_modules_df E) job_details_df in
  let float := floating (job_modules_df E) job_details_df in
  (get_summaries E' job_details_df' tr = get_summaries E job_details_df tr /\
   (forall before r after,
       job_details_df = before ++ r :: after ->
       has_status "FAILED" r = true \/ has_status "RUNNING" r = true ->
       get_summaries E (before ++ after) tr = get_summaries E job_details_df tr)) /\
  exists sub high,
    get_summaries E job_details_df tr = (Finished (Ok tt), tr ++ written E sub high) /\
    (forall s,
        In s sub ->
        jobs (row_key s) <> [] /\
        earliest (map (fun p => started_at (fst p)) (jobs (row_key s))) (sub_started_at s) /\
        latest (map (fun p => stopped_at (fst p)) (jobs (row_key s))) (sub_stopped_at s) /\
        avg_duration_across_all_jobs s =
          Average (map (fun p => span (started_at (fst p)) (stopped_at (fst p)))
                     (jobs (row_key s))) /\
        duration s = span (sub_started_at s) (sub_stopped_at s) /\
        exists k,
          fst (fst k) = module_name s /\ jobs k <> [] /\
          job_counts s = Z.of_nat (List.length (jobs k))) /\
    (forall p,
        In p (pairs (job_modules_df E) job_details_df) ->
        exists s,
          In s sub /\
          module_key_eqb (row_key s) (key_of_pair float p) = true /\
          job_counts s = Z.of_nat (List.length (jobs (key_of_pair float p)))) /\
    (forall h,
        In h high ->
        let part :=
          filter (fun s => highlevel_key_eqb (highlevel_key h) (submodule_key s)) sub in
        part <> [] /\
        h_job_counts h = total (map job_counts part) /\
        earliest (map sub_started_at part) (h_started_at h) /\
        latest (map sub_stopped_at part) (h_stopped_at h) /\
        h_duration h = clock (h_started_at h) (h_stopped_at h)) /\
    (forall s,
        In s sub ->
        exists h,
          In h high /\ highlevel_key_eqb (highlevel_key h) (submodule_key s) = true).
Proof.
  intros Hmap Hpath Hsame Htimely jobs float. split.
  - split.
    + unfold get_summaries, summarise.
      rewrite !SummaryFacts.succeeded_has_status, Hsame, Hmap, Hpath. reflexivity.
    + intros before r after -> Hother. unfold get_summaries.
      assert (Hsub : succeeded (before ++ r :: after) = succeeded (before ++ after)).
      { unfold succeeded. fold (has_status "SUCCEEDED"). rewrite !filter_app. cbn [filter].
        rewrite (other_status_not_succeeded r Hother). reflexivity. }
      rewrite Hsub. reflexivity.
  - set (mapping := job_modules_df E) in *.
    set (frame := merge_frame mapping (map with_span (succeeded job_details_df))).
    set (merged := flat_map (merge_counts (value_counts frame)) (submodule_groups frame)).
    exists (Frame.sort submodule_leb (map row_of merged)),
           (highlevel_summary (Frame.sort submodule_leb (map row_of merged))).
    split; [apply (SummaryFacts.get_summaries_written mapping job_details_df Htimely E tr);
            reflexivity|].
    split; [|split; [|split]].
    + intros s Hs. apply FrameFacts.sort_in in Hs. apply in_map_iff in Hs as (ac & <- & Hac).
      apply SummaryFacts.in_merged in Hac as (g & g' & Hg & Hg' & Hname & ->).
      destruct (SummaryFacts.group_jobs mapping job_details_df g Hg) as [Hrows Hne].
      destruct (SummaryFacts.group_jobs mapping job_details_df g' Hg') as [Hrows' Hne'].
      assert (Hkey : row_key (row_of (aggregate g, Z.of_nat (List.length (snd g')))) = fst g)
        by (destruct g as [[[n k] m] rows]; reflexivity).
      rewrite Hkey. unfold jobs.
      cbn [row_of fst snd aggregate a_key a_started_at a_stopped_at a_avg_duration
           sub_started_at sub_stopped_at avg_duration_across_all_jobs duration job_counts
           module_name].
      rewrite Hrows, !map_map. cbn [temp_of t_started_at t_stopped_at t_avg_duration].
      split; [exact Hne|]. split; [apply SummaryFacts.min_time_earliest|].
      split; [apply SummaryFacts.max_time_latest|].
      split; [reflexivity|]. split; [reflexivity|].
      exists (fst g'). split; [exact Hname|]. split; [exact Hne'|].
      rewrite Hrows', length_map. reflexivity.
    + intros p Hp.
      destruct (SummaryFacts.pair_group mapping job_details_df p Hp) as (g & Hg & Hk).
      destruct (SummaryFacts.group_jobs mapping job_details_df g Hg) as [Hrows _].
      exists (row_of (aggregate g, Z.of_nat (List.length (snd g)))). split; [|split].
      * apply FrameFacts.sort_in, in_map. apply SummaryFacts.in_merged.
        exists g, g. repeat split; assumption.
      * assert (Hkey : row_key (row_of (aggregate g, Z.of_nat (List.length (snd g)))) = fst g)
          by (destruct g as [[[n k] m] rows]; reflexivity).
        rewrite Hkey, SummaryFacts.module_key_eqb_sym. exact Hk.
      * cbn [row_of job_counts snd]. rewrite Hrows, length_map. unfold jobs, float.
        rewrite (SummaryFacts.jobs_of_eqb mapping job_details_df _ _ Hk). reflexivity.
    + intros h Hh. cbn zeta.
      destruct (SummaryFacts.in_highlevel _ h Hh) as (Hne & Hcount & Hstart & Hstop).
      split; [exact Hne|]. split; [exact Hcount|].
      split; [rewrite Hstart; apply SummaryFacts.min_time_earliest|].
      split; [rewrite Hstop; apply SummaryFacts.max_time_latest|].
      unfold highlevel_summary in Hh. apply in_map_iff in Hh as (g & <- & _). reflexivity.
    + intros s Hs. apply SummaryFacts.highlevel_covers. exact Hs.
Qed.

Lemma summaries_use_succeeded_jobs_only_witness :
  (get_summaries reporting succeeded_jobs [] = get_summaries reporting mixed_jobs [] /\
   (forall before r after,
       mixed_jobs = before ++ r :: after ->
       has_status "FAILED" r = true \/ has_status "RUNNING" r = true ->
       get_summaries reporting (before ++ after) [] = get_summaries reporting mixed_jobs [])) /\
  exists sub high,
    get_summaries reporting mixed_jobs [] =
      (Finished (Ok tt), [] ++ written reporting sub high) /\
    (forall s,
        In s sub ->
        jobs_of modules mixed_jobs (row_key s) <> [] /\
        earliest (map (fun p => started_at (fst p)) (jobs_of modules mixed_jobs (row_key s)))
          (sub_started_at s) /\
        latest (map (fun p => stopped_at (fst p)) (jobs_of modules mixed_jobs (row_key s)))
          (sub_stopped_at s) /\
        avg_duration_across_all_jobs s =
          Average (map (fun p => span (started_at (fst p)) (stopped_at (fst p)))
                     (jobs_of modules mixed_jobs (row_key s))) /\
        duration s = span (sub_started_at s) (sub_stopped_at s) /\
        exists k,
          fst (fst k) = module_name s /\ jobs_of modules mixed_jobs k <> [] /\
          job_counts s = Z.of_nat (List.length (jobs_of modules mixed_jobs k))) /\
    (forall p,
        In p (pairs modules mixed_jobs) ->
        exists s,
          In s sub /\
          module_key_eqb (row_key s) (key_of_pair (floating modules mixed_jobs) p) = true /\
          job_counts s =
            Z.of_nat (List.length
                        (jobs_of modules mixed_jobs
                           (key_of_pair (floating modules mixed_jobs) p)))) /\
    (forall h,
        In h high ->
        filter (fun s => highlevel_key_eqb (highlevel_key h) (submodule_key s)) sub <> [] /\
        h_job_counts h =
          total (map job_counts
                   (filter (fun s => highlevel_key_eqb (highlevel_key h) (submodule_key s))
                      sub)) /\
        earliest
          (map sub_started_at
             (filter (fun s => highlevel_key_eqb (highlevel_key h) (submodule_key s)) sub))
          (h_started_at h) /\
        latest
          (map sub_stopped_at
             (filter (fun s => highlevel_key_eqb (highlevel_key h) (submodule_key s)) sub))
          (h_stopped_at h) /\
        h_duration h = clock (h_started_at h) (h_stopped_at h)) /\
    (forall s,
        In s sub ->
        exists h,
          In h high /\ highlevel_key_eqb (highlevel_key h) (submodule_key s) = true).
Proof.
  apply (summaries_use_succeeded_jobs_only reporting reporting mixed_jobs succeeded_jobs []).
  - reflexivity.
  - reflexivity.
  - reflexivity.
  - reflexivity.
Defined.

End SummaryClaims.

(** ** main *)

Module CsvFacts.
Import Tables.
Local Open Scope run_scope.

Lemma csv_free_ret {A} (a : A) : csv_free (ret a).
Proof. intros tr. exists []. rewrite app_nil_r. split; reflexivity. Qed.

Lemma csv_free_lift {A} (r : result A) : csv_free (lift r).
Proof. intros tr. exists []. rewrite app_nil_r. split; reflexivity. Qed.

Lemma csv_free_diverge {A} : csv_free (@diverge A).
Proof. intros tr. exists []. rewrite app_nil_r. split; reflexivity. Qed.

Lemma csv_free_emit (e : event) : is_csv e = false -> csv_free (emit e).
Proof. intros H tr. exists [e]. split; [reflexivity|]. cbn. rewrite H. reflexivity. Qed.

Lemma csv_free_bind {A B} (m : run A) (k : A -> run B) :
  csv_free m -> (forall a, csv_free (k a)) -> csv_free (bind_run m k).
Proof.
  intros Hm Hk tr. unfold bind_run. destruct (Hm tr) as (evs & Hevs & Hnone).
  destruct (m tr) as [o tr']. cbn [snd] in Hevs. subst tr'.
  destruct o as [[a|e]|]; try (exists evs; split; [reflexivity|assumption]).
  destruct (Hk a (tr ++ evs)) as (evs' & -> & Hnone').
  exists (evs ++ evs'). rewrite app_assoc, filter_app, Hnone, Hnone'. split; reflexivity.
Qed.

Create HintDb csv.
#[local] Hint Resolve csv_free_ret csv_free_lift csv_free_diverge : csv.

Ltac csv_free :=
  repeat first
    [ solve [auto with csv]
    | apply csv_free_emit; reflexivity
    | apply csv_free_bind; [|intros ?]
    | match goal with |- csv_free (if ?b then _ else _) => destruct b end
    | match goal with |- csv_free (match ?x with _ => _ end) => destruct x end ].

Lemma csv_free_paginate (E : env) (job_status : string) :
  forall fuel nextToken temp, csv_free (JobIds.paginate E fuel job_status nextToken temp).
Proof.
  induction fuel as [|fuel IH]; intros nextToken temp; cbn [JobIds.paginate]; csv_free.
Qed.

Lemma csv_free_for_statuses (E : env) (fuel : nat) :
  forall statuses ids, csv_free (JobIds.for_statuses E fuel statuses ids).
Proof.
  pose proof (csv_free_paginate E) as Hp.
  induction statuses as [|s statuses IH]; intros ids; cbn [JobIds.for_statuses];
    [apply csv_free_ret|].
  apply csv_free_bind; [|intros ?; apply IH].
  unfold JobIds.ids_of_status. csv_free.
Qed.

Lemma csv_free_get_batch_job_id_list (E : env) (fuel : nat) :
  csv_free (JobIds.get_batch_job_id_list E fuel).
Proof.
  pose proof (csv_free_for_statuses E fuel) as Hs.
  unfold JobIds.get_batch_job_id_list. csv_free.
Qed.

Lemma csv_free_for_jobs (E : env) :
  forall ids final response, csv_free (JobDetails.for_jobs E ids final response).
Proof.
  induction ids as [|id ids IH]; intros final response; cbn [JobDetails.for_jobs];
    [apply csv_free_ret|].
  apply csv_free_bind; [apply csv_free_emit; reflexivity | intros _].
  destruct (describe_jobs E id) as [r|e].
  - destruct (JobDetails.parse_job E id r); [apply IH|].
    apply csv_free_bind; [|intros _; apply IH].
    cbn [JobDetails.handler]. apply csv_free_emit. reflexivity.
  - apply csv_free_bind; [|intros _; apply IH].
    destruct response; cbn [JobDetails.handler]; csv_free.
Qed.

Lemma csv_free_get_job_details (E : env) (ids : list pyval) :
  csv_free (JobDetails.get_job_details E ids).
Proof.
  pose proof (csv_free_for_jobs E) as Hj.
  unfold JobDetails.get_job_details. csv_free.
Qed.

Lemma mapM_length {A B} (f : A -> result B) (xs : list A) (ys : list B) :
  mapM f xs = Ok ys -> List.length ys = List.length xs.
Proof.
  revert ys. induction xs as [|x xs IH]; intros ys H.
  - injection H as <-. reflexivity.
  - cbn [mapM] in H. destruct (f x) as [y|]; [|discriminate]. cbn [bind] in H.
    destruct (mapM f xs) as [ys'|]; [|discriminate]. injection H as <-.
    cbn [List.length]. rewrite (IH ys' eq_refl). reflexivity.
Qed.

(** A table of means without row comes from no record. *)
Lemma groupby_mean_nil (records : list usage_record) :
  Usage.groupby_mean records = Ok [] -> records = [].
Proof.
  unfold Usage.groupby_mean. intros H.
  destruct (mapM _ records) as [keyed|] eqn:Hk; [|discriminate]. cbn [bind] in H.
  apply mapM_length in H. apply mapM_length in Hk.
  unfold Usage.sort_groups in H.
  rewrite (Permutation_length (FrameFacts.sort_perm _ _)) in H.
  destruct keyed as [|kr keyed]; [|discriminate H].
  destruct records; [reflexivity | discriminate Hk].
Qed.

(** A resource-usage query that returns no row has written no file. *)
Lemma empty_usage_writes_nothing (E : env) (fuel : nat) (tr tr' : list event) :
  Usage.get_resource_usage E fuel tr = (Finished (Ok []), tr') ->
  exists evs, tr' = tr ++ evs /\ filter is_csv evs = [].
Proof.
  rewrite UsageRunFacts.get_resource_usage_run.
  pose proof (UsageFacts.framed_windows E fuel fuel
                (Windows.window_start E 0) (Windows.window_end E 0) [] (tr ++ Windows.intro_logs E))
    as Hf.
  pose proof (UsageFacts.quiet_windows E fuel is_csv
                (fun _ => eq_refl) (fun _ => eq_refl) (fun _ _ _ => eq_refl) (fun _ _ => eq_refl)
                fuel (Windows.window_start E 0) (Windows.window_end E 0)) as Hq.
  unfold Windows.quiet in Hq. rewrite Hf.
  destruct (Usage.windows E fuel fuel _ _ [] []) as [[o out] evs].
  cbn [Windows.outcome_of Windows.records_of Windows.events_of fst snd app] in Hq |- *.
  assert (Hfinish : forall tr1 tr2,
             Usage.finish E out tr1 = (Finished (Ok []), tr2) ->
             tr2 = tr1 ++ [Windows.count_log []]).
  { intros tr1 tr2 H. unfold Usage.finish in H.
    destruct out as [|r out].
    - unfold bind_run, ret, emit in H. injection H as <-. reflexivity.
    - unfold bind_run at 1 in H. unfold bind_run at 1 in H. unfold lift at 1 in H.
      destruct (Usage.groupby_mean (r :: out)) as [rows|] eqn:Hrows; [|discriminate].
      unfold bind_run, ret, emit in H. injection H as -> _.
      apply groupby_mean_nil in Hrows. discriminate. }
  destruct o as [[[]|e]|]; intros H; try discriminate.
  - apply Hfinish in H. subst tr'.
    exists (Windows.intro_logs E ++ evs ++ [Windows.count_log []]).
    rewrite <- !app_assoc. split; [reflexivity|].
    rewrite !filter_app, Hq. reflexivity.
  - apply Hfinish in H. subst tr'.
    exists (Windows.intro_logs E ++ evs ++ [Windows.error_log] ++ [Windows.count_log []]).
    rewrite <- !app_assoc. split; [reflexivity|].
    rewrite !filter_app, Hq. reflexivity.
Qed.

End CsvFacts.

Module MainClaims.
Import Main Tables.

(** C9. When a log group name is given, the job-details table is not
    empty and the resource-usage query returns no row, [main] raises the
    unbound-variable error for output_df right after it has printed the
    empty usage table: neither branch has assigned the variable. No file is
    written in the whole run, in particular not the job-details CSV. *)
Theorem empty_usage_leaves_output_df_unbound (E : env) (fuel : nat)
    (tr tr1 tr2 tr3 : list event) (job_id_list : list pyval)
    (batch_job_details_df : list job_row) :
  JobIds.get_batch_job_id_list E fuel tr = (Finished (Ok job_id_list), tr1) ->
  job_id_list <> [] ->
  JobDetails.get_job_details E job_id_list tr1 = (Finished (Ok batch_job_details_df), tr2) ->
  batch_job_details_df <> [] ->
  log_group_given E = true ->
  Usage.get_resource_usage E fuel (tr2 ++ [PrintTable (JobTable batch_job_details_df)]) =
    (Finished (Ok []), tr3) ->
  main E fuel tr =
    (Finished (Raise (UnboundLocalError "output_df")), tr3 ++ [PrintTable (UsageTable [])]) /\
  exists evs,
    snd (main E fuel tr) = tr ++ evs /\ filter is_csv evs = [].
Proof.
  intros Hids Hne Hdetails Hrows Hgroup Husage.
  assert (Hmain : main E fuel tr =
            (Finished (Raise (UnboundLocalError "output_df")), tr3 ++ [PrintTable (UsageTable [])])).
  { unfold main. unfold bind_run at 1. rewrite Hids.
    destruct job_id_list as [|id rest]; [contradiction|].
    unfold bind_run at 1. rewrite Hdetails.
    unfold bind_run at 1. unfold emit at 1.
    destruct batch_job_details_df as [|row rows]; [contradiction|].
    unfold bind_run at 1. rewrite Hgroup.
    replace (0 <? Z.of_nat (List.length (row :: rows))) with true
      by (symmetry; apply Z.ltb_lt; cbn [List.length]; lia).
    cbn [andb]. unfold bind_run at 1. rewrite Husage.
    reflexivity. }
  split; [exact Hmain|]. rewrite Hmain. cbn [snd].
  destruct (CsvFacts.csv_free_get_batch_job_id_list E fuel tr) as (evs1 & H1 & Hn1).
  rewrite Hids in H1. cbn [snd] in H1.
  destruct (CsvFacts.csv_free_get_job_details E job_id_list tr1) as (evs2 & H2 & Hn2).
  rewrite Hdetails in H2. cbn [snd] in H2.
  destruct (CsvFacts.empty_usage_writes_nothing E fuel _ _ Husage) as (evs3 & H3 & Hn3).
  subst tr1 tr2 tr3.
  exists (evs1 ++ evs2 ++ [PrintTable (JobTable batch_job_details_df)] ++ evs3
          ++ [PrintTable (UsageTable [])]).
  rewrite <- !app_assoc. split; [reflexivity|].
  rewrite !filter_app, Hn1, Hn2, Hn3. reflexivity.
Qed.

Lemma empty_usage_leaves_output_df_unbound_witness :
  let E := UsageSamples.empty_logs in
  let listed := JobIds.get_batch_job_id_list E 3 [] in
  let described := JobDetails.get_job_details E [PStr "j1"] (snd listed) in
  let table := match fst described with Finished (Ok rows) => rows | _ => [] end in
  let queried := Usage.get_resource_usage E 3 (snd described ++ [PrintTable (JobTable table)]) in
  main E 3 [] =
    (Finished (Raise (UnboundLocalError "output_df")),
     snd queried ++ [PrintTable (UsageTable [])]) /\
  exists evs,
    snd (main E 3 []) = [] ++ evs /\ filter is_csv evs = [].
Proof.
  intros E listed described table queried.
  apply (empty_usage_leaves_output_df_unbound E 3 [] (snd listed) (snd described)
           (snd queried) [PStr "j1"] table).
  - reflexivity.
  - discriminate.
  - reflexivity.
  - vm_compute. discriminate.
  - reflexivity.
  - reflexivity.
Defined.

End MainClaims.

(** ** The polling loop *)

Module PollingClaims.
Import Usage Windows.

(** A first window whose query stays in the Running status keeps the whole
    function from returning. *)
Lemma stuck_window_never_returns (E : env) (start_query_response query_id : pyval) :
  start_query E (cloudwatch_log_group_name E) (window_start E 0) (window_end E 0) =
    Ok start_query_response ->
  Py.getitem start_query_response "queryId" = Ok query_id ->
  window_end E 0 < current_epoch_time E ->
  (forall i, running_at E query_id i = true) ->
  forall fuel tr, fst (get_resource_usage E fuel tr) = Diverge.
Proof.
  intros Hstart Hid Hdue Hall fuel tr.
  rewrite UsageRunFacts.get_resource_usage_run.
  apply Z.ltb_lt in Hdue.
  destruct fuel as [|fuel]; cbn [windows]; rewrite Hdue; [reflexivity|].
  unfold abind at 1. rewrite (UsageFacts.framed_window E (S fuel)).
  assert (Hw : outcome_of (window E (S fuel) (window_start E 0) (window_end E 0) [] []) = Diverge).
  { unfold window. unfold abind at 1. unfold aemit at 1.
    unfold abind at 1. unfold alift at 1. rewrite Hstart.
    unfold abind at 1. unfold alift at 1. rewrite Hid.
    unfold abind at 1. unfold aemit at 1. unfold abind at 1.
    rewrite (UsageFacts.framed_poll E query_id (S fuel) 0%nat PNone).
    destruct (UsageFacts.poll_never_returns E query_id Hall (S fuel) 0%nat PNone [] [] eq_refl)
      as (out' & tr' & ->).
    reflexivity. }
  rewrite Hw. reflexivity.
Qed.

(** C6. The polling loop of [get_resource_usage] sleeps one second before
    each poll and leaves exactly at the first poll whose status is not
    Running: after [n] polls that say Running and one that says something
    else, it has slept and polled [n + 1] times and holds the last
    response. When every poll says Running, the loop does not return,
    whatever budget of rounds it is given, and neither does the function
    when this happens to the query of its first window. *)
Theorem poll_until_not_running (E : env) (query_id : pyval) :
  (forall n final status fuel out tr,
      (forall i, (i < n)%nat -> running_at E query_id i = true) ->
      get_query_results E query_id n = Ok final ->
      Py.getitem final "status" = Ok status ->
      Py.eq_str status "Running" = false ->
      (n < fuel)%nat ->
      poll E fuel query_id 0 PNone out tr =
        (Finished (Ok final), out, tr ++ ticks query_id (S n))) /\
  ((forall i, running_at E query_id i = true) ->
   (forall fuel out tr,
       outcome_of (poll E fuel query_id 0 PNone out tr) = Diverge) /\
   (forall start_query_response,
       start_query E (cloudwatch_log_group_name E) (window_start E 0) (window_end E 0) =
         Ok start_query_response ->
       Py.getitem start_query_response "queryId" = Ok query_id ->
       window_end E 0 < current_epoch_time E ->
       forall fuel tr, fst (get_resource_usage E fuel tr) = Diverge)).
Proof.
  split.
  - intros n final status fuel out tr Hbefore Hget Hstatus Hne Hfuel.
    apply UsageFacts.poll_exits; try assumption; try reflexivity.
    unfold still_running. destruct final; try discriminate Hstatus.
    cbn [Py.is_none]. rewrite Hstatus. cbn [bind]. rewrite Hne. reflexivity.
  - intros Hall. split.
    + intros fuel out tr.
      destruct (UsageFacts.poll_never_returns E query_id Hall fuel 0%nat PNone out tr eq_refl)
        as (out' & tr' & ->).
      reflexivity.
    + intros resp Hstart Hid Hdue.
      apply (stuck_window_never_returns E resp query_id Hstart Hid Hdue Hall).
Qed.

Lemma poll_until_not_running_witness :
  poll UsageSamples.complete_logs 3 (PStr "q0") 0 PNone [] [] =
    (Finished (Ok (UsageSamples.answer "Complete"
                     [UsageSamples.text_a; UsageSamples.text_b; UsageSamples.text_d])),
     [], [] ++ ticks (PStr "q0") 3) /\
  (forall fuel out tr,
      outcome_of (poll UsageSamples.stuck_logs fuel (PStr "q0") 0 PNone out tr) = Diverge) /\
  (forall fuel tr, fst (get_resource_usage UsageSamples.stuck_logs fuel tr) = Diverge).
Proof.
  split; [|split].
  - apply (proj1 (poll_until_not_running UsageSamples.complete_logs (PStr "q0"))
             2%nat _ (PStr "Complete") 3%nat [] []).
    + intros i Hi. destruct i as [|[|i]]; [reflexivity|reflexivity|lia].
    + reflexivity.
    + reflexivity.
    + reflexivity.
    + lia.
  - apply (proj2 (poll_until_not_running UsageSamples.stuck_logs (PStr "q0"))).
    intros i. reflexivity.
  - apply (proj2 (proj2 (poll_until_not_running UsageSamples.stuck_logs (PStr "q0"))
                   (fun i => eq_refl))
             (PDict [("queryId", PStr "q0"); Samples.metadata])).
    + reflexivity.
    + reflexivity.
    + reflexivity.
Defined.

End PollingClaims.

(** * Further properties *)

(** ** Splitting and joining *)

Module SplitFacts.

Lemma append_assoc (a b c : string) : ((a ++ b) ++ c = a ++ (b ++ c))%string.
Proof. induction a as [|x a IH]; [reflexivity|]. cbn. rewrite IH. reflexivity. Qed.

Lemma append_nil_r (a : string) : (a ++ "")%string = a.
Proof. induction a as [|x a IH]; [reflexivity|]. cbn. rewrite IH. reflexivity. Qed.

Lemma has_char_app (c : ascii) (a b : string) :
  Text.has_char c (a ++ b)%string = (Text.has_char c a || Text.has_char c b)%bool.
Proof.
  induction a as [|x a IH]; [reflexivity|]. cbn. rewrite IH, orb_assoc. reflexivity.
Qed.

(** A piece without the separator is read in one go. *)
Lemma split_aux_piece (sep : ascii) (p rest cur : string) :
  Text.has_char sep p = false ->
  Text.split_aux sep (p ++ rest)%string cur = Text.split_aux sep rest (cur ++ p)%string.
Proof.
  revert cur. induction p as [|c p IH]; intros cur H.
  - rewrite append_nil_r. reflexivity.
  - cbn [Text.has_char] in H. apply orb_false_iff in H as [Hc Hp].
    cbn [String.append Text.split_aux]. rewrite Ascii.eqb_sym, Hc.
    rewrite (IH _ Hp), append_assoc. reflexivity.
Qed.

Lemma split_aux_not_nil (sep : ascii) (s cur : string) : Text.split_aux sep s cur <> [].
Proof.
  revert cur. induction s as [|c s IH]; intros cur; cbn [Text.split_aux]; [discriminate|].
  destruct (Ascii.eqb c sep); [discriminate | apply IH].
Qed.

Lemma last_cons {A} (x : A) (l : list A) (d : A) : l <> [] -> List.last (x :: l) d = List.last l d.
Proof. destruct l; [contradiction | reflexivity]. Qed.

Lemma split_aux_last (sep : ascii) (s cur : string) :
  Text.has_char sep cur = false ->
  Text.has_char sep (List.last (Text.split_aux sep s cur) "") = false /\
  exists p, (cur ++ s = p ++ List.last (Text.split_aux sep s cur) "")%string.
Proof.
  revert cur. induction s as [|c s IH]; intros cur Hcur; cbn [Text.split_aux].
  - cbn [List.last]. split; [assumption|]. exists "". rewrite append_nil_r. reflexivity.
  - destruct (Ascii.eqb c sep) eqn:Hc.
    + rewrite last_cons by apply split_aux_not_nil.
      destruct (IH "" eq_refl) as [Hno (p & Hp)]. split; [assumption|].
      exists (cur ++ String c p)%string. cbn [String.append] in Hp.
      rewrite append_assoc. cbn [String.append]. rewrite <- Hp. reflexivity.
    + destruct (IH (cur ++ String c "")%string) as [Hno (p & Hp)].
      * rewrite has_char_app, Hcur. cbn. rewrite Ascii.eqb_sym, Hc. reflexivity.
      * split; [assumption|]. exists p. rewrite <- Hp, append_assoc. reflexivity.
Qed.

End SplitFacts.

Module SplitProperties.

(** X1. The last piece of a split, as taken for the ending of an ARN,
    contains no separator and is an end of the text; it is the whole text
    when the text has no separator. *)
Theorem split_last_is_clean_suffix (sep : ascii) (s : string) :
  Text.has_char sep (Text.split_last sep s) = false /\
  (exists p, s = (p ++ Text.split_last sep s)%string) /\
  (Text.has_char sep s = false -> Text.split_last sep s = s).
Proof.
  unfold Text.split_last, Text.split.
  destruct (SplitFacts.split_aux_last sep s "" eq_refl) as [Hno Hp].
  split; [assumption|]. split; [assumption|].
  intros H. rewrite <- (SplitFacts.append_nil_r s) at 1.
  rewrite (SplitFacts.split_aux_piece sep s "" "" H). reflexivity.
Qed.

(** X2. Splitting undoes joining: the pieces joined with a separator, as
    [get_job_details] joins the instance endings of a job with a bar, are
    recovered by the split that [main] applies, as long as no piece
    contains the separator and there is at least one piece. *)
Theorem split_join (sep : ascii) (parts : list string) :
  parts <> [] ->
  Forall (fun p => Text.has_char sep p = false) parts ->
  Text.split sep (Text.join (String sep EmptyString) parts) = parts.
Proof.
  intros Hne Hall. unfold Text.split, Text.join.
  induction Hall as [|p ps Hp Hps IH]; [contradiction|].
  destruct ps as [|q qs].
  - cbn [String.concat]. rewrite <- (SplitFacts.append_nil_r p) at 1.
    rewrite (SplitFacts.split_aux_piece sep p "" "" Hp). reflexivity.
  - cbn [String.concat].
    rewrite (SplitFacts.split_aux_piece sep p _ "" Hp).
    cbn [String.append Text.split_aux]. rewrite Ascii.eqb_refl.
    f_equal. apply IH. discriminate.
Qed.

Lemma split_join_witness :
  Text.split "|" (Text.join "|" ["ci-1"; "ci-2"; ""]) = ["ci-1"; "ci-2"; ""].
Proof.
  apply (split_join "|" ["ci-1"; "ci-2"; ""]).
  - discriminate.
  - repeat constructor.
Defined.

End SplitProperties.

(** ** More on the listing of job ids *)

Module ListingFacts.
Import JobIds.

Lemma token_found (entries : list (string * pyval)) (token : pyval) :
  Py.assoc "nextToken" entries = Some token ->
  first_token (PDict entries) = Ok token.
Proof.
  intros H. unfold first_token.
  rewrite (TextFacts.key_in_text "nextToken" eq_refl entries token H).
  cbn [Py.getitem]. rewrite H. reflexivity.
Qed.

End ListingFacts.

Module ListingProperties.
Import JobIds Listing BrokenListing.
Local Open Scope run_scope.

(** X3. On a queue whose single-page listings are plain, the function
    reads every page of the three statuses, with one call of [list_jobs]
    per page, and returns the ids that pass the filter in the order of the
    pages, SUCCEEDED first, then FAILED, then RUNNING. *)
Theorem listing_reads_every_page (E : env) (Q : snapshot) (fuel : nat) (tr : list event) :
  describes E Q ->
  (longest Q <= S fuel)%nat ->
  get_batch_job_id_list E fuel tr = (Finished (Ok (listed_ids E Q)), tr ++ listing_events E Q) /\
  List.length (filter is_list_jobs (listing_events E Q)) = page_count Q.
Proof.
  intros Hd Hf. split.
  - apply JobIdsFacts.get_batch_job_id_list_spec; assumption.
  - apply JobIdsFacts.list_jobs_calls. assumption.
Qed.

Lemma listing_reads_every_page_witness :
  get_batch_job_id_list Samples.paged_queue 2 [] =
    (Finished (Ok (listed_ids Samples.paged_queue paged_snapshot)),
     [] ++ listing_events Samples.paged_queue paged_snapshot) /\
  List.length (filter is_list_jobs (listing_events Samples.paged_queue paged_snapshot)) =
    page_count paged_snapshot.
Proof.
  apply (listing_reads_every_page Samples.paged_queue paged_snapshot 2 []).
  - repeat first
      [ reflexivity | apply Forall_nil | apply Forall_cons | split | eexists
      | intros entries Hcall Hnone; injection Hcall as <-;
        first [discriminate Hnone | reflexivity] ].
  - unfold longest. simpl. lia.
Defined.

(** X4. The test of the first page never misses a token: when the response
    has a nextToken key, the test on its text succeeds and the value of the
    key is taken, as the test on the keys of the later pages does. *)
Theorem first_page_finds_token (entries : list (string * pyval)) (token : pyval) :
  Py.assoc "nextToken" entries = Some token ->
  first_token (PDict entries) = Ok token /\
  later_token (PDict entries) = Ok token.
Proof.
  intros H. unfold first_token, later_token.
  rewrite (TextFacts.key_in_text "nextToken" eq_refl entries token H).
  cbn [Py.getitem]. rewrite H. split; reflexivity.
Qed.

Lemma first_page_finds_token_witness :
  first_token (Samples.page [] "t1") = Ok (PStr "t1") /\
  later_token (Samples.page [] "t1") = Ok (PStr "t1").
Proof.
  apply (first_page_finds_token _ (PStr "t1")). reflexivity.
Defined.

Lemma paginate_breaks (E : env) (job_status : string) (e : exn) :
  forall pages fuel next temp tr,
    broken_from E job_status (Some next) pages e ->
    Py.is_none next = false ->
    (List.length pages < fuel)%nat ->
    fst (paginate E fuel job_status next temp tr) = Finished (Raise e).
Proof.
  induction pages as [|[items next'] rest IH]; intros fuel next temp tr Hb Hn Hf;
    (destruct fuel as [|fuel]; [simpl in Hf; lia|]); cbn [paginate]; rewrite Hn;
    unfold bind_run at 1; unfold emit at 1; unfold bind_run at 1; unfold lift at 1.
  - cbn [broken_from] in Hb. rewrite Hb. reflexivity.
  - destruct Hb as (entries & Hcall & Hlist & Htyped & Htok & Hn' & Hrest).
    rewrite Hcall. unfold bind_run at 1. unfold lift at 1.
    rewrite (JobIdsFacts.scan_page_spec _ _ _ _ Hlist Htyped).
    unfold bind_run at 1. unfold lift at 1. cbn [later_token]. rewrite Htok.
    apply IH; [assumption | assumption | simpl in Hf; lia].
Qed.

(** X5. An exception of the batch service is not caught: when a call of
    [list_jobs] for the first status raises, at the first page or after
    any number of pages, the function raises the same exception and
    returns none of the ids read so far. *)
Theorem listing_error_propagates (E : env) (pages : list (list pyval * pyval)) (e : exn)
    (fuel : nat) (tr : list event) :
  broken_from E "SUCCEEDED" None pages e ->
  (List.length pages <= fuel)%nat ->
  fst (get_batch_job_id_list E fuel tr) = Finished (Raise e).
Proof.
  intros Hb Hf. unfold get_batch_job_id_list, status_needed.
  unfold bind_run at 1. unfold emit at 1. unfold bind_run at 1. unfold emit at 1.
  unfold bind_run at 1. cbn [for_statuses]. unfold bind_run at 1.
  unfold ids_of_status.
  unfold bind_run at 1. unfold emit at 1. unfold bind_run at 1. unfold emit at 1.
  unfold bind_run at 1. unfold lift at 1.
  destruct pages as [|[items next] rest].
  - cbn [broken_from] in Hb. rewrite Hb. reflexivity.
  - destruct Hb as (entries & Hcall & Hlist & Htyped & Htok & Hn & Hrest).
    rewrite Hcall. unfold bind_run at 1. unfold lift at 1.
    rewrite (JobIdsFacts.scan_page_spec _ _ _ _ Hlist Htyped).
    unfold bind_run at 1. unfold lift at 1.
    rewrite (ListingFacts.token_found entries next Htok).
    unfold bind_run at 1.
    match goal with |- context [paginate E fuel "SUCCEEDED" next ?t ?r] =>
      pose proof (paginate_breaks E "SUCCEEDED" e rest fuel next t r Hrest Hn
                    ltac:(simpl in Hf; lia)) as Hp;
      destruct (paginate E fuel "SUCCEEDED" next t r) as [o tr'] end.
    cbn [fst] in Hp. subst o. reflexivity.
Qed.

Lemma listing_error_propagates_witness :
  fst (get_batch_job_id_list throttled_queue 1 []) =
    Finished (Raise (ClientError "TooManyRequestsException")).
Proof.
  apply (listing_error_propagates throttled_queue
           [([Samples.summary "s1" "ClusterBatch" 1648036030000 "SUCCEEDED"], PStr "t1")]).
  - eexists. repeat split; try reflexivity.
    repeat constructor. eexists. eexists. split; reflexivity.
  - simpl. lia.
Defined.

Lemma append_new_breaks (cutoff : Z) (good : list pyval) (bad : pyval) (rest temp : list pyval)
    (e : exn) :
  Forall summary_typed good ->
  Py.getitem bad "createdAt" = Raise e ->
  append_new cutoff (good ++ bad :: rest) temp = Raise e.
Proof.
  intros Hgood Hbad. revert temp.
  induction Hgood as [|x good (created & id & Hc & Hi) _ IH]; intros temp.
  - cbn [app append_new]. rewrite Hbad. reflexivity.
  - cbn [app append_new]. rewrite Hc, Hi. cbn [bind Py.gt_num].
    destruct (cutoff <? created); apply IH.
Qed.

(** X6. One entry of a page without a creation time makes the whole
    listing fail: the exception of the lookup is raised by the function,
    whatever the entries before it and the budget. *)
Theorem entry_without_creation_time_aborts (E : env) (entries : list (string * pyval))
    (good : list pyval) (bad : pyval) (rest : list pyval) (e : exn)
    (fuel : nat) (tr : list event) :
  list_jobs E (batch_job_queue E) "SUCCEEDED" None = Ok (PDict entries) ->
  Py.assoc "jobSummaryList" entries = Some (PList (good ++ bad :: rest)) ->
  Forall summary_typed good ->
  Py.getitem bad "createdAt" = Raise e ->
  fst (get_batch_job_id_list E fuel tr) = Finished (Raise e).
Proof.
  intros Hcall Hlist Hgood Hbad. unfold get_batch_job_id_list, status_needed.
  unfold bind_run at 1. unfold emit at 1. unfold bind_run at 1. unfold emit at 1.
  unfold bind_run at 1. cbn [for_statuses]. unfold bind_run at 1.
  unfold ids_of_status.
  unfold bind_run at 1. unfold emit at 1. unfold bind_run at 1. unfold emit at 1.
  unfold bind_run at 1. unfold lift at 1. rewrite Hcall.
  unfold bind_run at 1. unfold lift at 1. unfold scan_page.
  cbn [Py.getitem]. rewrite Hlist. cbn [bind Py.iter].
  rewrite (append_new_breaks _ good bad rest [] e Hgood Hbad). reflexivity.
Qed.

Lemma entry_without_creation_time_aborts_witness :
  fst (get_batch_job_id_list untimed_queue 0 []) =
    Finished (Raise (KeyError (PStr "createdAt"))).
Proof.
  apply (entry_without_creation_time_aborts untimed_queue
           [Samples.metadata;
            ("jobSummaryList",
             PList [Samples.summary "s1" "ClusterBatch" 1648036030000 "SUCCEEDED"; untimed])]
           [Samples.summary "s1" "ClusterBatch" 1648036030000 "SUCCEEDED"] untimed []).
  - reflexivity.
  - reflexivity.
  - repeat constructor. eexists. eexists. split; reflexivity.
  - reflexivity.
Defined.

End ListingProperties.

(** ** More on the job details *)

Module DetailFacts.
Import JobDetails Details Kept.
Local Open Scope run_scope.

Lemma bind_ok {A B} (m : result A) (k : A -> result B) (b : B) :
  bind m k = Ok b -> exists a, m = Ok a /\ k a = Ok b.
Proof. destruct m as [a|e]; [|discriminate]. intros H. exists a. split; [reflexivity|exact H]. Qed.

Ltac binds H :=
  repeat (cbv zeta in H;
          let a := fresh "a" in
          let Ha := fresh "Ha" in
          apply bind_ok in H; destruct H as (a & Ha & H)).

(** The record of a job carries the id it was asked for. *)
Lemma parse_job_id (E : env) (id r : pyval) (rec : job_record) :
  parse_job E id r = Ok rec -> r_job_id rec = id.
Proof.
  intros H. unfold parse_job in H. binds H. injection H as <-. reflexivity.
Qed.

Lemma job_ok_record (E : env) (id : pyval) :
  job_ok E id = true ->
  exists r rec, describe_jobs E id = Ok r /\ parse_job E id r = Ok rec.
Proof.
  unfold job_ok, job_fails. destruct (describe_jobs E id) as [r|]; [|discriminate].
  destruct (parse_job E id r) as [rec|] eqn:Hp; [|discriminate].
  intros _. exists r, rec. split; [reflexivity | exact Hp].
Qed.

Lemma job_ok_fails (E : env) (id : pyval) : job_fails E id = negb (job_ok E id).
Proof. unfold job_ok. rewrite negb_involutive. reflexivity. Qed.

(** Once a response is bound the loop goes through all the jobs: it keeps
    the records of those that can be read, in order, and logs one warning
    for each of the others. *)
Lemma for_jobs_spec (E : env) :
  forall ids final r0 tr,
  exists records evs,
    for_jobs E ids final (Some r0) tr = (Finished (Ok (final ++ records)), tr ++ evs) /\
    map r_job_id records = filter (job_ok E) ids /\
    List.length (filter is_describe evs) = List.length ids /\
    List.length (filter is_warning evs) = List.length (filter (job_fails E) ids).
Proof.
  induction ids as [|id rest IH]; intros final r0 tr.
  - exists [], []. rewrite !app_nil_r. repeat split.
  - cbn [for_jobs filter]. unfold bind_run at 1. unfold emit at 1.
    rewrite (job_ok_fails E id). unfold job_ok, job_fails.
    destruct (describe_jobs E id) as [r|e].
    + destruct (parse_job E id r) as [rec|e] eqn:Hp.
      * destruct (IH (final ++ [rec]) r (tr ++ [DescribeJobs id])) as (records & evs & -> & Hids & Hd & Hw).
        exists (rec :: records), (DescribeJobs id :: evs). cbn [negb].
        rewrite <- !app_assoc. cbn [app map filter is_describe is_warning List.length].
        rewrite (parse_job_id E id r rec Hp), Hids, Hd, Hw. repeat split.
      * unfold bind_run at 1. cbn [handler]. unfold emit at 1.
        destruct (IH final r ((tr ++ [DescribeJobs id]) ++ [warning id r]))
          as (records & evs & Hrun & Hids & Hd & Hw).
        unfold warning in Hrun. rewrite Hrun.
        exists records, (DescribeJobs id :: warning id r :: evs). cbn [negb].
        rewrite <- !app_assoc. cbn [app filter is_describe is_warning warning List.length].
        rewrite Hids, Hd, Hw. repeat split.
    + unfold bind_run at 1. cbn [handler]. unfold emit at 1.
      destruct (IH final r0 ((tr ++ [DescribeJobs id]) ++ [warning id r0]))
        as (records & evs & Hrun & Hids & Hd & Hw).
      unfold warning in Hrun. rewrite Hrun.
      exists records, (DescribeJobs id :: warning id r0 :: evs). cbn [negb].
      rewrite <- !app_assoc. cbn [app filter is_describe is_warning warning List.length].
      rewrite Hids, Hd, Hw. repeat split.
Qed.

End DetailFacts.

Module RecordFacts.
Import JobDetails Details Kept.

(** A value of a dict occurs in the text of the dict. *)
Lemma value_in_text (needle k : string) (entries : list (string * pyval)) (v : pyval) :
  Py.assoc k entries = Some v ->
  Text.str_in needle (Py.repr v) = true ->
  Text.str_in needle (Py.repr (PDict entries)) = true.
Proof.
  intros H Hv. rewrite TextFacts.repr_dict.
  apply TextFacts.str_in_app_r with (a := "{"). apply TextFacts.str_in_app_l.
  induction entries as [|[k' x] rest IH]; [discriminate|].
  cbn [Py.assoc] in H. cbn [Py.entries_text].
  apply TextFacts.str_in_app_r, TextFacts.str_in_app_r.
  destruct (String.eqb k k').
  - injection H as ->. apply TextFacts.str_in_app_l. exact Hv.
  - apply TextFacts.str_in_app_r. destruct rest as [|e rest']; [discriminate|].
    apply TextFacts.str_in_app_r. apply IH. exact H.
Qed.

Lemma concat_merge (sep a b : string) (l : list string) :
  String.concat sep ((a ++ sep ++ b)%string :: l) = String.concat sep (a :: b :: l).
Proof.
  cbn [String.concat]. destruct l as [|c l].
  - reflexivity.
  - rewrite !SplitFacts.append_assoc. reflexivity.
Qed.

(** The loop over attempts that all give a reason joins the reasons with
    bars, after what it holds already. *)
Lemma collect_reasons_join (attempts : list pyval) (reasons : list string) :
  Forall2 attempt_with_reason attempts reasons ->
  forall acc,
    acc <> "" ->
    collect_reasons attempts (PStr acc) = Ok (PStr (Text.join "|" (acc :: reasons))).
Proof.
  induction 1 as [|i reason attempts reasons (entries & c & -> & Hc & Hr & Hne) _ IH];
    intros acc Hacc.
  - reflexivity.
  - cbn [collect_reasons]. change (Py.str (PDict entries)) with (Py.repr (PDict entries)).
    rewrite (value_in_text "reason" "container" entries (PDict c) Hc
               (TextFacts.key_in_text "reason" eq_refl c (PStr reason) Hr)).
    cbn [Py.truthy]. apply String.eqb_neq in Hacc. rewrite Hacc. cbn [negb bind Py.add_str].
    cbn [Py.getitem]. rewrite Hc. cbn [bind Py.getitem]. rewrite Hr. cbn [bind Py.add_str].
    rewrite IH.
    + unfold Text.join. rewrite <- concat_merge, SplitFacts.append_assoc. reflexivity.
    + destruct acc; [apply String.eqb_neq in Hacc; contradiction | discriminate].
Qed.

Lemma collect_reasons_all (attempts : list pyval) (reasons : list string) :
  Forall2 attempt_with_reason attempts reasons ->
  collect_reasons attempts PNone = Ok (joined reasons).
Proof.
  intros H. destruct H as [|i reason attempts reasons (entries & c & -> & Hc & Hr & Hne) Hrest];
    [reflexivity|].
  cbn [collect_reasons]. change (Py.str (PDict entries)) with (Py.repr (PDict entries)).
  rewrite (value_in_text "reason" "container" entries (PDict c) Hc
             (TextFacts.key_in_text "reason" eq_refl c (PStr reason) Hr)).
  cbn [Py.truthy negb bind Py.getitem]. rewrite Hc. cbn [bind Py.getitem]. rewrite Hr.
  cbn [bind]. rewrite (collect_reasons_join attempts reasons Hrest reason Hne). reflexivity.
Qed.

Lemma split_last_clean (sep : ascii) (s : string) :
  Text.has_char sep (Text.split_last sep s) = false.
Proof.
  unfold Text.split_last, Text.split.
  destruct (SplitFacts.split_aux_last sep s "" eq_refl) as [H _]. exact H.
Qed.

Lemma container_of_job (r jobs job : pyval) :
  Py.getitem r "jobs" = Ok jobs ->
  Py.index jobs 0 = Ok job ->
  container_of r = Py.getitem job "container".
Proof. intros H1 H2. unfold container_of. rewrite H1. cbn [bind]. rewrite H2. reflexivity. Qed.

Lemma attempts_of_job (r jobs job attempts : pyval) :
  Py.getitem r "jobs" = Ok jobs ->
  Py.index jobs 0 = Ok job ->
  Py.getitem job "attempts" = Ok attempts ->
  attempts_of r = Py.iter attempts.
Proof.
  intros H1 H2 H3. unfold attempts_of. rewrite H1. cbn [bind]. rewrite H2. cbn [bind].
  rewrite H3. reflexivity.
Qed.

End RecordFacts.

Module DetailProperties.
Import JobDetails Details Kept.
Local Open Scope run_scope.

(** X7. The record of a job takes the vcpus and memory fields of the
    container whenever the container has them; when the text of the
    container does not contain the name of the field, it takes the values
    at index 0 and at index 1 of the requirements list. *)
Theorem record_resources (E : env) (id r : pyval) (rec : job_record)
    (container : list (string * pyval)) :
  parse_job E id r = Ok rec ->
  container_of r = Ok (PDict container) ->
  (forall v, Py.assoc "vcpus" container = Some v -> r_vcpus rec = v) /\
  (forall v, Py.assoc "memory" container = Some v -> r_memory rec = v) /\
  (Text.str_in "vcpus" (Py.str (PDict container)) = false ->
   positional (PDict container) 0 = Ok (r_vcpus rec)) /\
  (Text.str_in "memory" (Py.str (PDict container)) = false ->
   positional (PDict container) 1 = Ok (r_memory rec)).
Proof.
  intros H Hc. unfold parse_job in H. DetailFacts.binds H. injection H as <-.
  cbn [r_vcpus r_memory]. rewrite (RecordFacts.container_of_job r a a0 Ha Ha0), Ha9 in Hc.
  injection Hc as ->.
  repeat split.
  - intros v Hv.
    rewrite (JobDetailsFacts.resource_direct container "vcpus" 0 v eq_refl Hv) in Ha11.
    injection Ha11 as <-. reflexivity.
  - intros v Hv.
    rewrite (JobDetailsFacts.resource_direct container "memory" 1 v eq_refl Hv) in Ha12.
    injection Ha12 as <-. reflexivity.
  - intros Hno. rewrite <- Ha11. symmetry. apply JobDetailsFacts.resource_positional. exact Hno.
  - intros Hno. rewrite <- Ha12. symmetry. apply JobDetailsFacts.resource_positional. exact Hno.
Qed.

Lemma record_resources_witness :
  exists rec container,
    parse_job DetailSamples.detail_queue (PStr "j1")
      (Samples.described "j1" "GatherSampleEvidence" "SUCCEEDED"
         (Samples.container_direct DetailSamples.pipeline_image)
         [Samples.attempt "spot/ci-1" "spot/task-1"]) = Ok rec /\
    container_of
      (Samples.described "j1" "GatherSampleEvidence" "SUCCEEDED"
         (Samples.container_direct DetailSamples.pipeline_image)
         [Samples.attempt "spot/ci-1" "spot/task-1"]) = Ok (PDict container) /\
    (forall v, Py.assoc "vcpus" container = Some v -> r_vcpus rec = v) /\
    (forall v, Py.assoc "memory" container = Some v -> r_memory rec = v) /\
    (Text.str_in "vcpus" (Py.str (PDict container)) = false ->
     positional (PDict container) 0 = Ok (r_vcpus rec)) /\
    (Text.str_in "memory" (Py.str (PDict container)) = false ->
     positional (PDict container) 1 = Ok (r_memory rec)).
Proof.
  eexists. eexists. split; [reflexivity|]. split; [reflexivity|].
  apply (record_resources DetailSamples.detail_queue (PStr "j1")
           (Samples.described "j1" "GatherSampleEvidence" "SUCCEEDED"
              (Samples.container_direct DetailSamples.pipeline_image)
              [Samples.attempt "spot/ci-1" "spot/task-1"])); reflexivity.
Defined.

(** X8. The record of a RUNNING job has exactly one instance, and its
    instance and task ids are the endings of the two ARNs of the job's own
    container, whatever its attempts; the endings contain no slash. *)
Theorem running_job_record (E : env) (id r : pyval) (rec : job_record) :
  parse_job E id r = Ok rec ->
  Py.eq_str (r_job_status rec) "RUNNING" = true ->
  r_num_of_instances rec = 1 /\
  Text.has_char "/" (r_instance_arn_endings rec) = false /\
  Text.has_char "/" (r_task_id rec) = false /\
  exists container arn task_arn,
    container_of r = Ok container /\
    Py.getitem container "containerInstanceArn" = Ok (PStr arn) /\
    Py.getitem container "taskArn" = Ok (PStr task_arn) /\
    r_instance_arn_endings rec = Text.split_last "/" arn /\
    r_task_id rec = Text.split_last "/" task_arn.
Proof.
  intros H Hrun. unfold parse_job in H. DetailFacts.binds H. injection H as <-.
  cbn [r_job_status r_num_of_instances r_instance_arn_endings r_task_id] in *.
  rewrite Hrun in Ha2. DetailFacts.binds Ha2. injection Ha2 as <-.
  cbn [fst snd List.length Text.join String.concat].
  destruct a15 as [| | |arn| |]; try discriminate. injection Ha16 as <-.
  destruct a17 as [| | |task_arn| |]; try discriminate. injection Ha18 as <-.
  split; [reflexivity|].
  split; [apply RecordFacts.split_last_clean|].
  split; [apply RecordFacts.split_last_clean|].
  exists a14, arn, task_arn. rewrite (RecordFacts.container_of_job r a a0 Ha Ha0).
  repeat split; assumption.
Qed.

Lemma running_job_record_witness :
  exists rec,
    parse_job DetailSamples.detail_queue (PStr "j7") running_job = Ok rec /\
    Py.eq_str (r_job_status rec) "RUNNING" = true /\
    r_num_of_instances rec = 1 /\
    r_instance_arn_endings rec = "ci-7"%string /\
    r_task_id rec = "task-70"%string.
Proof.
  eexists. split; [reflexivity|]. split; [reflexivity|].
  destruct (running_job_record DetailSamples.detail_queue (PStr "j7") running_job _
              eq_refl eq_refl) as (H1 & _ & _ & _).
  split; [exact H1|]. split; reflexivity.
Defined.

(** X9. When every attempt of a job gives a reason in its container, the
    reasons of the record are these reasons, in the order of the attempts,
    joined with bars; a job without attempts has no reasons. *)
Theorem record_reasons_are_joined (E : env) (id r : pyval) (rec : job_record)
    (attempts : list pyval) (reasons : list string) :
  parse_job E id r = Ok rec ->
  attempts_of r = Ok attempts ->
  Forall2 attempt_with_reason attempts reasons ->
  r_reasons rec = joined reasons.
Proof.
  intros H Hatt Hall. unfold parse_job in H. DetailFacts.binds H. injection H as <-.
  cbn [r_reasons]. rewrite (RecordFacts.attempts_of_job r a a0 a3 Ha Ha0 Ha3), Ha4 in Hatt.
  injection Hatt as ->.
  rewrite (RecordFacts.collect_reasons_all attempts reasons Hall) in Ha5.
  injection Ha5 as <-. reflexivity.
Qed.

Lemma record_reasons_are_joined_witness :
  exists rec,
    parse_job DetailSamples.detail_queue (PStr "j8") failed_job = Ok rec /\
    r_reasons rec =
      PStr "OutOfMemoryError: Container killed|Host EC2 (instance i-0abc) terminated.".
Proof.
  eexists. split; [reflexivity|].
  apply (record_reasons_are_joined DetailSamples.detail_queue (PStr "j8") failed_job _
           [failed_attempt "spot/ci-5" "spot/task-51" "OutOfMemoryError: Container killed";
            failed_attempt "spot/ci-6" "spot/task-52" "Host EC2 (instance i-0abc) terminated."]
           ["OutOfMemoryError: Container killed"; "Host EC2 (instance i-0abc) terminated."]%string).
  - reflexivity.
  - reflexivity.
  - repeat first [ apply Forall2_nil | apply Forall2_cons ];
      (eexists; eexists; split; [reflexivity|]; split; [reflexivity|];
       split; [reflexivity | discriminate]).
Defined.

(** X10. When the fetch of the first job returns and at least one job can
    be read, [get_job_details] returns a table with exactly one row for
    each job that can be read, in the order of the list, after one call of
    [describe_jobs] per job and one warning per job left out. *)
Theorem readable_jobs_are_kept (E : env) (first : pyval) (others : list pyval)
    (r0 : pyval) (tr : list event) :
  describe_jobs E first = Ok r0 ->
  existsb (job_ok E) (first :: others) = true ->
  exists rows evs,
    get_job_details E (first :: others) tr = (Finished (Ok rows), tr ++ evs) /\
    map job_id rows = filter (job_ok E) (first :: others) /\
    List.length (filter is_describe evs) = List.length (first :: others) /\
    List.length (filter is_warning evs) =
      List.length (filter (job_fails E) (first :: others)).
Proof.
  intros Hfirst Hsome.
  assert (Hloop : exists records evs,
             for_jobs E (first :: others) [] None tr = (Finished (Ok records), tr ++ evs) /\
             map r_job_id records = filter (job_ok E) (first :: others) /\
             List.length (filter is_describe evs) = List.length (first :: others) /\
             List.length (filter is_warning evs) =
               List.length (filter (job_fails E) (first :: others))).
  { cbn [for_jobs filter]. unfold bind_run at 1. unfold emit at 1.
    rewrite (DetailFacts.job_ok_fails E first), Hfirst.
    destruct (parse_job E first r0) as [rec|e] eqn:Hp;
      [ assert (Hok : job_ok E first = true)
          by (unfold job_ok, job_fails; rewrite Hfirst, Hp; reflexivity)
      | assert (Hok : job_ok E first = false)
          by (unfold job_ok, job_fails; rewrite Hfirst, Hp; reflexivity) ];
      rewrite Hok.
    - change ([] ++ [rec]) with [rec].
      destruct (DetailFacts.for_jobs_spec E others [rec] r0 (tr ++ [DescribeJobs first]))
        as (records & evs & -> & Hids & Hd & Hw).
      exists (rec :: records), (DescribeJobs first :: evs). cbn [negb].
      rewrite <- !app_assoc. cbn [app map filter is_describe is_warning List.length].
      rewrite (DetailFacts.parse_job_id E first r0 rec Hp), Hids, Hd, Hw. repeat split.
    - unfold bind_run at 1. cbn [handler]. unfold emit at 1.
      destruct (DetailFacts.for_jobs_spec E others [] r0
                  ((tr ++ [DescribeJobs first]) ++ [warning first r0]))
        as (records & evs & Hrun & Hids & Hd & Hw).
      unfold warning in Hrun. rewrite Hrun.
      exists records, (DescribeJobs first :: warning first r0 :: evs). cbn [negb].
      rewrite <- !app_assoc. cbn [app filter is_describe is_warning warning List.length].
      rewrite Hids, Hd, Hw. repeat split. }
  destruct Hloop as (records & evs & Hrun & Hids & Hd & Hw).
  exists (map to_row records), evs.
  unfold get_job_details. unfold bind_run at 1. rewrite Hrun. unfold lift.
  assert (Hne : records <> []).
  { intros ->. cbn [map] in Hids. apply existsb_exists in Hsome as (x & Hx & Hok).
    assert (Hin : In x (filter (job_ok E) (first :: others))) by (apply filter_In; auto).
    rewrite <- Hids in Hin. destruct Hin. }
  unfold data_frame. destruct records as [|rec records]; [contradiction|].
  rewrite map_map. cbn [job_id to_row] in *. repeat split; assumption.
Qed.

Lemma readable_jobs_are_kept_witness :
  exists rows evs,
    get_job_details DetailSamples.detail_queue [PStr "j1"; PStr "j0"; PStr "gone"; PStr "j3"] [] =
      (Finished (Ok rows), [] ++ evs) /\
    map job_id rows =
      filter (job_ok DetailSamples.detail_queue) [PStr "j1"; PStr "j0"; PStr "gone"; PStr "j3"] /\
    List.length (filter is_describe evs) = 4%nat /\
    List.length (filter is_warning evs) =
      List.length (filter (job_fails DetailSamples.detail_queue)
                     [PStr "j1"; PStr "j0"; PStr "gone"; PStr "j3"]).
Proof.
  apply (readable_jobs_are_kept DetailSamples.detail_queue (PStr "j1")
           [PStr "j0"; PStr "gone"; PStr "j3"]
           (Samples.described "j1" "GatherSampleEvidence" "SUCCEEDED"
              (Samples.container_direct DetailSamples.pipeline_image)
              [Samples.attempt "spot/ci-1" "spot/task-1"]) []).
  - reflexivity.
  - reflexivity.
Defined.

Lemma get_job_details_events (E : env) (ids : list pyval) (tr : list event) :
  snd (get_job_details E ids tr) = snd (for_jobs E ids [] None tr).
Proof.
  unfold get_job_details, bind_run, lift.
  destruct (for_jobs E ids [] None tr) as [[[l|e]|] tr']; reflexivity.
Qed.

Lemma for_jobs_grows (E : env) (ids : list pyval) final response (tr : list event) :
  exists evs, snd (for_jobs E ids final response tr) = tr ++ evs.
Proof.
  destruct (CsvFacts.csv_free_for_jobs E ids final response tr) as (evs & H & _). eauto.
Qed.

(** X11. The warning of a job whose fetch raised shows the response of the
    job fetched before it: when the fetch of the first job returns and
    the fetch of the second raises, the warning logged for the second job
    carries the response of the first. *)
Theorem failed_fetch_warning_shows_earlier_response (E : env) (a b : pyval)
    (rest : list pyval) (ra : pyval) (e : exn) (tr : list event) :
  describe_jobs E a = Ok ra ->
  describe_jobs E b = Raise e ->
  In (warning b ra) (snd (get_job_details E (a :: b :: rest) tr)).
Proof.
  intros Ha Hb. rewrite get_job_details_events.
  assert (Hstep : forall final tr1,
             In (warning b ra) (snd (for_jobs E (b :: rest) final (Some ra) tr1))).
  { intros final tr1. cbn [for_jobs]. unfold bind_run at 1. unfold emit at 1. rewrite Hb.
    unfold bind_run at 1. cbn [handler]. unfold emit at 1.
    destruct (for_jobs_grows E rest final (Some ra)
                ((tr1 ++ [DescribeJobs b]) ++ [warning b ra])) as (evs & Hg).
    unfold warning in Hg |- *. rewrite Hg. rewrite !in_app_iff. left. right. left. reflexivity. }
  cbn [for_jobs]. unfold bind_run at 1. unfold emit at 1. rewrite Ha.
  destruct (parse_job E a ra) as [rec|e']; [apply Hstep|].
  unfold bind_run at 1. cbn [handler]. unfold emit at 1. apply Hstep.
Qed.

Lemma failed_fetch_warning_shows_earlier_response_witness :
  In (warning (PStr "j0")
        (Samples.described "j1" "GatherSampleEvidence" "SUCCEEDED"
           (Samples.container_direct DetailSamples.pipeline_image)
           [Samples.attempt "spot/ci-1" "spot/task-1"]))
     (snd (get_job_details DetailSamples.detail_queue [PStr "j1"; PStr "j0"; PStr "j3"] [])).
Proof.
  apply (failed_fetch_warning_shows_earlier_response DetailSamples.detail_queue
           (PStr "j1") (PStr "j0") [PStr "j3"] _ (ClientError "TooManyRequestsException")).
  - reflexivity.
  - reflexivity.
Defined.

End DetailProperties.

(** ** The windows that are queried *)

Module WindowFacts.
Import Usage Windows Intervals.

Lemma events_bind {A B} (m : acc A) (k : A -> acc B) :
  (forall a, framed (k a)) ->
  events_of (abind m k [] []) =
    events_of (m [] []) ++
    match outcome_of (m [] []) with
    | Finished (Ok a) => events_of (k a [] [])
    | _ => []
    end.
Proof.
  intros Hk. unfold abind. destruct (m [] []) as [[o recs] evs].
  destruct o as [[a|e]|]; cbn [events_of outcome_of fst snd].
  - rewrite (Hk a recs evs). reflexivity.
  - rewrite app_nil_r. reflexivity.
  - rewrite app_nil_r. reflexivity.
Qed.

(** The only call of [start_query] of a window is the one for the window. *)
Lemma window_queries (E : env) (fuel i : nat) :
  filter is_start_query (events_of (window_run E fuel i)) = [query_of E i].
Proof.
  pose proof (UsageFacts.framed_poll E) as Hpoll.
  pose proof (UsageFacts.framed_for_records E) as Hrecords.
  unfold window_run, window.
  rewrite events_bind by (intros _; UsageFacts.framed).
  rewrite filter_app. cbn [aemit events_of outcome_of fst snd filter is_start_query app].
  pose proof (UsageFacts.quiet_after_start is_start_query (fun _ => eq_refl)
                (fun _ => eq_refl) (fun _ _ _ => eq_refl) E fuel
                (start_query E (cloudwatch_log_group_name E) (window_start E i) (window_end E i)))
    as Hq.
  unfold quiet in Hq. rewrite Hq. reflexivity.
Qed.

Lemma windows_queries (E : env) (fuel : nat) :
  forall rounds i,
    exists n,
      filter is_start_query
        (events_of (windows E rounds fuel (window_start E i) (window_end E i) [] [])) =
        map (query_of E) (seq i n) /\
      (forall j, (i <= j < i + n)%nat -> window_end E j < current_epoch_time E).
Proof.
  induction rounds as [|rounds IH]; intros i; cbn [windows];
    destruct (window_end E i <? current_epoch_time E) eqn:Hlt;
    try (exists 0%nat; split; [reflexivity | intros j Hj; lia]).
  apply Z.ltb_lt in Hlt.
  rewrite events_bind by (intros _; apply UsageFacts.framed_windows).
  fold (window_run E fuel i). rewrite filter_app, window_queries.
  destruct (outcome_of (window_run E fuel i)) as [[[]|e]|].
  - rewrite UsageFacts.window_end_next. change (window_end E i) with (window_start E (S i)).
    destruct (IH (S i)) as (n & Hq & Hpast). exists (S n). split.
    + rewrite Hq. reflexivity.
    + intros j Hj. destruct (Nat.eq_dec j i) as [->|Hne]; [exact Hlt | apply Hpast; lia].
  - exists 1%nat. split; [reflexivity|].
    intros j Hj. replace j with i by lia. exact Hlt.
  - exists 1%nat. split; [reflexivity|].
    intros j Hj. replace j with i by lia. exact Hlt.
Qed.

(** The closing statements start no query. *)
Lemma finish_events (E : env) (out : list usage_record) (tr : list event) :
  exists evs, snd (finish E out tr) = tr ++ evs /\ filter is_logs_call evs = [].
Proof.
  unfold finish. destruct out as [|r out].
  - exists [count_log []]. split; reflexivity.
  - unfold bind_run at 1. unfold bind_run at 1. unfold lift at 1.
    destruct (groupby_mean (r :: out)) as [rows|e].
    + exists [usage_csv E rows; count_log rows].
      unfold bind_run, emit, ret. cbn [snd]. rewrite <- app_assoc. split; reflexivity.
    + exists []. rewrite app_nil_r. split; reflexivity.
Qed.

(** No window is due: the loop is not entered. *)
Lemma no_window_run (E : env) (fuel : nat) (tr : list event) :
  current_epoch_time E <= batch_start_epoch E + cloudwatch_query_interval E ->
  get_resource_usage E fuel tr = (Finished (Ok []), tr ++ intro_logs E ++ [count_log []]).
Proof.
  intros H. rewrite UsageRunFacts.get_resource_usage_run.
  rewrite <- UsageFacts.window_end_0 in H. apply Z.ltb_ge in H.
  destruct fuel; cbn [windows]; rewrite H; unfold aret, finish, bind_run, ret, emit;
    rewrite <- app_assoc; reflexivity.
Qed.

End WindowFacts.

Module WindowProperties.
Import Usage Windows Intervals.

(** X12. When the batch started less than one query interval ago, or
    exactly one, [get_resource_usage] starts no query and writes no file:
    it logs its three messages and returns the empty table. *)
Theorem no_window_due_queries_nothing (E : env) (fuel : nat) (tr : list event) :
  current_epoch_time E <= batch_start_epoch E + cloudwatch_query_interval E ->
  get_resource_usage E fuel tr = (Finished (Ok []), tr ++ intro_logs E ++ [count_log []]).
Proof. apply WindowFacts.no_window_run. Qed.

Lemma no_window_due_queries_nothing_witness :
  get_resource_usage recent_logs 0 [] =
    (Finished (Ok []), [] ++ intro_logs recent_logs ++ [count_log []]).
Proof.
  apply (no_window_due_queries_nothing recent_logs 0 []). vm_compute. discriminate.
Defined.

(** X13. The queries that [get_resource_usage] starts are those of the
    first windows, in order: the first window starts at the start of the
    batch, each one is one interval long and starts where the one before
    ends, and each one ends before the time at which the script runs; so
    the time after the last full interval is never queried. *)
Theorem queries_cover_past_windows (E : env) (fuel : nat) (tr : list event) :
  exists n evs,
    snd (get_resource_usage E fuel tr) = tr ++ evs /\
    filter is_start_query evs = map (query_of E) (seq 0 n) /\
    (forall i, (i < n)%nat -> window_end E i < current_epoch_time E).
Proof.
  destruct (WindowFacts.windows_queries E fuel fuel 0) as (n & Hq & Hpast).
  exists n. rewrite UsageRunFacts.get_resource_usage_run.
  rewrite (UsageFacts.framed_windows E fuel fuel (window_start E 0) (window_end E 0)
             [] (tr ++ intro_logs E)).
  destruct (windows E fuel fuel (window_start E 0) (window_end E 0) [] []) as [[o out] evs].
  cbn [events_of outcome_of records_of fst snd app] in Hq |- *.
  assert (Hstart : forall evs', filter is_logs_call evs' = [] ->
                                filter is_start_query evs' = []).
  { induction evs' as [|e evs' IH]; [reflexivity|]. cbn [filter].
    destruct e; cbn [is_logs_call is_start_query]; try discriminate; exact IH. }
  assert (Hfin : forall tr1, exists evs',
               snd (finish E out tr1) = tr1 ++ evs' /\ filter is_start_query evs' = []).
  { intros tr1. destruct (WindowFacts.finish_events E out tr1) as (evs' & H1 & H2).
    exists evs'. split; [exact H1 | apply Hstart; exact H2]. }
  destruct o as [[[]|e]|].
  - destruct (Hfin ((tr ++ intro_logs E) ++ evs)) as (evs' & -> & Hq').
    exists (intro_logs E ++ evs ++ evs'). rewrite <- !app_assoc. split; [reflexivity|].
    split; [|intros i Hi; apply Hpast; lia].
    rewrite !filter_app, Hq, Hq', app_nil_r. reflexivity.
  - destruct (Hfin (((tr ++ intro_logs E) ++ evs) ++ [error_log])) as (evs' & -> & Hq').
    exists (intro_logs E ++ evs ++ [error_log] ++ evs'). rewrite <- !app_assoc.
    split; [reflexivity|]. split; [|intros i Hi; apply Hpast; lia].
    rewrite !filter_app, Hq, Hq', app_nil_r. reflexivity.
  - exists (intro_logs E ++ evs). rewrite <- !app_assoc. split; [reflexivity|].
    split; [|intros i Hi; apply Hpast; lia].
    rewrite !filter_app, Hq. reflexivity.
Qed.

(** X14. With a query interval of zero or less, and a batch that started
    before the time at which the script runs, [get_resource_usage] never
    returns as long as its queries succeed: the end of the window never
    reaches the current time, and each round of the loop starts one more
    query. *)
Theorem nonpositive_interval_never_returns (E : env) (fuel : nat) (tr : list event) :
  cloudwatch_query_interval E <= 0 ->
  batch_start_epoch E + cloudwatch_query_interval E < current_epoch_time E ->
  (forall j, outcome_of (window_run E fuel j) = Finished (Ok tt)) ->
  fst (get_resource_usage E fuel tr) = Diverge /\
  exists evs,
    snd (get_resource_usage E fuel tr) = tr ++ evs /\
    List.length (filter is_start_query evs) = fuel.
Proof.
  intros Hle Hlt Hok.
  assert (Hpast : forall j, window_end E j < current_epoch_time E).
  { intros j. unfold window_end, window_start. nia. }
  rewrite UsageRunFacts.get_resource_usage_run.
  rewrite (UsageFacts.windows_run_through E fuel fuel 0 fuel [] (tr ++ intro_logs E)
             (Nat.le_refl fuel))
    by (intros j _; split; [apply Hpast | apply Hok]).
  rewrite Nat.sub_diag. cbn [windows]. rewrite (proj2 (Z.ltb_lt _ _) (Hpast (0 + fuel)%nat)).
  cbn [adiverge fst snd]. split; [reflexivity|].
  exists (intro_logs E ++ events_upto E fuel fuel). rewrite <- app_assoc.
  split; [reflexivity|].
  rewrite filter_app, length_app, UsageFacts.start_queries_upto. reflexivity.
Qed.

Lemma nonpositive_interval_never_returns_witness :
  fst (get_resource_usage zero_interval_logs 2 []) = Diverge /\
  exists evs,
    snd (get_resource_usage zero_interval_logs 2 []) = [] ++ evs /\
    List.length (filter is_start_query evs) = 2%nat.
Proof.
  apply (nonpositive_interval_never_returns zero_interval_logs 2 []).
  - vm_compute. discriminate.
  - reflexivity.
  - intros j. unfold window_run, window_end, window_start.
    change (cloudwatch_query_interval zero_interval_logs) with 0.
    rewrite !Z.mul_0_r. reflexivity.
Defined.

End WindowProperties.

(** ** The summaries *)

Module SummaryProperties.
Import Summaries Tables Mapped.
Local Open Scope run_scope.




(** X16. The duration of the high-level summary is a time of day: hours
    below 24, minutes and seconds below 60, of the whole seconds between
    start and stop modulo one day; so a module that took [days] whole days
    longer shows the same duration. *)
Theorem highlevel_duration_is_time_of_day (a b days : Z) :
  clock (Some a) (Some (b + days * 86400000)) = clock (Some a) (Some b) /\
  exists h m s,
    0 <= h < 24 /\ 0 <= m < 60 /\ 0 <= s < 60 /\
    ((b - a) / 1000) mod 86400 = 3600 * h + 60 * m + s /\
    clock (Some a) (Some b) = Some (Text.join ":" [two_digits h; two_digits m; two_digits s]).
Proof.
  split.
  - unfold clock.
    replace (b + days * 86400000 - a) with ((b - a) + (days * 86400) * 1000) by lia.
    rewrite Z.div_add by lia. rewrite Z.mod_add by lia. reflexivity.
  - unfold clock. set (seconds := ((b - a) / 1000) mod 86400).
    assert (Hs : 0 <= seconds < 86400) by (apply Z.mod_pos_bound; lia).
    exists (seconds / 3600), ((seconds mod 3600) / 60), (seconds mod 60).
    pose proof (Z.mod_pos_bound seconds 3600 ltac:(lia)) as H1.
    pose proof (Z.mod_pos_bound seconds 60 ltac:(lia)) as H2.
    pose proof (Z.div_mod seconds 3600 ltac:(lia)) as H3.
    pose proof (Z.div_mod (seconds mod 3600) 60 ltac:(lia)) as H4.
    assert (H5 : (seconds mod 3600) mod 60 = seconds mod 60).
    { apply Z.mod_mod_divide. exists 60. reflexivity. }
    repeat split; try reflexivity.
    + apply Z.div_pos; lia.
    + apply Z.div_lt_upper_bound; lia.
    + apply Z.div_pos; lia.
    + apply Z.div_lt_upper_bound; lia.
    + lia.
    + lia.
    + lia.
Qed.

(** X25. When the stop of a succeeded job is further from its start than
    a difference of two times in nanoseconds can hold in 64 bits, the
    summaries raise [OverflowError] after their first log line and write
    nothing. *)
Theorem far_apart_times_overflow (E : env) (job_details_df : list job_row) (r : job_row)
    (a b : Z) (tr : list event) :
  In r job_details_df ->
  has_status "SUCCEEDED" r = true ->
  started_at r = Some a ->
  stopped_at r = Some b ->
  9223372036854775807 < Z.abs (b - a) * 1000000 ->
  get_summaries E job_details_df tr =
    (Finished (Raise OverflowError),
     tr ++ [Log INFO "Considering only Successful Jobs" []]).
Proof.
  intros Hin Hs Ha Hb Hfar. unfold get_summaries, bind_run, emit, lift. cbn [fst snd].
  rewrite (SummaryFacts.with_durations_overflow (succeeded job_details_df) r).
  - reflexivity.
  - rewrite SummaryFacts.succeeded_has_status. apply filter_In. split; assumption.
  - rewrite Ha, Hb. unfold timedelta.
    destruct (Z.abs ((b - a) * 1000000) <=? int64_max) eqn:Hle; [|reflexivity].
    apply Z.leb_le in Hle. unfold int64_max in Hle. rewrite Z.abs_mul in Hle.
    change (Z.abs 1000000) with 1000000 in Hle. lia.
Qed.

Lemma far_apart_times_overflow_witness :
  get_summaries reporting
    [job "a1" "CollectCounts" "SUCCEEDED" 1648036100000 1648039700000;
     job "a2" "Manta" "SUCCEEDED" (-5000000000000) 5000000000000] [] =
    (Finished (Raise OverflowError),
     [] ++ [Log INFO "Considering only Successful Jobs" []]).
Proof.
  apply (far_apart_times_overflow reporting _
           (job "a2" "Manta" "SUCCEEDED" (-5000000000000) 5000000000000)
           (-5000000000000) 5000000000000).
  - right. left. reflexivity.
  - reflexivity.
  - reflexivity.
  - reflexivity.
  - reflexivity.
Defined.

End SummaryProperties.

(** ** Whole runs *)

Module RunFacts.
Import Runs.
Local Open Scope run_scope.

Section Avoid.
Context (P : event -> bool).
Hypothesis P_log : forall l f a, P (Log l f a) = false.
Hypothesis P_print : forall t, P (PrintTable t) = false.
Hypothesis P_list : forall s t, P (ListJobs s t) = false.
Hypothesis P_describe : forall j, P (DescribeJobs j) = false.

Lemma avoids_ret {A} (a : A) : avoids P (ret a).
Proof. intros tr. exists []. rewrite app_nil_r. split; reflexivity. Qed.

Lemma avoids_lift {A} (r : result A) : avoids P (lift r).
Proof. intros tr. exists []. rewrite app_nil_r. split; reflexivity. Qed.

Lemma avoids_diverge {A} : avoids P (@diverge A).
Proof. intros tr. exists []. rewrite app_nil_r. split; reflexivity. Qed.

Lemma avoids_emit (e : event) : P e = false -> avoids P (emit e).
Proof. intros H tr. exists [e]. split; [reflexivity|]. cbn. rewrite H. reflexivity. Qed.

Lemma avoids_bind {A B} (m : run A) (k : A -> run B) :
  avoids P m -> (forall a, avoids P (k a)) -> avoids P (bind_run m k).
Proof.
  intros Hm Hk tr. unfold bind_run. destruct (Hm tr) as (evs & Hevs & Hnone).
  destruct (m tr) as [o tr']. cbn [snd] in Hevs. subst tr'.
  destruct o as [[a|e]|]; try (exists evs; split; [reflexivity|assumption]).
  destruct (Hk a (tr ++ evs)) as (evs' & -> & Hnone').
  exists (evs ++ evs'). rewrite app_assoc, filter_app, Hnone, Hnone'. split; reflexivity.
Qed.

Ltac avoids :=
  repeat first
    [ solve [auto]
    | apply avoids_ret | apply avoids_lift | apply avoids_diverge
    | apply avoids_emit; first [apply P_log | apply P_print | apply P_list | apply P_describe]
    | apply avoids_bind; [|intros ?]
    | match goal with |- avoids P (if ?b then _ else _) => destruct b end
    | match goal with |- avoids P (match ?x with _ => _ end) => destruct x end ].

Lemma avoids_paginate (E : env) (job_status : string) :
  forall fuel nextToken temp, avoids P (JobIds.paginate E fuel job_status nextToken temp).
Proof.
  induction fuel as [|fuel IH]; intros nextToken temp; cbn [JobIds.paginate]; avoids.
Qed.

Lemma avoids_for_statuses (E : env) (fuel : nat) :
  forall statuses ids, avoids P (JobIds.for_statuses E fuel statuses ids).
Proof.
  pose proof (avoids_paginate E) as Hp.
  induction statuses as [|s statuses IH]; intros ids; cbn [JobIds.for_statuses];
    [apply avoids_ret|].
  apply avoids_bind; [|intros ?; apply IH].
  unfold JobIds.ids_of_status. avoids.
Qed.

Lemma avoids_get_batch_job_id_list (E : env) (fuel : nat) :
  avoids P (JobIds.get_batch_job_id_list E fuel).
Proof.
  pose proof (avoids_for_statuses E fuel) as Hs.
  unfold JobIds.get_batch_job_id_list. avoids.
Qed.

Lemma avoids_for_jobs (E : env) :
  forall ids final response, avoids P (JobDetails.for_jobs E ids final response).
Proof.
  induction ids as [|id ids IH]; intros final response; cbn [JobDetails.for_jobs];
    [apply avoids_ret|].
  apply avoids_bind; [apply avoids_emit; apply P_describe | intros _].
  destruct (describe_jobs E id) as [r|e].
  - destruct (JobDetails.parse_job E id r); [apply IH|].
    apply avoids_bind; [|intros _; apply IH].
    cbn [JobDetails.handler]. apply avoids_emit. apply P_log.
  - apply avoids_bind; [|intros _; apply IH].
    destruct response; cbn [JobDetails.handler]; avoids.
Qed.

Lemma avoids_get_job_details (E : env) (ids : list pyval) :
  avoids P (JobDetails.get_job_details E ids).
Proof.
  pose proof (avoids_for_jobs E) as Hj.
  unfold JobDetails.get_job_details. avoids.
Qed.

Hypothesis P_csv : forall p t, P (ToCsv p t) = false.

Lemma avoids_report (E : env) (output_df : option table) : avoids P (Main.report E output_df).
Proof.
  destruct output_df as [t|]; cbn [Main.report]; [|apply avoids_lift].
  unfold Summaries.get_summaries, Summaries.summarise.
  repeat first
    [ apply avoids_ret
    | apply avoids_lift
    | apply avoids_emit; first [apply P_log | apply P_csv]
    | apply avoids_bind; [|intros ?] ].
Qed.

End Avoid.

End RunFacts.

Module MergeFacts.
Import Main Runs.

Lemma merge_usage_rows (usage : list usage_row) (r : job_row) :
  map fst (merge_usage usage r) = repeat r (Nat.max 1 (usage_rows_of usage r)).
Proof.
  unfold merge_usage, usage_rows_of.
  destruct (filter _ usage) as [|u matches]; [reflexivity|].
  rewrite map_map. cbn [fst].
  replace (Nat.max 1 (List.length (u :: matches))) with (List.length (u :: matches))
    by (cbn [List.length]; lia).
  generalize (u :: matches) as l.
  induction l as [|x l IH]; [reflexivity|]. cbn [map List.length repeat]. rewrite IH.
  reflexivity.
Qed.

Lemma bar_in_join (a b : string) (rest : list string) :
  Text.has_char "|" (Text.join "|" (a :: b :: rest)) = true.
Proof.
  unfold Text.join. cbn [String.concat].
  rewrite SplitFacts.has_char_app.
  replace (Text.has_char "|" ("|" ++ String.concat "|" (b :: rest))%string) with true
    by reflexivity.
  apply orb_true_r.
Qed.

End MergeFacts.

Module RunProperties.
Import Main Runs Tables Listing Windows Intervals.
Local Open Scope run_scope.

(** X17. When the queue holds no job created after the start of the batch,
    [main] ends after the listing: it describes no job, queries no log,
    writes no file and raises nothing. *)
Theorem no_new_job_ends_quietly (E : env) (Q : snapshot) (fuel : nat) (tr : list event) :
  describes E Q ->
  (longest Q <= S fuel)%nat ->
  listed_ids E Q = [] ->
  main E fuel tr = (Finished (Ok tt), tr ++ listing_events E Q).
Proof.
  intros Hd Hf Hnone. unfold main, bind_run.
  rewrite (JobIdsFacts.get_batch_job_id_list_spec E Q fuel tr Hd Hf), Hnone. reflexivity.
Qed.

Lemma no_new_job_ends_quietly_witness :
  main old_queue 1 [] = (Finished (Ok tt), [] ++ listing_events old_queue old_snapshot).
Proof.
  apply (no_new_job_ends_quietly old_queue old_snapshot 1 []).
  - repeat first
      [ reflexivity | apply Forall_nil | apply Forall_cons | split | eexists
      | intros entries Hcall Hnone; injection Hcall as <-;
        first [discriminate Hnone | reflexivity] ].
  - unfold longest. simpl. lia.
  - reflexivity.
Defined.

(** X18. Without a log group, [main] makes no call of the CloudWatch Logs
    client and never waits, however the listing and the description of
    the jobs go. *)
Theorem without_log_group_no_logs_call (E : env) (fuel : nat) (tr : list event) :
  log_group_given E = false ->
  exists evs, snd (main E fuel tr) = tr ++ evs /\ filter is_logs_call evs = [].
Proof.
  intros H. revert tr. change (avoids is_logs_call (main E fuel)). unfold main.
  apply RunFacts.avoids_bind;
    [apply RunFacts.avoids_get_batch_job_id_list; intros; reflexivity | intros ids].
  destruct ids as [|id ids]; [apply RunFacts.avoids_ret|].
  apply RunFacts.avoids_bind;
    [apply RunFacts.avoids_get_job_details; intros; reflexivity | intros rows].
  apply RunFacts.avoids_bind; [apply RunFacts.avoids_emit; reflexivity | intros _].
  rewrite H, andb_false_r.
  apply RunFacts.avoids_bind; [apply RunFacts.avoids_ret | intros output_df].
  apply RunFacts.avoids_report; intros; reflexivity.
Qed.

Lemma without_log_group_no_logs_call_witness :
  exists evs,
    snd (main UsageSamples.one_job_queue 3 []) = [] ++ evs /\ filter is_logs_call evs = [].
Proof.
  apply (without_log_group_no_logs_call UsageSamples.one_job_queue 3 []). reflexivity.
Defined.

(** X19. When the listing of the job ids raises, or the description of the
    jobs raises, [main] raises the same exception and has written no
    file. *)
Theorem failure_before_report_writes_nothing (E : env) (fuel : nat) (tr : list event)
    (e : exn) :
  fst (JobIds.get_batch_job_id_list E fuel tr) = Finished (Raise e) \/
  (exists ids tr1,
      JobIds.get_batch_job_id_list E fuel tr = (Finished (Ok ids), tr1) /\
      ids <> [] /\
      fst (JobDetails.get_job_details E ids tr1) = Finished (Raise e)) ->
  fst (main E fuel tr) = Finished (Raise e) /\
  exists evs, snd (main E fuel tr) = tr ++ evs /\ filter is_csv evs = [].
Proof.
  intros H.
  destruct (CsvFacts.csv_free_get_batch_job_id_list E fuel tr) as (evs1 & H1 & Hn1).
  destruct (JobIds.get_batch_job_id_list E fuel tr) as [o tr1] eqn:Hids.
  cbn [fst snd] in H, H1. subst tr1.
  destruct H as [->|(ids & tr1 & Heq & Hne & Hraise)].
  - assert (Hmain : main E fuel tr = (Finished (Raise e), tr ++ evs1))
      by (unfold main; unfold bind_run at 1; rewrite Hids; reflexivity).
    rewrite Hmain. split; [reflexivity|]. exists evs1. split; [reflexivity | exact Hn1].
  - injection Heq as -> <-. destruct ids as [|id ids]; [contradiction|].
    destruct (CsvFacts.csv_free_get_job_details E (id :: ids) (tr ++ evs1))
      as (evs2 & H2 & Hn2).
    destruct (JobDetails.get_job_details E (id :: ids) (tr ++ evs1)) as [o tr2] eqn:Hdetails.
    cbn [fst snd] in Hraise, H2. subst o tr2.
    assert (Hmain : main E fuel tr = (Finished (Raise e), (tr ++ evs1) ++ evs2))
      by (unfold main; unfold bind_run at 1; rewrite Hids; unfold bind_run at 1;
          rewrite Hdetails; reflexivity).
    rewrite Hmain. split; [reflexivity|].
    exists (evs1 ++ evs2). rewrite app_assoc, filter_app, Hn1, Hn2. split; reflexivity.
Qed.

Lemma failure_before_report_writes_nothing_witness :
  fst (main BrokenListing.throttled_queue 2 []) =
    Finished (Raise (ClientError "TooManyRequestsException")) /\
  exists evs,
    snd (main BrokenListing.throttled_queue 2 []) = [] ++ evs /\ filter is_csv evs = [].
Proof.
  apply (failure_before_report_writes_nothing BrokenListing.throttled_queue 2 []).
  left. reflexivity.
Defined.

(** X20. With a log group, a run made within one query interval of the
    start of the batch always ends in the UnboundLocalError of
    [output_df]: the jobs are listed, described and printed, no query is
    started, and no file is written. *)
Theorem recent_batch_with_log_group_raises (E : env) (fuel : nat) (tr tr1 tr2 : list event)
    (job_id_list : list pyval) (batch_job_details_df : list job_row) :
  JobIds.get_batch_job_id_list E fuel tr = (Finished (Ok job_id_list), tr1) ->
  job_id_list <> [] ->
  JobDetails.get_job_details E job_id_list tr1 = (Finished (Ok batch_job_details_df), tr2) ->
  batch_job_details_df <> [] ->
  log_group_given E = true ->
  current_epoch_time E <= batch_start_epoch E + cloudwatch_query_interval E ->
  main E fuel tr =
    (Finished (Raise (UnboundLocalError "output_df")),
     tr2 ++ [PrintTable (JobTable batch_job_details_df)] ++ intro_logs E
     ++ [count_log []; PrintTable (UsageTable [])]) /\
  exists evs,
    snd (main E fuel tr) = tr ++ evs /\
    filter is_csv evs = [] /\ filter is_start_query evs = [].
Proof.
  intros Hids Hne Hdetails Hrows Hgroup Hrecent.
  assert (Hmain : main E fuel tr =
            (Finished (Raise (UnboundLocalError "output_df")),
             tr2 ++ [PrintTable (JobTable batch_job_details_df)] ++ intro_logs E
             ++ [count_log []; PrintTable (UsageTable [])])).
  { unfold main. unfold bind_run at 1. rewrite Hids.
    destruct job_id_list as [|id rest]; [contradiction|].
    unfold bind_run at 1. rewrite Hdetails.
    unfold bind_run at 1. unfold emit at 1.
    destruct batch_job_details_df as [|row rows]; [contradiction|].
    unfold bind_run at 1. rewrite Hgroup.
    replace (0 <? Z.of_nat (List.length (row :: rows))) with true
      by (symmetry; apply Z.ltb_lt; cbn [List.length]; lia).
    cbn [andb]. unfold bind_run at 1.
    rewrite (WindowFacts.no_window_run E fuel _ Hrecent).
    unfold bind_run, emit, ret, report, lift. cbn [List.length Z.of_nat Z.ltb Z.compare].
    rewrite <- !app_assoc. reflexivity. }
  split; [exact Hmain|]. rewrite Hmain. cbn [snd].
  destruct (CsvFacts.csv_free_get_batch_job_id_list E fuel tr) as (evs1 & H1 & Hn1).
  rewrite Hids in H1. cbn [snd] in H1.
  destruct (CsvFacts.csv_free_get_job_details E job_id_list tr1) as (evs2 & H2 & Hn2).
  rewrite Hdetails in H2. cbn [snd] in H2.
  destruct (RunFacts.avoids_get_batch_job_id_list is_start_query
              (fun _ _ _ => eq_refl) (fun _ _ => eq_refl) E fuel tr) as (evs1' & H1' & Hq1).
  rewrite Hids in H1'. cbn [snd] in H1'.
  destruct (RunFacts.avoids_get_job_details is_start_query
              (fun _ _ _ => eq_refl) (fun _ => eq_refl) E job_id_list tr1)
    as (evs2' & H2' & Hq2).
  rewrite Hdetails in H2'. cbn [snd] in H2'.
  assert (evs1' = evs1) by (apply (app_inv_head tr); congruence). subst evs1'.
  assert (evs2' = evs2) by (apply (app_inv_head tr1); congruence). subst evs2'.
  subst tr1 tr2.
  exists (evs1 ++ evs2 ++ [PrintTable (JobTable batch_job_details_df)] ++ intro_logs E
          ++ [count_log []; PrintTable (UsageTable [])]).
  rewrite <- !app_assoc. split; [reflexivity|].
  rewrite !filter_app, Hn1, Hn2, Hq1, Hq2. split; reflexivity.
Qed.

Lemma recent_batch_with_log_group_raises_witness :
  let E := recent_logs in
  let listed := JobIds.get_batch_job_id_list E 3 [] in
  let described := JobDetails.get_job_details E [PStr "j1"] (snd listed) in
  let table := match fst described with Finished (Ok rows) => rows | _ => [] end in
  main E 3 [] =
    (Finished (Raise (UnboundLocalError "output_df")),
     snd described ++ [PrintTable (JobTable table)] ++ intro_logs E
     ++ [count_log []; PrintTable (UsageTable [])]) /\
  exists evs,
    snd (main E 3 []) = [] ++ evs /\
    filter is_csv evs = [] /\ filter is_start_query evs = [].
Proof.
  intros E listed described table.
  apply (recent_batch_with_log_group_raises E 3 [] (snd listed) (snd described)
           [PStr "j1"] table).
  - reflexivity.
  - discriminate.
  - reflexivity.
  - vm_compute. discriminate.
  - reflexivity.
  - vm_compute. discriminate.
Defined.

(** X21. The left merge of [main] keeps every job: in the merged table a
    job has one row when no usage row has its task id, and one row per
    usage row that has it otherwise, in the order of the jobs; so the
    table has the rows of the job table when no task id occurs in two
    usage rows. *)
Theorem left_merge_keeps_jobs (usage : list usage_row) (jobs : list job_row) :
  job_rows (OutputTable (flat_map (merge_usage usage) jobs)) =
    flat_map (fun r => repeat r (Nat.max 1 (usage_rows_of usage r))) jobs /\
  (forall r, In r jobs -> In r (job_rows (OutputTable (flat_map (merge_usage usage) jobs)))) /\
  (Forall (fun r => (usage_rows_of usage r <= 1)%nat) jobs ->
   job_rows (OutputTable (flat_map (merge_usage usage) jobs)) = jobs).
Proof.
  assert (Hrows : job_rows (OutputTable (flat_map (merge_usage usage) jobs)) =
                  flat_map (fun r => repeat r (Nat.max 1 (usage_rows_of usage r))) jobs).
  { cbn [job_rows]. induction jobs as [|r jobs IH]; [reflexivity|].
    cbn [flat_map]. rewrite map_app, MergeFacts.merge_usage_rows. f_equal. exact IH. }
  split; [exact Hrows|]. rewrite Hrows. clear Hrows. split.
  - intros r Hr. apply in_flat_map. exists r. split; [exact Hr|].
    destruct (Nat.max 1 (usage_rows_of usage r)) as [|n] eqn:Hn; [lia|]. left. reflexivity.
  - intros Hall. induction Hall as [|r jobs Hr _ IH]; [reflexivity|].
    cbn [flat_map]. rewrite IH.
    replace (Nat.max 1 (usage_rows_of usage r)) with 1%nat by lia. reflexivity.
Qed.

(** X22. A job that ran on more than one task gets no usage: its task
    id is the task ids joined with bars, which is the task id of no usage
    row as long as the task ids of the logs contain no bar. *)
Theorem retried_job_gets_no_usage (usage : list usage_row) (r : job_row)
    (a b : string) (rest : list string) :
  task_id r = Text.join "|" (a :: b :: rest) ->
  (forall u t, In u usage -> g_task_id u = AStr t -> Text.has_char "|" t = false) ->
  merge_usage usage r = [(r, None)].
Proof.
  intros Hid Hplain. unfold merge_usage.
  replace (filter (fun u => Usage.atom_eqb (g_task_id u) (AStr (task_id r))) usage)
    with (@nil usage_row); [reflexivity|].
  symmetry. induction usage as [|u usage IH]; [reflexivity|].
  cbn [filter].
  assert (Hu : Usage.atom_eqb (g_task_id u) (AStr (task_id r)) = false).
  { destruct (g_task_id u) as [t|q] eqn:Ht; [|reflexivity]. cbn [Usage.atom_eqb].
    apply String.eqb_neq. intros ->.
    pose proof (Hplain u (task_id r) (or_introl eq_refl) Ht) as Hno.
    rewrite Hid, MergeFacts.bar_in_join in Hno. discriminate. }
  rewrite Hu. apply IH. intros u' t Hin. apply Hplain. right. exact Hin.
Qed.

Lemma retried_job_gets_no_usage_witness :
  merge_usage task_usage retried_row = [(retried_row, None)].
Proof.
  apply (retried_job_gets_no_usage task_usage retried_row "task-3" "task-4" []).
  - reflexivity.
  - intros u t [<-|[<-|[<-|[]]]] Ht; injection Ht as <-; reflexivity.
Defined.

End RunProperties.

(** ** Groups as a partition *)

Module PartitionFacts.
Import Frame.

Lemma filter_split_perm {A} (P : A -> bool) (l : list A) :
  Permutation (filter P l ++ filter (fun x => negb (P x)) l) l.
Proof.
  induction l as [|x l IH]; [constructor|].
  cbn [filter]. destruct (P x); cbn [negb app].
  - constructor. exact IH.
  - apply Permutation_sym, Permutation_cons_app, Permutation_sym. exact IH.
Qed.

Lemma filter_comm {A} (P Q : A -> bool) (l : list A) :
  filter P (filter Q l) = filter Q (filter P l).
Proof.
  induction l as [|x l IH]; [reflexivity|].
  cbn [filter]. destruct (P x) eqn:HP, (Q x) eqn:HQ; cbn [filter];
    rewrite ?HP, ?HQ, IH; reflexivity.
Qed.

Section Partition.
Context {K V : Type} (eqb : K -> K -> bool).
Hypothesis eqb_refl : forall k, eqb k k = true.
Hypothesis eqb_sym : forall a b, eqb a b = eqb b a.
Hypothesis eqb_trans : forall a b c, eqb a b = true -> eqb b c = true -> eqb a c = true.

(** Leaving out the keys of one class commutes with taking the distinct
    keys. *)
Lemma distinct_filter (k : K) (keys : list K) :
  filter (fun k' => negb (eqb k k')) (distinct eqb keys) =
    distinct eqb (filter (fun k' => negb (eqb k k')) keys).
Proof.
  induction keys as [|x keys IH]; [reflexivity|].
  cbn [distinct filter]. destruct (eqb k x) eqn:Hkx; cbn [negb distinct].
  - rewrite <- IH. apply FrameFacts.filter_filter_absorb.
    intros y Hy. apply negb_true_iff in Hy. apply negb_true_iff.
    destruct (eqb x y) eqn:Hxy; [|reflexivity].
    rewrite (eqb_trans k x y Hkx Hxy) in Hy. discriminate.
  - rewrite filter_comm, IH. reflexivity.
Qed.

Lemma group_by_cons (k : K) (v : V) (rest : list (K * V)) :
  let others := filter (fun kv => negb (eqb k (fst kv))) rest in
  group_by eqb ((k, v) :: rest) =
    (k, v :: members eqb k rest) :: group_by eqb others.
Proof.
  intros others. unfold group_by at 1. cbn [map fst distinct]. f_equal.
  - unfold members. cbn [filter fst]. rewrite eqb_refl. reflexivity.
  - rewrite distinct_filter.
    rewrite (FrameFacts.filter_map_swap fst (fun k' => negb (eqb k k')) rest).
    fold others. unfold group_by. apply map_ext_in. intros k' Hk'.
    apply (FrameFacts.distinct_in eqb) in Hk'. apply in_map_iff in Hk' as ([k0 v0] & <- & Hin).
    apply filter_In in Hin as [_ Hne]. cbn [fst] in Hne |- *. apply negb_true_iff in Hne.
    f_equal. unfold members, others. cbn [filter fst].
    rewrite (eqb_sym k0 k), Hne. f_equal. symmetry.
    apply FrameFacts.filter_filter_absorb.
    intros y Hy. apply negb_true_iff. destruct (eqb k (fst y)) eqn:Hky; [|reflexivity].
    rewrite eqb_sym in Hy. rewrite (eqb_trans k (fst y) k0 Hky Hy) in Hne. discriminate.
Qed.

(** The groups hold every row once. *)
Lemma group_by_partition (rows : list (K * V)) :
  Permutation (List.concat (map snd (group_by eqb rows))) (map snd rows).
Proof.
  remember (List.length rows) as n eqn:Hn.
  assert (Hle : (List.length rows <= n)%nat) by lia. clear Hn. revert rows Hle.
  induction n as [|n IH]; intros rows Hle.
  - destruct rows; [constructor | cbn [List.length] in Hle; lia].
  - destruct rows as [|[k v] rest]; [constructor|].
    rewrite group_by_cons. cbn [map snd List.concat app].
    constructor.
    etransitivity.
    + apply Permutation_app_head. apply IH.
      cbn [List.length] in Hle. pose proof (filter_length_le (fun kv => negb (eqb k (fst kv))) rest).
      lia.
    + unfold members. rewrite <- map_app. apply Permutation_map.
      apply filter_split_perm.
Qed.

End Partition.

Lemma total_app (a b : list Z) : Runs.total (a ++ b) = Runs.total a + Runs.total b.
Proof.
  unfold Runs.total. induction a as [|x a IH]; [reflexivity|].
  cbn [app fold_right]. rewrite IH. lia.
Qed.

Lemma total_perm (a b : list Z) : Permutation a b -> Runs.total a = Runs.total b.
Proof.
  unfold Runs.total. induction 1; cbn [fold_right]; lia.
Qed.

Lemma total_groups {G A} (members : G -> list A) (f : A -> Z) (groups : list G) :
  Runs.total (map (fun g => Runs.total (map f (members g))) groups) =
    Runs.total (map f (List.concat (map members groups))).
Proof.
  induction groups as [|g groups IH]; [reflexivity|].
  cbn [map List.concat]. rewrite map_app, total_app, <- IH. reflexivity.
Qed.

End PartitionFacts.

Module RollupProperties.
Import Summaries Runs.

(** X23. The high-level summary has exactly one row for each pair of a
    module number and a main module name of the submodule summary, and its
    job counts add up to the job counts of the submodule summary. *)
Theorem highlevel_counts_add_up (rows : list submodule_row) :
  total (map h_job_counts (highlevel_summary rows)) = total (map job_counts rows) /\
  forall k,
    List.length
      (filter (fun h => highlevel_key_eqb k (highlevel_key h)) (highlevel_summary rows)) =
      if existsb (fun r => highlevel_key_eqb k (submodule_key r)) rows
      then 1%nat else 0%nat.
Proof.
  unfold highlevel_summary.
  set (keyed := map (fun r => ((module_number_x r, main_module_name_x r), r)) rows).
  set (groups := Frame.group_by highlevel_key_eqb keyed).
  set (leb := fun g h : (number * string) * list submodule_row =>
                highlevel_key_leb (fst g) (fst h)).
  split.
  - rewrite map_map.
    change (fun g => h_job_counts (highlevel_row_of g))
      with (fun g : (number * string) * list submodule_row =>
              total (map job_counts (snd g))).
    rewrite (PartitionFacts.total_perm _ _
               (Permutation_map _ (FrameFacts.sort_perm leb groups))).
    rewrite (PartitionFacts.total_groups snd job_counts groups). unfold groups.
    rewrite (PartitionFacts.total_perm _ _
               (Permutation_map job_counts
                  (PartitionFacts.group_by_partition highlevel_key_eqb SummaryFacts.highlevel_key_eqb_refl
                     SummaryFacts.highlevel_key_eqb_sym SummaryFacts.highlevel_key_eqb_trans keyed))).
    unfold keyed. rewrite !map_map. reflexivity.
  - intros k. rewrite FrameFacts.filter_map_swap, length_map.
    change (fun g => highlevel_key_eqb k (highlevel_key (highlevel_row_of g)))
      with (fun g : (number * string) * list submodule_row =>
              highlevel_key_eqb k (fst g)).
    rewrite (FrameFacts.filter_perm_length _ _ _ (FrameFacts.sort_perm leb groups)).
    unfold groups.
    rewrite (FrameFacts.count_groups highlevel_key_eqb SummaryFacts.highlevel_key_eqb_sym
               SummaryFacts.highlevel_key_eqb_trans k keyed).
    unfold keyed. rewrite map_map. cbn [fst]. rewrite FrameFacts.existsb_map_swap.
    reflexivity.
Qed.

End RollupProperties.

Module InstanceProperties.
Import Main Runs.

Lemma nodup_flat_map_nodup {A} (f : string -> list A)
    (dec : forall x y : A, {x = y} + {x <> y}) (l : list string) :
  List.length (nodup dec (flat_map f (nodup string_dec l))) =
    List.length (nodup dec (flat_map f l)).
Proof.
  apply Permutation_length, NoDup_Permutation; try apply NoDup_nodup.
  intros x. rewrite !nodup_In, !in_flat_map. split.
  - intros (s & Hs & Hx). exists s. split; [|exact Hx]. apply nodup_In in Hs. exact Hs.
  - intros (s & Hs & Hx). exists s. split; [|exact Hx]. apply nodup_In. exact Hs.
Qed.

(** X24. The number of EC2 instances that [main] logs is the number of
    distinct instance ids over all jobs, an instance shared by several
    jobs being counted once; a job without instance, such as a job that
    has no attempt, adds the empty id to the ids counted. *)
Theorem instance_count_is_distinct_ids (rows : list job_row) :
  instance_count rows =
    Z.of_nat (List.length (nodup string_dec (flat_map pieces rows))) /\
  (forall r,
      In r rows -> instance_arn_endings r = ""%string ->
      In ""%string (nodup string_dec (flat_map pieces rows)) /\ 1 <= instance_count rows).
Proof.
  assert (Hcount : instance_count rows =
                   Z.of_nat (List.length (nodup string_dec (flat_map pieces rows)))).
  { unfold instance_count.
    rewrite (nodup_flat_map_nodup (fun i => Text.split "|" i) string_dec).
    rewrite flat_map_concat_map, map_map, <- flat_map_concat_map. reflexivity. }
  split; [exact Hcount|].
  intros r Hr Hempty.
  assert (Hin : In ""%string (nodup string_dec (flat_map pieces rows))).
  { apply nodup_In, in_flat_map. exists r. split; [exact Hr|].
    unfold pieces. rewrite Hempty. left. reflexivity. }
  split; [exact Hin|]. rewrite Hcount.
  destruct (nodup string_dec (flat_map pieces rows)); [contradiction|].
  cbn [List.length]. lia.
Qed.

End InstanceProperties.
